(** * Flusso FLS110 conversion routines: a shallow embedding of [main.c]

    The program evaluates the FLS110 calibration formula on five inputs
    and reports a calibrated mass flow and a calibrated differential
    pressure.  Its doubles live on an uncertainty-tracking runtime, which
    is an external collaborator: the embedding is parametric in the
    arithmetic of [double] ([DoubleArithmetic]) and in the functions
    [main.c] calls without defining them ([Platform]).

    Layout: the constants of [utilities-config.h]; [calculateSensorOutput]
    and [setInputDistributionsViaUxHwCall]; [main], phase by phase, as a
    transformer of its local variables, of the state of the platform and
    of the sequence of calls that leave the program; an interpretation of
    both parameters over exact rationals ([Exact]), on which every
    statement is run; then the statements. *)

From Stdlib Require Import ZArith NArith QArith Qround Lia.
From stdpp Require Import base option list strings.

Local Open Scope N_scope.

(** ** Machine integers *)

(** [size_t] is an unsigned 64-bit integer; arithmetic on it wraps. *)
Definition SIZE_WIDTH : N := 64.
Definition SIZE_MODULUS : N := 2 ^ SIZE_WIDTH.
Definition size_wrap (x : N) : N := x mod SIZE_MODULUS.
Definition size_mul (a b : N) : N := size_wrap (a * b).
Definition size_succ (i : N) : N := size_wrap (i + 1).
Definition sizeof_double : N := 8.

(** ** Decimal literals of [utilities-config.h] *)

(** A C floating constant such as [2499.26] is kept as written: the
    integer made of its digits and the number of digits after the point.
    The runtime decides how it is rounded to a [double]. *)
Record DecimalLiteral : Type := Decimal {
  mantissa : Z;
  fraction_digits : nat
}.

Definition literal_value (l : DecimalLiteral) : Q :=
  Qmake (mantissa l) (Z.to_pos (10 ^ Z.of_nat (fraction_digits l))).

Definition kSensorCalibrationConstant1 : DecimalLiteral := Decimal 249926 2.
Definition kSensorCalibrationConstant2 : DecimalLiteral := Decimal 11768220 2.
Definition kSensorCalibrationConstant3 : DecimalLiteral := Decimal (-31436400) 2.

Definition kDefaultInputDistributionHxferUniformDistLow : DecimalLiteral := Decimal 10 3.
Definition kDefaultInputDistributionHxferUniformDistHigh : DecimalLiteral := Decimal 50 3.

Definition kDefaultInputDistributionTflowUniformDistLow : DecimalLiteral := Decimal 2930 1.
Definition kDefaultInputDistributionTflowUniformDistHigh : DecimalLiteral := Decimal 2940 1.

Definition kDefaultInputDistributionT0UniformDistLow : DecimalLiteral := Decimal 2730 1.
Definition kDefaultInputDistributionT0UniformDistHigh : DecimalLiteral := Decimal 2735 1.

Definition kDefaultInputDistributionPflowUniformDistLow : DecimalLiteral := Decimal 42000000 2.
Definition kDefaultInputDistributionPflowUniformDistHigh : DecimalLiteral := Decimal 42500000 2.

Definition kDefaultInputDistributionP0UniformDistLow : DecimalLiteral := Decimal 40000000 2.
Definition kDefaultInputDistributionP0UniformDistHigh : DecimalLiteral := Decimal 40500000 2.

(** ** The two index enumerations *)

Definition kInputDistributionIndexHxfer : N := 0.
Definition kInputDistributionIndexTflow : N := 1.
Definition kInputDistributionIndexT0 : N := 2.
Definition kInputDistributionIndexPflow : N := 3.
Definition kInputDistributionIndexP0 : N := 4.
Definition kInputDistributionIndexMax : N := 5.

Definition kOutputDistributionIndexCalibratedMassFlowOutput : N := 0.
Definition kOutputDistributionIndexCalibratedDifferentialPressureOutput : N := 1.
Definition kOutputDistributionIndexMax : N := 2.

(** ** Command line arguments *)

(** Modelled from the spec: the declaration of [CommandLineArguments] is
    in [utilities.h], which is not among the sources.  These are the
    fields [main.c] reads, each with the type its use there requires
    (a flag tested in a condition, a [size_t] loop bound, an index
    compared with the output enumeration, a file path). *)
Record CommonCommandLineArguments : Type := {
  outputFilePath : string;
  isWriteToFileEnabled : bool;
  isTimingEnabled : bool;
  numberOfMonteCarloIterations : N;
  outputSelect : N;
  isOutputJSONMode : bool;
  isBenchmarkingMode : bool;
  isMonteCarloMode : bool
}.

Record CommandLineArguments : Type := {
  common : CommonCommandLineArguments
}.

(** ** Arithmetic of the runtime *)

(** What the program asks of [double]: rounding a literal, converting an
    integer, the three operators it uses, [pow] of the C library, and the
    conversion to [uint64_t]. *)
Class DoubleArithmetic : Type := {
  double : Type;
  double_of_literal : DecimalLiteral -> double;
  double_of_int : Z -> double;
  double_add : double -> double -> double;
  double_mul : double -> double -> double;
  double_div : double -> double -> double;
  pow : double -> double -> double;
  uint64_of_double : double -> Z
}.

(** ** Memory cells *)

(** A [double] object is a cell: [None] until it is assigned.  Copying a
    cell copies its content; an operator applied to an unassigned cell
    yields no value. *)
Declare Scope cell_scope.
Delimit Scope cell_scope with C.

Section Cells.
Context `{DoubleArithmetic}.

Definition cell_lift2 (f : double -> double -> double)
    (x y : option double) : option double :=
  match x, y with
  | Some a, Some b => Some (f a b)
  | _, _ => None
  end.

Definition cell_add := cell_lift2 double_add.
Definition cell_mul := cell_lift2 double_mul.
Definition cell_div := cell_lift2 double_div.
Definition cell_pow := cell_lift2 pow.
Definition cell_literal (l : DecimalLiteral) : option double :=
  Some (double_of_literal l).
Definition cell_int (z : Z) : option double := Some (double_of_int z).

(** [a[i]] as an rvalue and [a[i] = v].  Inside the array these are the
    C operations; outside it, where C leaves the behaviour undefined,
    [load] finds nothing and [store] changes nothing. *)
Definition load (a : list (option double)) (i : N) : option double :=
  mjoin (a !! N.to_nat i).
Definition store (a : list (option double)) (i : N) (v : option double)
    : list (option double) :=
  <[N.to_nat i := v]> a.

End Cells.

Infix "+" := cell_add : cell_scope.
Infix "*" := cell_mul : cell_scope.
Infix "/" := cell_div : cell_scope.

(** ** [calculateSensorOutput] *)

Section Calculate.
Context `{DoubleArithmetic}.

Definition calculateSensorOutput (arguments : CommandLineArguments)
    (inputDistributions outputDistributions : list (option double))
    : option double * list (option double) :=
  let calibratedValue : option double := None in
  let calculateAllOutputs :=
    outputSelect (common arguments) =? kOutputDistributionIndexMax in
  let h := load inputDistributions kInputDistributionIndexHxfer in
  let m :=
    (cell_literal kSensorCalibrationConstant3 * cell_pow h (cell_int 3)
     + cell_literal kSensorCalibrationConstant2 * cell_pow h (cell_int 2)
     + cell_literal kSensorCalibrationConstant1)%C in
  let '(calibratedValue, outputDistributions) :=
    if calculateAllOutputs
       || (outputSelect (common arguments)
           =? kOutputDistributionIndexCalibratedMassFlowOutput)
    then
      let calibratedValue := m in
      (calibratedValue,
       store outputDistributions
         kOutputDistributionIndexCalibratedMassFlowOutput calibratedValue)
    else (calibratedValue, outputDistributions) in
  let '(calibratedValue, outputDistributions) :=
    if calculateAllOutputs
       || (outputSelect (common arguments)
           =? kOutputDistributionIndexCalibratedDifferentialPressureOutput)
    then
      let Tflow := load inputDistributions kInputDistributionIndexTflow in
      let T0 := load inputDistributions kInputDistributionIndexT0 in
      let Pflow := load inputDistributions kInputDistributionIndexPflow in
      let P0 := load inputDistributions kInputDistributionIndexP0 in
      let calibratedValue := (m * (Tflow / T0) * (P0 / Pflow))%C in
      (calibratedValue,
       store outputDistributions
         kOutputDistributionIndexCalibratedDifferentialPressureOutput
         calibratedValue)
    else (calibratedValue, outputDistributions) in
  (calibratedValue, outputDistributions).
End Calculate.

(** ** The platform: library calls made by [main] *)

(** Modelled from the spec: [MeanAndVariance] is declared in
    [utilities.h], which is not among the sources; [main.c] reads its
    field [mean], and the spec names the computation a mean and variance
    aggregation. *)
Record MeanAndVariance `{DoubleArithmetic} : Type := {
  mean : double;
  variance : double
}.

(** One entry per call [main] makes, once it has read its arguments, to a
    function defined outside [main.c] (the arithmetic of [math.h] apart),
    with the arguments passed and, where the program uses it, the result
    returned. *)
Inductive Event `{DoubleArithmetic} : Type :=
| CallCheckedMalloc (size : N)
| CallClock (ticks : Z)
| CallUxHwDoubleUniformDist (low high sample : double)
| CallCalculateMeanAndVarianceOfDoubleSamples
    (samples : option (list (option double))) (count : N)
| CallPrintfBenchmark (value : option double) (microseconds : option Z)
| CallPrintCalibratedValueAndProbabilities
    (value : option double) (name unit : option string)
| CallPrintJSONFormattedOutput
    (samples : option (list (option double)))
    (outputs : list (option double))
| CallPrintfCpuTime (seconds : option double)
| CallWriteOutputDoubleDistributionsToCSV
    (path : string) (outputs : list (option double)) (count : N)
    (result : Z)
| CallSaveMonteCarloDoubleDataToDataDotOutFile
    (samples : option (list (option double))) (microseconds : option Z)
    (count : N)
| CallFree (samples : option (list (option double))).

(** The functions [main.c] calls and does not define.  [World] is whatever
    they keep between calls: the state of the sampler, the clock, the file
    system.  A result of [getCommandLineArguments] or of
    [writeOutputDoubleDistributionsToCSV] other than zero is an error. *)
Class Platform `{DoubleArithmetic} : Type := {
  World : Type;
  getCommandLineArguments :
    list string -> CommandLineArguments -> Z * CommandLineArguments;
  UxHwDoubleUniformDist : double -> double -> World -> double * World;
  clock : World -> Z * World;
  CLOCKS_PER_SEC : Z;
  calculateMeanAndVarianceOfDoubleSamples :
    option (list (option double)) -> N -> MeanAndVariance;
  writeOutputDoubleDistributionsToCSV :
    string -> list (option double) -> list string -> N -> World -> Z * World;
  kCommonConstantReturnTypeError : Z
}.

(** ** [setInputDistributionsViaUxHwCall] *)

Section SetInputs.
Context `{Platform}.

(** One assignment [inputDistributions[index] = UxHwDoubleUniformDist(low, high)]:
    the array, the world and the calls made so far go in and come out. *)
Definition assignUniform (index : N) (low high : DecimalLiteral)
    (s : list (option double) * World * list Event)
    : list (option double) * World * list Event :=
  let '(inputDistributions, w, calls) := s in
  let '(sample, w) :=
    UxHwDoubleUniformDist (double_of_literal low) (double_of_literal high) w in
  (store inputDistributions index (Some sample), w,
   calls ++ [CallUxHwDoubleUniformDist
               (double_of_literal low) (double_of_literal high) sample]).

Definition setInputDistributionsViaUxHwCall
    (inputDistributions : list (option double)) (w : World)
    : list (option double) * World * list Event :=
  let s := (inputDistributions, w, []) in
  let s := assignUniform kInputDistributionIndexHxfer
             kDefaultInputDistributionHxferUniformDistLow
             kDefaultInputDistributionHxferUniformDistHigh s in
  let s := assignUniform kInputDistributionIndexTflow
             kDefaultInputDistributionTflowUniformDistLow
             kDefaultInputDistributionTflowUniformDistHigh s in
  let s := assignUniform kInputDistributionIndexT0
             kDefaultInputDistributionT0UniformDistLow
             kDefaultInputDistributionT0UniformDistHigh s in
  let s := assignUniform kInputDistributionIndexPflow
             kDefaultInputDistributionPflowUniformDistLow
             kDefaultInputDistributionPflowUniformDistHigh s in
  let s := assignUniform kInputDistributionIndexP0
             kDefaultInputDistributionP0UniformDistLow
             kDefaultInputDistributionP0UniformDistHigh s in
  s.

End SetInputs.

(** ** [main] *)

Section Main.
Context `{Platform}.

(** The local variables of [main], the world, and the calls made so far
    in the order they were made. *)
Record MainState : Type := {
  arguments : CommandLineArguments;
  calibratedSensorOutput : option double;
  monteCarloOutputSamples : option (list (option double));
  start : option Z;
  end_ : option Z;
  cpuTimeUsedSeconds : option double;
  inputDistributions : list (option double);
  outputDistributions : list (option double);
  meanAndVariance : option MeanAndVariance;
  world : World;
  trace : list Event
}.

Definition set_arguments (a : CommandLineArguments) (st : MainState) :=
  {| arguments := a;
     calibratedSensorOutput := calibratedSensorOutput st;
     monteCarloOutputSamples := monteCarloOutputSamples st;
     start := start st; end_ := end_ st;
     cpuTimeUsedSeconds := cpuTimeUsedSeconds st;
     inputDistributions := inputDistributions st;
     outputDistributions := outputDistributions st;
     meanAndVariance := meanAndVariance st;
     world := world st; trace := trace st |}.

Definition set_calibratedSensorOutput (v : option double) (st : MainState) :=
  {| arguments := arguments st; calibratedSensorOutput := v;
     monteCarloOutputSamples := monteCarloOutputSamples st;
     start := start st; end_ := end_ st;
     cpuTimeUsedSeconds := cpuTimeUsedSeconds st;
     inputDistributions := inputDistributions st;
     outputDistributions := outputDistributions st;
     meanAndVariance := meanAndVariance st;
     world := world st; trace := trace st |}.

Definition set_monteCarloOutputSamples
    (b : option (list (option double))) (st : MainState) :=
  {| arguments := arguments st;
     calibratedSensorOutput := calibratedSensorOutput st;
     monteCarloOutputSamples := b;
     start := start st; end_ := end_ st;
     cpuTimeUsedSeconds := cpuTimeUsedSeconds st;
     inputDistributions := inputDistributions st;
     outputDistributions := outputDistributions st;
     meanAndVariance := meanAndVariance st;
     world := world st; trace := trace st |}.

Definition set_start (t : option Z) (st : MainState) :=
  {| arguments := arguments st;
     calibratedSensorOutput := calibratedSensorOutput st;
     monteCarloOutputSamples := monteCarloOutputSamples st;
     start := t; end_ := end_ st;
     cpuTimeUsedSeconds := cpuTimeUsedSeconds st;
     inputDistributions := inputDistributions st;
     outputDistributions := outputDistributions st;
     meanAndVariance := meanAndVariance st;
     world := world st; trace := trace st |}.

Definition set_end (t : option Z) (st : MainState) :=
  {| arguments := arguments st;
     calibratedSensorOutput := calibratedSensorOutput st;
     monteCarloOutputSamples := monteCarloOutputSamples st;
     start := start st; end_ := t;
     cpuTimeUsedSeconds := cpuTimeUsedSeconds st;
     inputDistributions := inputDistributions st;
     outputDistributions := outputDistributions st;
     meanAndVariance := meanAndVariance st;
     world := world st; trace := trace st |}.

Definition set_cpuTimeUsedSeconds (v : option double) (st : MainState) :=
  {| arguments := arguments st;
     calibratedSensorOutput := calibratedSensorOutput st;
     monteCarloOutputSamples := monteCarloOutputSamples st;
     start := start st; end_ := end_ st;
     cpuTimeUsedSeconds := v;
     inputDistributions := inputDistributions st;
     outputDistributions := outputDistributions st;
     meanAndVariance := meanAndVariance st;
     world := world st; trace := trace st |}.

Definition set_inputDistributions (a : list (option double)) (st : MainState) :=
  {| arguments := arguments st;
     calibratedSensorOutput := calibratedSensorOutput st;
     monteCarloOutputSamples := monteCarloOutputSamples st;
     start := start st; end_ := end_ st;
     cpuTimeUsedSeconds := cpuTimeUsedSeconds st;
     inputDistributions := a;
     outputDistributions := outputDistributions st;
     meanAndVariance := meanAndVariance st;
     world := world st; trace := trace st |}.

Definition set_outputDistributions (a : list (option double)) (st : MainState) :=
  {| arguments := arguments st;
     calibratedSensorOutput := calibratedSensorOutput st;
     monteCarloOutputSamples := monteCarloOutputSamples st;
     start := start st; end_ := end_ st;
     cpuTimeUsedSeconds := cpuTimeUsedSeconds st;
     inputDistributions := inputDistributions st;
     outputDistributions := a;
     meanAndVariance := meanAndVariance st;
     world := world st; trace := trace st |}.

Definition set_meanAndVariance (mv : option MeanAndVariance) (st : MainState) :=
  {| arguments := arguments st;
     calibratedSensorOutput := calibratedSensorOutput st;
     monteCarloOutputSamples := monteCarloOutputSamples st;
     start := start st; end_ := end_ st;
     cpuTimeUsedSeconds := cpuTimeUsedSeconds st;
     inputDistributions := inputDistributions st;
     outputDistributions := outputDistributions st;
     meanAndVariance := mv;
     world := world st; trace := trace st |}.

Definition set_world (w : World) (st : MainState) :=
  {| arguments := arguments st;
     calibratedSensorOutput := calibratedSensorOutput st;
     monteCarloOutputSamples := monteCarloOutputSamples st;
     start := start st; end_ := end_ st;
     cpuTimeUsedSeconds := cpuTimeUsedSeconds st;
     inputDistributions := inputDistributions st;
     outputDistributions := outputDistributions st;
     meanAndVariance := meanAndVariance st;
     world := w; trace := trace st |}.

(** A call leaves the program: it is appended to the calls made so far. *)
Definition emit (calls : list Event) (st : MainState) :=
  {| arguments := arguments st;
     calibratedSensorOutput := calibratedSensorOutput st;
     monteCarloOutputSamples := monteCarloOutputSamples st;
     start := start st; end_ := end_ st;
     cpuTimeUsedSeconds := cpuTimeUsedSeconds st;
     inputDistributions := inputDistributions st;
     outputDistributions := outputDistributions st;
     meanAndVariance := meanAndVariance st;
     world := world st; trace := trace st ++ calls |}.

Definition outputVariableNames : list string :=
  ["Calibrated Mass Flow"; "Calibrated Differential Pressure"]%string.

Definition unitsOfMeasurement : list string := ["sccm"; "Pa"]%string.

(** [CommandLineArguments arguments = {0}]. *)
Definition zeroArguments : CommandLineArguments :=
  {| common := {| outputFilePath := ""; isWriteToFileEnabled := false;
                  isTimingEnabled := false;
                  numberOfMonteCarloIterations := 0; outputSelect := 0;
                  isOutputJSONMode := false; isBenchmarkingMode := false;
                  isMonteCarloMode := false |} |}.

(** The declarations at the head of [main]: only [arguments] and
    [monteCarloOutputSamples] have an initialiser. *)
Definition initialState (w : World) : MainState :=
  {| arguments := zeroArguments;
     calibratedSensorOutput := None;
     monteCarloOutputSamples := None;
     start := None; end_ := None;
     cpuTimeUsedSeconds := None;
     inputDistributions := replicate (N.to_nat kInputDistributionIndexMax) None;
     outputDistributions := replicate (N.to_nat kOutputDistributionIndexMax) None;
     meanAndVariance := None;
     world := w; trace := [] |}.

(** Modelled from the spec: [checkedMalloc] is defined outside the sources.
    It is taken to return a fresh block of [size] bytes or not to return at
    all; the block is seen as the [double] cells it has room for, none of
    them assigned. *)
Definition checkedMalloc (size : N) : list (option double) :=
  replicate (N.to_nat (size / sizeof_double)) None.

(** Lines 149-155. *)
Definition allocateSamples (st : MainState) : MainState :=
  if isMonteCarloMode (common (arguments st)) then
    let size :=
      size_mul (numberOfMonteCarloIterations (common (arguments st)))
               sizeof_double in
    set_monteCarloOutputSamples (Some (checkedMalloc size))
      (emit [CallCheckedMalloc size] st)
  else st.

(** Lines 160-163. *)
Definition startTiming (st : MainState) : MainState :=
  if isTimingEnabled (common (arguments st))
     || isBenchmarkingMode (common (arguments st))
  then
    let '(t, w) := clock (world st) in
    set_start (Some t) (set_world w (emit [CallClock t] st))
  else st.

(** The body of the loop of lines 165-183, at index [i].  In Monte Carlo
    mode [monteCarloOutputSamples] is the block of [allocateSamples]; the
    assignment through it has nothing to change when it is [NULL]. *)
Definition loopBody (i : N) (st : MainState) : MainState :=
  let '(inputs, w, calls) :=
    setInputDistributionsViaUxHwCall (inputDistributions st) (world st) in
  let st := set_inputDistributions inputs (set_world w (emit calls st)) in
  let '(value, outputs) :=
    calculateSensorOutput (arguments st) (inputDistributions st)
      (outputDistributions st) in
  let st := set_calibratedSensorOutput value (set_outputDistributions outputs st) in
  if isMonteCarloMode (common (arguments st)) then
    set_monteCarloOutputSamples
      ((fun samples => store samples i (calibratedSensorOutput st))
         <$> monteCarloOutputSamples st) st
  else st.

(** [for (size_t i = 0; i < numberOfMonteCarloIterations; i++)], entered
    at index [i].  The fuel bounds the number of iterations the embedding
    follows; [None] is fuel exhausted with the test still true. *)
Fixpoint monteCarloLoop (fuel : nat) (i : N) (st : MainState)
    : option MainState :=
  if i <? numberOfMonteCarloIterations (common (arguments st)) then
    match fuel with
    | O => None
    | S fuel => monteCarloLoop fuel (size_succ i) (loopBody i st)
    end
  else Some st.

(** Lines 189-195. *)
Definition aggregateSamples (st : MainState) : MainState :=
  if isMonteCarloMode (common (arguments st)) then
    let mv :=
      calculateMeanAndVarianceOfDoubleSamples (monteCarloOutputSamples st)
        (numberOfMonteCarloIterations (common (arguments st))) in
    set_calibratedSensorOutput (Some (mean mv))
      (set_meanAndVariance (Some mv)
         (emit [CallCalculateMeanAndVarianceOfDoubleSamples
                  (monteCarloOutputSamples st)
                  (numberOfMonteCarloIterations (common (arguments st)))]
            st))
  else st.

(** Lines 200-204.  [end - start] is taken in the integers: [clock_t] is
    signed and its overflow is not defined. *)
Definition stopTiming (st : MainState) : MainState :=
  if isTimingEnabled (common (arguments st))
     || isBenchmarkingMode (common (arguments st))
  then
    let '(t, w) := clock (world st) in
    let st := set_end (Some t) (set_world w (emit [CallClock t] st)) in
    set_cpuTimeUsedSeconds
      (match end_ st, start st with
       | Some e, Some s =>
           Some (double_div (double_of_int (e - s))
                            (double_of_int CLOCKS_PER_SEC))
       | _, _ => None
       end) st
  else st.

(** [(uint64_t)(cpuTimeUsedSeconds*1000000)]. *)
Definition microsecondsOf (seconds : option double) : option Z :=
  uint64_of_double <$> (seconds * cell_int 1000000)%C.

(** Lines 206-273.  The first component is the value of an early
    [return], if one is taken. *)
Definition reportResults (st : MainState) : option Z * MainState :=
  let a := common (arguments st) in
  if isBenchmarkingMode a then
    (None,
     emit [CallPrintfBenchmark (calibratedSensorOutput st)
             (microsecondsOf (cpuTimeUsedSeconds st))] st)
  else
    let st :=
      if negb (isOutputJSONMode a) then
        if outputSelect a =? kOutputDistributionIndexMax then
          foldl (fun st i =>
                   emit [CallPrintCalibratedValueAndProbabilities
                           (load (outputDistributions st) i)
                           (outputVariableNames !! N.to_nat i)
                           (unitsOfMeasurement !! N.to_nat i)] st)
                st
                (N.of_nat <$> seq 0 (N.to_nat kOutputDistributionIndexMax))
        else
          emit [CallPrintCalibratedValueAndProbabilities
                  (calibratedSensorOutput st)
                  (outputVariableNames !! N.to_nat (outputSelect a))
                  (unitsOfMeasurement !! N.to_nat (outputSelect a))] st
      else
        emit [CallPrintJSONFormattedOutput (monteCarloOutputSamples st)
                (outputDistributions st)] st in
    let st :=
      if isTimingEnabled a then
        emit [CallPrintfCpuTime (cpuTimeUsedSeconds st)] st
      else st in
    if isWriteToFileEnabled a then
      let '(result, w) :=
        writeOutputDoubleDistributionsToCSV (outputFilePath a)
          (outputDistributions st) outputVariableNames
          kOutputDistributionIndexMax (world st) in
      let st :=
        set_world w
          (emit [CallWriteOutputDoubleDistributionsToCSV (outputFilePath a)
                   (outputDistributions st) kOutputDistributionIndexMax
                   result] st) in
      if negb (result =? 0)%Z then (Some kCommonConstantReturnTypeError, st)
      else (None, st)
    else (None, st).

(** Lines 279-287. *)
Definition saveAndFree (st : MainState) : MainState :=
  if isMonteCarloMode (common (arguments st)) then
    emit [CallSaveMonteCarloDoubleDataToDataDotOutFile
            (monteCarloOutputSamples st)
            (microsecondsOf (cpuTimeUsedSeconds st))
            (numberOfMonteCarloIterations (common (arguments st)));
          CallFree (monteCarloOutputSamples st)] st
  else st.

(** What [main] does once the arguments are read without error. *)
Definition runWithArguments (st : MainState) : option (Z * MainState) :=
  let st := allocateSamples st in
  let st := startTiming st in
  match
    monteCarloLoop
      (N.to_nat (numberOfMonteCarloIterations (common (arguments st)))) 0 st
  with
  | None => None
  | Some st =>
      let st := aggregateSamples st in
      let st := stopTiming st in
      match reportResults st with
      | (Some code, st) => Some (code, st)
      | (None, st) => Some (0%Z, saveAndFree st)
      end
  end.

(** [main]: the value returned and the state it is returned in.  [None]
    is the loop out of fuel, which [main_returns] excludes. *)
Definition main (argv : list string) (w : World) : option (Z * MainState) :=
  let st := initialState w in
  let '(error, a) := getCommandLineArguments argv (arguments st) in
  let st := set_arguments a st in
  if negb (error =? 0)%Z then Some (kCommonConstantReturnTypeError, st)
  else runWithArguments st.

(** *** Notions used to state what [main] does *)

(** The state after the first [k] iterations of the loop entered in [st]:
    iteration [k] runs the body at index [k] on the state the first [k]
    iterations leave. *)
Fixpoint afterIterations (k : nat) (st : MainState) : MainState :=
  match k with
  | O => st
  | S k => loopBody (N.of_nat k) (afterIterations k st)
  end.

Definition isSamplerCall (e : Event) : bool :=
  match e with CallUxHwDoubleUniformDist _ _ _ => true | _ => false end.

Definition isCheckedMallocCall (e : Event) : bool :=
  match e with CallCheckedMalloc _ => true | _ => false end.

Definition isFreeCall (e : Event) : bool :=
  match e with CallFree _ => true | _ => false end.

Definition isSaveCall (e : Event) : bool :=
  match e with
  | CallSaveMonteCarloDoubleDataToDataDotOutFile _ _ _ => true
  | _ => false
  end.

(** The calls of the computation itself: the clock, the sampler and the
    aggregation of the samples. *)
Definition isComputationCall (e : Event) : bool :=
  match e with
  | CallClock _ | CallUxHwDoubleUniformDist _ _ _
  | CallCalculateMeanAndVarianceOfDoubleSamples _ _ => true
  | _ => false
  end.

Definition isLifecycleCall (e : Event) : bool :=
  isCheckedMallocCall e || isSaveCall e || isFreeCall e.

Definition isClockCall (e : Event) : bool :=
  match e with CallClock _ => true | _ => false end.

Definition isCsvCall (e : Event) : bool :=
  match e with
  | CallWriteOutputDoubleDistributionsToCSV _ _ _ _ => true
  | _ => false
  end.

(** The calls that put a calibrated value on the standard output. *)
Definition isValueReportCall (e : Event) : bool :=
  match e with
  | CallPrintfBenchmark _ _
  | CallPrintCalibratedValueAndProbabilities _ _ _
  | CallPrintJSONFormattedOutput _ _ => true
  | _ => false
  end.

(** The state in which [main] enters the loop, once
    [getCommandLineArguments] has filled in [a]. *)
Definition loopEntry (a : CommandLineArguments) (w : World) : MainState :=
  startTiming (allocateSamples (set_arguments a (initialState w))).

End Main.

(** ** An interpretation over exact rationals *)

(** The arithmetic read in the rationals, every operator exact, and a
    platform small enough to run: a sampler that walks through four points
    of the requested interval, a clock that advances at every reading, and
    a CSV writer with a fixed answer. *)
Module Exact.

Definition exactPow (x y : Q) : Q := Qred (Qpower x (Qfloor y)).

#[export] Instance arithmetic : DoubleArithmetic := {|
  double := Q;
  double_of_literal l := Qred (literal_value l);
  double_of_int z := inject_Z z;
  double_add x y := Qred (x + y);
  double_mul x y := Qred (x * y);
  double_div x y := Qred (x / y);
  pow := exactPow;
  uint64_of_double x := (Qfloor x mod 2 ^ 64)%Z
|}.

Record ExactWorld : Type := {
  samplerCalls : N;
  ticks : Z
}.

(** The point of [[low, high]] at 1/8, 3/8, 5/8 or 7/8 of the way, by the
    number of samples drawn so far. *)
Definition exactUniform (low high : Q) (w : ExactWorld) : Q * ExactWorld :=
  (Qred (low + (high - low)
               * (inject_Z (Z.of_N (2 * (samplerCalls w mod 4) + 1)) / 8)),
   {| samplerCalls := samplerCalls w + 1; ticks := ticks w |}).

Definition exactClock (w : ExactWorld) : Z * ExactWorld :=
  (ticks w,
   {| samplerCalls := samplerCalls w; ticks := (ticks w + 250)%Z |}).

(** Modelled from the spec: [calculateMeanAndVarianceOfDoubleSamples] is
    defined outside the sources; the spec names it a streaming mean and
    variance computation.  One pass over the first [count] samples keeps
    the number seen, the running mean and the sum of squared deviations. *)
Definition streamingStep (acc : Q * Q * Q) (x : option Q) : Q * Q * Q :=
  let '(k, m, s) := acc in
  let v := default 0%Q x in
  let k' := Qred (k + 1) in
  let m' := Qred (m + (v - m) / k') in
  (k', m', Qred (s + (v - m) * (v - m'))).

Definition exactMeanAndVariance (samples : option (list (option Q)))
    (count : N) : MeanAndVariance :=
  let '(k, m, s) :=
    foldl streamingStep (0%Q, 0%Q, 0%Q)
      (take (N.to_nat count) (default [] samples)) in
  {| mean := m; variance := Qred (s / k) |}.

(** The platform on which [getCommandLineArguments] answers [error] and
    leaves [a] in the argument structure, and on which the CSV writer
    answers [csv]. *)
#[export] Instance platform (error csv : Z) (a : CommandLineArguments)
    : Platform := {|
  World := ExactWorld;
  getCommandLineArguments _ _ := (error, a);
  UxHwDoubleUniformDist := exactUniform;
  clock := exactClock;
  CLOCKS_PER_SEC := 1000000%Z;
  calculateMeanAndVarianceOfDoubleSamples := exactMeanAndVariance;
  writeOutputDoubleDistributionsToCSV _ _ _ _ w := (csv, w);
  kCommonConstantReturnTypeError := 1%Z
|}.

Definition world0 : ExactWorld := {| samplerCalls := 0; ticks := 1000 |}.

(** A reading inside the configured intervals: heat transfer 0.03 W, flow
    at 293.5 K and 421 kPa, reference at 273.25 K and 401 kPa. *)
Definition exampleInputs : list (option Q) :=
  [Some 0.03%Q; Some 293.5%Q; Some 273.25%Q; Some 421000%Q; Some 401000%Q].

Definition arguments_of (sel n : N) (mc timing bench json write : bool)
    : CommandLineArguments :=
  {| common := {| outputFilePath := "out.csv"; isWriteToFileEnabled := write;
                  isTimingEnabled := timing;
                  numberOfMonteCarloIterations := n; outputSelect := sel;
                  isOutputJSONMode := json; isBenchmarkingMode := bench;
                  isMonteCarloMode := mc |} |}.

End Exact.

(** ** Statements about [calculateSensorOutput] *)

Declare Scope double_scope.
Delimit Scope double_scope with D.
Infix "+" := double_add : double_scope.
Infix "*" := double_mul : double_scope.
Infix "/" := double_div : double_scope.

Section CalculateFacts.
Context `{DoubleArithmetic}.

Implicit Types (a : CommandLineArguments) (ins outs : list (option double)).

Lemma lookup_store_eq outs i v :
  (N.to_nat i < length outs)%nat -> store outs i v !! N.to_nat i = Some v.
Proof. intros Hi. unfold store. by apply list_lookup_insert_eq. Qed.

Lemma lookup_store_ne outs i j v :
  N.to_nat i <> j -> store outs i v !! j = outs !! j.
Proof. intros Hij. unfold store. by apply list_lookup_insert_ne. Qed.

Lemma length_store outs i v : length (store outs i v) = length outs.
Proof. unfold store. apply length_insert. Qed.

(** The three shapes [calculateSensorOutput] takes, by [outputSelect]. *)
Lemma calculateSensorOutput_mass_flow_only a ins outs :
  outputSelect (common a) = kOutputDistributionIndexCalibratedMassFlowOutput ->
  calculateSensorOutput a ins outs =
  let m :=
    (cell_literal kSensorCalibrationConstant3
       * cell_pow (load ins kInputDistributionIndexHxfer) (cell_int 3)
     + cell_literal kSensorCalibrationConstant2
       * cell_pow (load ins kInputDistributionIndexHxfer) (cell_int 2)
     + cell_literal kSensorCalibrationConstant1)%C in
  (m, store outs kOutputDistributionIndexCalibratedMassFlowOutput m).
Proof. intros Hsel. unfold calculateSensorOutput. by rewrite Hsel. Qed.

Lemma calculateSensorOutput_pressure_only a ins outs :
  outputSelect (common a)
  = kOutputDistributionIndexCalibratedDifferentialPressureOutput ->
  calculateSensorOutput a ins outs =
  let m :=
    (cell_literal kSensorCalibrationConstant3
       * cell_pow (load ins kInputDistributionIndexHxfer) (cell_int 3)
     + cell_literal kSensorCalibrationConstant2
       * cell_pow (load ins kInputDistributionIndexHxfer) (cell_int 2)
     + cell_literal kSensorCalibrationConstant1)%C in
  let p :=
    (m * (load ins kInputDistributionIndexTflow
          / load ins kInputDistributionIndexT0)
       * (load ins kInputDistributionIndexP0
          / load ins kInputDistributionIndexPflow))%C in
  (p, store outs kOutputDistributionIndexCalibratedDifferentialPressureOutput p).
Proof. intros Hsel. unfold calculateSensorOutput. by rewrite Hsel. Qed.

Lemma calculateSensorOutput_all a ins outs :
  outputSelect (common a) = kOutputDistributionIndexMax ->
  calculateSensorOutput a ins outs =
  let m :=
    (cell_literal kSensorCalibrationConstant3
       * cell_pow (load ins kInputDistributionIndexHxfer) (cell_int 3)
     + cell_literal kSensorCalibrationConstant2
       * cell_pow (load ins kInputDistributionIndexHxfer) (cell_int 2)
     + cell_literal kSensorCalibrationConstant1)%C in
  let p :=
    (m * (load ins kInputDistributionIndexTflow
          / load ins kInputDistributionIndexT0)
       * (load ins kInputDistributionIndexP0
          / load ins kInputDistributionIndexPflow))%C in
  (p, store
        (store outs kOutputDistributionIndexCalibratedMassFlowOutput m)
        kOutputDistributionIndexCalibratedDifferentialPressureOutput p).
Proof. intros Hsel. unfold calculateSensorOutput. by rewrite Hsel. Qed.

Lemma calculateSensorOutput_none a ins outs :
  outputSelect (common a) <> kOutputDistributionIndexCalibratedMassFlowOutput ->
  outputSelect (common a)
  <> kOutputDistributionIndexCalibratedDifferentialPressureOutput ->
  outputSelect (common a) <> kOutputDistributionIndexMax ->
  calculateSensorOutput a ins outs = (None, outs).
Proof.
  intros H0 H1 H2. unfold calculateSensorOutput.
  apply N.eqb_neq in H0, H1, H2. by rewrite H0, H1, H2.
Qed.

(** The outcome of [calculateSensorOutput] by cases on [outputSelect]. *)
Lemma outputSelect_cases a :
  outputSelect (common a) = kOutputDistributionIndexCalibratedMassFlowOutput
  \/ outputSelect (common a)
     = kOutputDistributionIndexCalibratedDifferentialPressureOutput
  \/ outputSelect (common a) = kOutputDistributionIndexMax
  \/ (outputSelect (common a)
        <> kOutputDistributionIndexCalibratedMassFlowOutput
      /\ outputSelect (common a)
        <> kOutputDistributionIndexCalibratedDifferentialPressureOutput
      /\ outputSelect (common a) <> kOutputDistributionIndexMax).
Proof.
  unfold kOutputDistributionIndexCalibratedMassFlowOutput,
    kOutputDistributionIndexCalibratedDifferentialPressureOutput,
    kOutputDistributionIndexMax.
  lia.
Qed.

Lemma calculateSensorOutput_length a ins outs :
  length (calculateSensorOutput a ins outs).2 = length outs.
Proof.
  destruct (outputSelect_cases a) as [S|[S|[S|(N0 & N1 & N2)]]].
  - rewrite (calculateSensorOutput_mass_flow_only _ _ _ S).
    cbn [snd]. by rewrite length_store.
  - rewrite (calculateSensorOutput_pressure_only _ _ _ S).
    cbn [snd]. by rewrite length_store.
  - rewrite (calculateSensorOutput_all _ _ _ S).
    cbn [snd]. by rewrite !length_store.
  - by rewrite (calculateSensorOutput_none _ _ _ N0 N1 N2).
Qed.

(** With a single output selected, only that entry is assigned. *)
Lemma calculateSensorOutput_frame a ins outs j :
  outputSelect (common a) = kOutputDistributionIndexCalibratedMassFlowOutput
  \/ outputSelect (common a)
     = kOutputDistributionIndexCalibratedDifferentialPressureOutput ->
  j <> N.to_nat (outputSelect (common a)) ->
  (calculateSensorOutput a ins outs).2 !! j = outs !! j.
Proof.
  intros [S|S] Hj; rewrite S in Hj.
  - rewrite (calculateSensorOutput_mass_flow_only _ _ _ S).
    cbn [snd]. by rewrite lookup_store_ne.
  - rewrite (calculateSensorOutput_pressure_only _ _ _ S).
    cbn [snd]. by rewrite lookup_store_ne.
Qed.

Lemma calculateSensorOutput_selected a ins outs :
  outputSelect (common a) = kOutputDistributionIndexCalibratedMassFlowOutput
  \/ outputSelect (common a)
     = kOutputDistributionIndexCalibratedDifferentialPressureOutput ->
  (N.to_nat (outputSelect (common a)) < length outs)%nat ->
  (calculateSensorOutput a ins outs).2 !! N.to_nat (outputSelect (common a))
  = Some (calculateSensorOutput a ins outs).1.
Proof.
  intros [S|S] Hlen; rewrite S in Hlen |- *.
  - rewrite (calculateSensorOutput_mass_flow_only _ _ _ S).
    cbn [fst snd]. by rewrite lookup_store_eq.
  - rewrite (calculateSensorOutput_pressure_only _ _ _ S).
    cbn [fst snd]. by rewrite lookup_store_eq.
Qed.

(** C1.  Whenever [calculateSensorOutput] computes the calibrated mass
    flow output (it is asked for that output or for all of them), the
    entry it writes is [C3 * pow(h, 3) + C2 * pow(h, 2) + C1] with [h] the
    Hxfer entry of the input array, and the three constants are
    -314364.00, 117682.20 and 2499.26. *)
Theorem calculateSensorOutput_mass_flow_polynomial a ins outs h :
  outputSelect (common a) = kOutputDistributionIndexCalibratedMassFlowOutput
  \/ outputSelect (common a) = kOutputDistributionIndexMax ->
  load ins kInputDistributionIndexHxfer = Some h ->
  (N.to_nat kOutputDistributionIndexCalibratedMassFlowOutput < length outs)%nat ->
  (calculateSensorOutput a ins outs).2
    !! N.to_nat kOutputDistributionIndexCalibratedMassFlowOutput
  = Some (Some (double_of_literal kSensorCalibrationConstant3
                  * pow h (double_of_int 3)
                + double_of_literal kSensorCalibrationConstant2
                  * pow h (double_of_int 2)
                + double_of_literal kSensorCalibrationConstant1)%D)
  /\ (literal_value kSensorCalibrationConstant3 == -314364.00)%Q
  /\ (literal_value kSensorCalibrationConstant2 == 117682.20)%Q
  /\ (literal_value kSensorCalibrationConstant1 == 2499.26)%Q.
Proof.
  intros Hsel Hh Hlen. split; [|by repeat split].
  destruct Hsel as [Hsel|Hsel].
  - rewrite (calculateSensorOutput_mass_flow_only _ _ _ Hsel). cbn zeta.
    rewrite Hh. simpl. by rewrite lookup_store_eq.
  - rewrite (calculateSensorOutput_all _ _ _ Hsel). cbn zeta.
    rewrite Hh. simpl. rewrite lookup_store_ne by done.
    by rewrite lookup_store_eq.
Qed.

(** C2.  Whenever [calculateSensorOutput] computes the calibrated
    differential pressure output, the entry it writes is
    [m * (Tflow/T0) * (P0/Pflow)], with [m] the mass flow polynomial of the
    Hxfer entry and the other four operands the corresponding entries of
    the input array.  The code performs no test on [T0] or [Pflow], so the
    equation holds for every content of these entries, the nonzero ones in
    particular. *)
Theorem calculateSensorOutput_differential_pressure
    a ins outs h Tflow T0 Pflow P0 :
  outputSelect (common a)
  = kOutputDistributionIndexCalibratedDifferentialPressureOutput
  \/ outputSelect (common a) = kOutputDistributionIndexMax ->
  load ins kInputDistributionIndexHxfer = Some h ->
  load ins kInputDistributionIndexTflow = Some Tflow ->
  load ins kInputDistributionIndexT0 = Some T0 ->
  load ins kInputDistributionIndexPflow = Some Pflow ->
  load ins kInputDistributionIndexP0 = Some P0 ->
  (N.to_nat kOutputDistributionIndexCalibratedDifferentialPressureOutput
   < length outs)%nat ->
  let m :=
    (double_of_literal kSensorCalibrationConstant3 * pow h (double_of_int 3)
     + double_of_literal kSensorCalibrationConstant2 * pow h (double_of_int 2)
     + double_of_literal kSensorCalibrationConstant1)%D in
  (calculateSensorOutput a ins outs).2
    !! N.to_nat kOutputDistributionIndexCalibratedDifferentialPressureOutput
  = Some (Some (m * (Tflow / T0) * (P0 / Pflow))%D).
Proof.
  intros Hsel Hh HTflow HT0 HPflow HP0 Hlen m.
  destruct Hsel as [Hsel|Hsel].
  - rewrite (calculateSensorOutput_pressure_only _ _ _ Hsel). cbn zeta.
    rewrite Hh, HTflow, HT0, HPflow, HP0. simpl. by rewrite lookup_store_eq.
  - rewrite (calculateSensorOutput_all _ _ _ Hsel). cbn zeta.
    rewrite Hh, HTflow, HT0, HPflow, HP0. simpl.
    rewrite lookup_store_eq; [done|by rewrite length_store].
Qed.

(** Two calls with the same [outputSelect] and the same five input
    entries return the same cell and leave the same cells in the output
    entries they write, whatever else differs between them: the other
    fields of the arguments, input cells past the fifth, the previous
    content of the output array. *)
Lemma calculateSensorOutput_agree a1 a2 ins1 ins2 outs1 outs2 :
  outputSelect (common a1) = outputSelect (common a2) ->
  (forall i, i < kInputDistributionIndexMax -> load ins1 i = load ins2 i) ->
  length outs1 = length outs2 ->
  let r1 := calculateSensorOutput a1 ins1 outs1 in
  let r2 := calculateSensorOutput a2 ins2 outs2 in
  r1.1 = r2.1
  /\ (outputSelect (common a1)
        = kOutputDistributionIndexCalibratedMassFlowOutput
      \/ outputSelect (common a1) = kOutputDistributionIndexMax ->
      r1.2 !! N.to_nat kOutputDistributionIndexCalibratedMassFlowOutput
      = r2.2 !! N.to_nat kOutputDistributionIndexCalibratedMassFlowOutput)
  /\ (outputSelect (common a1)
        = kOutputDistributionIndexCalibratedDifferentialPressureOutput
      \/ outputSelect (common a1) = kOutputDistributionIndexMax ->
      r1.2 !! N.to_nat
                kOutputDistributionIndexCalibratedDifferentialPressureOutput
      = r2.2 !! N.to_nat
                  kOutputDistributionIndexCalibratedDifferentialPressureOutput).
Proof.
  intros Hsel Hins Hlen r1 r2. subst r1 r2.
  assert (Hh := Hins kInputDistributionIndexHxfer eq_refl).
  assert (HTflow := Hins kInputDistributionIndexTflow eq_refl).
  assert (HT0 := Hins kInputDistributionIndexT0 eq_refl).
  assert (HPflow := Hins kInputDistributionIndexPflow eq_refl).
  assert (HP0 := Hins kInputDistributionIndexP0 eq_refl).
  assert (Hstore : forall o1 o2 i v,
             length o1 = length o2 ->
             store o1 i v !! N.to_nat i = store o2 i v !! N.to_nat i).
  { intros o1 o2 i v Ho. unfold store.
    destruct (decide (N.to_nat i < length o1)%nat) as [Hi|Hi].
    - rewrite !list_lookup_insert_eq; [done|lia|lia].
    - rewrite !list_insert_ge by lia.
      rewrite !(lookup_ge_None_2 _ (N.to_nat i)); [done|lia|lia]. }
  destruct (outputSelect_cases a1) as [S1|[S1|[S1|(N0 & N1 & N2)]]].
  - assert (S2 := S1). rewrite Hsel in S2.
    rewrite (calculateSensorOutput_mass_flow_only _ _ _ S1),
      (calculateSensorOutput_mass_flow_only _ _ _ S2).
    cbn [fst snd]. rewrite Hh. split; [done|]. split.
    + intros _. by apply Hstore.
    + intros [E|E]; rewrite S1 in E; discriminate.
  - assert (S2 := S1). rewrite Hsel in S2.
    rewrite (calculateSensorOutput_pressure_only _ _ _ S1),
      (calculateSensorOutput_pressure_only _ _ _ S2).
    cbn [fst snd]. rewrite Hh, HTflow, HT0, HPflow, HP0.
    split; [done|]. split.
    + intros [E|E]; rewrite S1 in E; discriminate.
    + intros _. by apply Hstore.
  - assert (S2 := S1). rewrite Hsel in S2.
    rewrite (calculateSensorOutput_all _ _ _ S1),
      (calculateSensorOutput_all _ _ _ S2).
    cbn [fst snd]. rewrite Hh, HTflow, HT0, HPflow, HP0.
    split; [done|]. split.
    + intros _.
      rewrite 2!(lookup_store_ne _
        kOutputDistributionIndexCalibratedDifferentialPressureOutput) by done.
      by apply Hstore.
    + intros _. apply Hstore. by rewrite !length_store.
  - assert (M0 := N0). assert (M1 := N1). assert (M2 := N2).
    rewrite Hsel in M0, M1, M2.
    rewrite (calculateSensorOutput_none _ _ _ N0 N1 N2),
      (calculateSensorOutput_none _ _ _ M0 M1 M2).
    simpl. split; [done|]. split; intros [E|E]; contradiction.
Qed.

(** With a valid selection and the five inputs assigned, the value
    returned is assigned. *)
Lemma calculateSensorOutput_returns_value a ins outs :
  outputSelect (common a) <= kOutputDistributionIndexMax ->
  (forall i, i < kInputDistributionIndexMax -> is_Some (load ins i)) ->
  is_Some (calculateSensorOutput a ins outs).1.
Proof.
  intros Hsel Hins.
  destruct (Hins kInputDistributionIndexHxfer eq_refl) as [h Hh].
  destruct (Hins kInputDistributionIndexTflow eq_refl) as [Tflow HTflow].
  destruct (Hins kInputDistributionIndexT0 eq_refl) as [T0 HT0].
  destruct (Hins kInputDistributionIndexPflow eq_refl) as [Pflow HPflow].
  destruct (Hins kInputDistributionIndexP0 eq_refl) as [P0 HP0].
  destruct (outputSelect_cases a) as [S|[S|[S|(N0 & N1 & N2)]]].
  - rewrite (calculateSensorOutput_mass_flow_only _ _ _ S). cbn zeta.
    rewrite Hh. by eexists.
  - rewrite (calculateSensorOutput_pressure_only _ _ _ S). cbn zeta.
    rewrite Hh, HTflow, HT0, HPflow, HP0. by eexists.
  - rewrite (calculateSensorOutput_all _ _ _ S). cbn zeta.
    rewrite Hh, HTflow, HT0, HPflow, HP0. by eexists.
  - unfold kOutputDistributionIndexCalibratedMassFlowOutput,
      kOutputDistributionIndexCalibratedDifferentialPressureOutput,
      kOutputDistributionIndexMax in *. lia.
Qed.

(** C5.  Two calls with the same [outputSelect] and the same five input
    entries.  Where an output is selected ([outputSelect] is 0, 1 or 2)
    they return the same value, an assigned one whenever the five inputs
    are assigned, and they write the same values to the output entries
    they write, whatever else differs between them: the other fields of
    the arguments, input cells past the fifth, the previous content of the
    output array.  Where no output is selected ([outputSelect] above
    [kOutputDistributionIndexMax]) neither branch is taken: the function
    writes nothing and returns [calibratedValue] as line 46 declares it,
    never assigned, so that the five inputs and [outputSelect] do not
    determine what is returned. *)
Theorem calculateSensorOutput_deterministic_where_selected
    a1 a2 ins1 ins2 outs1 outs2 :
  outputSelect (common a1) = outputSelect (common a2) ->
  (forall i, i < kInputDistributionIndexMax -> load ins1 i = load ins2 i) ->
  length outs1 = length outs2 ->
  let r1 := calculateSensorOutput a1 ins1 outs1 in
  let r2 := calculateSensorOutput a2 ins2 outs2 in
  (outputSelect (common a1) <= kOutputDistributionIndexMax ->
   r1.1 = r2.1
   /\ ((forall i, i < kInputDistributionIndexMax -> is_Some (load ins1 i)) ->
       is_Some r1.1)
   /\ (outputSelect (common a1)
         = kOutputDistributionIndexCalibratedMassFlowOutput
       \/ outputSelect (common a1) = kOutputDistributionIndexMax ->
       r1.2 !! N.to_nat kOutputDistributionIndexCalibratedMassFlowOutput
       = r2.2 !! N.to_nat kOutputDistributionIndexCalibratedMassFlowOutput)
   /\ (outputSelect (common a1)
         = kOutputDistributionIndexCalibratedDifferentialPressureOutput
       \/ outputSelect (common a1) = kOutputDistributionIndexMax ->
       r1.2 !! N.to_nat
                 kOutputDistributionIndexCalibratedDifferentialPressureOutput
       = r2.2 !! N.to_nat
                   kOutputDistributionIndexCalibratedDifferentialPressureOutput))
  /\ (kOutputDistributionIndexMax < outputSelect (common a1) ->
      r1 = (None, outs1) /\ r2 = (None, outs2)).
Proof.
  intros Hsel Hins Hlen r1 r2. subst r1 r2. split.
  - intros Hmax.
    destruct (calculateSensorOutput_agree a1 a2 ins1 ins2 outs1 outs2
                Hsel Hins Hlen) as (Hret & Hmass & Hpressure).
    split; [exact Hret|]. split; [|by split].
    intros Hassigned. by apply calculateSensorOutput_returns_value.
  - intros Hmax.
    assert (Hnone : forall a ins outs,
               kOutputDistributionIndexMax < outputSelect (common a) ->
               calculateSensorOutput a ins outs = (None, outs)).
    { intros a ins outs Ha.
      unfold kOutputDistributionIndexMax in Ha.
      apply calculateSensorOutput_none;
        unfold kOutputDistributionIndexCalibratedMassFlowOutput,
          kOutputDistributionIndexCalibratedDifferentialPressureOutput,
          kOutputDistributionIndexMax; lia. }
    split; apply Hnone; [done|by rewrite <- Hsel].
Qed.

(** C8.  Asked for all outputs, [calculateSensorOutput] returns the
    calibrated differential pressure, the value it has just stored in the
    second output entry; the mass flow polynomial is not returned and is
    found in the first output entry only. *)
Theorem calculateSensorOutput_all_returns_pressure
    a ins outs h Tflow T0 Pflow P0 :
  outputSelect (common a) = kOutputDistributionIndexMax ->
  load ins kInputDistributionIndexHxfer = Some h ->
  load ins kInputDistributionIndexTflow = Some Tflow ->
  load ins kInputDistributionIndexT0 = Some T0 ->
  load ins kInputDistributionIndexPflow = Some Pflow ->
  load ins kInputDistributionIndexP0 = Some P0 ->
  (N.to_nat kOutputDistributionIndexMax <= length outs)%nat ->
  let m :=
    (double_of_literal kSensorCalibrationConstant3 * pow h (double_of_int 3)
     + double_of_literal kSensorCalibrationConstant2 * pow h (double_of_int 2)
     + double_of_literal kSensorCalibrationConstant1)%D in
  let r := calculateSensorOutput a ins outs in
  r.1 = Some (m * (Tflow / T0) * (P0 / Pflow))%D
  /\ r.2 !! N.to_nat
              kOutputDistributionIndexCalibratedDifferentialPressureOutput
     = Some r.1
  /\ r.2 !! N.to_nat kOutputDistributionIndexCalibratedMassFlowOutput
     = Some (Some m).
Proof.
  intros Hsel Hh HTflow HT0 HPflow HP0 Hlen m r. subst r.
  rewrite (calculateSensorOutput_all _ _ _ Hsel). cbn zeta.
  rewrite Hh, HTflow, HT0, HPflow, HP0. simpl.
  change (N.to_nat kOutputDistributionIndexMax) with 2%nat in Hlen.
  split; [done|]. split.
  - rewrite lookup_store_eq; [done|]. rewrite length_store.
    unfold kOutputDistributionIndexCalibratedDifferentialPressureOutput. lia.
  - rewrite lookup_store_ne by done. rewrite lookup_store_eq; [done|].
    unfold kOutputDistributionIndexCalibratedMassFlowOutput. lia.
Qed.

End CalculateFacts.

(** ** Statements about [setInputDistributionsViaUxHwCall] *)

Section SetInputsFacts.
Context `{Platform}.

Implicit Types (ins : list (option double)) (w : World).

(** The five calls in sequence, each on the world the previous one left. *)
Lemma setInputDistributionsViaUxHwCall_unfold ins w :
  let r0 := UxHwDoubleUniformDist
              (double_of_literal kDefaultInputDistributionHxferUniformDistLow)
              (double_of_literal kDefaultInputDistributionHxferUniformDistHigh)
              w in
  let r1 := UxHwDoubleUniformDist
              (double_of_literal kDefaultInputDistributionTflowUniformDistLow)
              (double_of_literal kDefaultInputDistributionTflowUniformDistHigh)
              r0.2 in
  let r2 := UxHwDoubleUniformDist
              (double_of_literal kDefaultInputDistributionT0UniformDistLow)
              (double_of_literal kDefaultInputDistributionT0UniformDistHigh)
              r1.2 in
  let r3 := UxHwDoubleUniformDist
              (double_of_literal kDefaultInputDistributionPflowUniformDistLow)
              (double_of_literal kDefaultInputDistributionPflowUniformDistHigh)
              r2.2 in
  let r4 := UxHwDoubleUniformDist
              (double_of_literal kDefaultInputDistributionP0UniformDistLow)
              (double_of_literal kDefaultInputDistributionP0UniformDistHigh)
              r3.2 in
  setInputDistributionsViaUxHwCall ins w =
  (store (store (store (store (store ins
     kInputDistributionIndexHxfer (Some r0.1))
     kInputDistributionIndexTflow (Some r1.1))
     kInputDistributionIndexT0 (Some r2.1))
     kInputDistributionIndexPflow (Some r3.1))
     kInputDistributionIndexP0 (Some r4.1),
   r4.2,
   [CallUxHwDoubleUniformDist
      (double_of_literal kDefaultInputDistributionHxferUniformDistLow)
      (double_of_literal kDefaultInputDistributionHxferUniformDistHigh) r0.1;
    CallUxHwDoubleUniformDist
      (double_of_literal kDefaultInputDistributionTflowUniformDistLow)
      (double_of_literal kDefaultInputDistributionTflowUniformDistHigh) r1.1;
    CallUxHwDoubleUniformDist
      (double_of_literal kDefaultInputDistributionT0UniformDistLow)
      (double_of_literal kDefaultInputDistributionT0UniformDistHigh) r2.1;
    CallUxHwDoubleUniformDist
      (double_of_literal kDefaultInputDistributionPflowUniformDistLow)
      (double_of_literal kDefaultInputDistributionPflowUniformDistHigh) r3.1;
    CallUxHwDoubleUniformDist
      (double_of_literal kDefaultInputDistributionP0UniformDistLow)
      (double_of_literal kDefaultInputDistributionP0UniformDistHigh) r4.1]).
Proof.
  intros r0 r1 r2 r3 r4. subst r0 r1 r2 r3 r4.
  unfold setInputDistributionsViaUxHwCall, assignUniform.
  repeat match goal with
         | |- context [UxHwDoubleUniformDist ?l ?h ?x] =>
             destruct (UxHwDoubleUniformDist l h x) as [? ?] eqn:?; cbn [fst snd]
         end.
  reflexivity.
Qed.

Lemma setInputDistributionsViaUxHwCall_calls ins w :
  length (setInputDistributionsViaUxHwCall ins w).2 = 5%nat
  /\ forallb isSamplerCall (setInputDistributionsViaUxHwCall ins w).2 = true.
Proof.
  pose proof (setInputDistributionsViaUxHwCall_unfold ins w) as E.
  cbn zeta in E. rewrite E. by split.
Qed.

Lemma setInputDistributionsViaUxHwCall_length ins w :
  length (setInputDistributionsViaUxHwCall ins w).1.1 = length ins.
Proof.
  pose proof (setInputDistributionsViaUxHwCall_unfold ins w) as E.
  cbn zeta in E. rewrite E. cbn [fst snd]. by rewrite !length_store.
Qed.

(** C6.  A call of [setInputDistributionsViaUxHwCall] leaves in each of the
    five input entries the value returned by [UxHwDoubleUniformDist] for
    the low and high bounds configured for that entry, the five samples
    being drawn in the order Hxfer, Tflow, T0, Pflow, P0; and each
    configured low bound is strictly below its high bound. *)
Theorem setInputDistributionsViaUxHwCall_uniform ins w :
  (N.to_nat kInputDistributionIndexMax <= length ins)%nat ->
  let r0 := UxHwDoubleUniformDist
              (double_of_literal kDefaultInputDistributionHxferUniformDistLow)
              (double_of_literal kDefaultInputDistributionHxferUniformDistHigh)
              w in
  let r1 := UxHwDoubleUniformDist
              (double_of_literal kDefaultInputDistributionTflowUniformDistLow)
              (double_of_literal kDefaultInputDistributionTflowUniformDistHigh)
              r0.2 in
  let r2 := UxHwDoubleUniformDist
              (double_of_literal kDefaultInputDistributionT0UniformDistLow)
              (double_of_literal kDefaultInputDistributionT0UniformDistHigh)
              r1.2 in
  let r3 := UxHwDoubleUniformDist
              (double_of_literal kDefaultInputDistributionPflowUniformDistLow)
              (double_of_literal kDefaultInputDistributionPflowUniformDistHigh)
              r2.2 in
  let r4 := UxHwDoubleUniformDist
              (double_of_literal kDefaultInputDistributionP0UniformDistLow)
              (double_of_literal kDefaultInputDistributionP0UniformDistHigh)
              r3.2 in
  let ins' := (setInputDistributionsViaUxHwCall ins w).1.1 in
  (ins' !! N.to_nat kInputDistributionIndexHxfer = Some (Some r0.1)
   /\ ins' !! N.to_nat kInputDistributionIndexTflow = Some (Some r1.1)
   /\ ins' !! N.to_nat kInputDistributionIndexT0 = Some (Some r2.1)
   /\ ins' !! N.to_nat kInputDistributionIndexPflow = Some (Some r3.1)
   /\ ins' !! N.to_nat kInputDistributionIndexP0 = Some (Some r4.1))
  /\ (setInputDistributionsViaUxHwCall ins w).1.2 = r4.2
  /\ ((literal_value kDefaultInputDistributionHxferUniformDistLow
       < literal_value kDefaultInputDistributionHxferUniformDistHigh)%Q
      /\ (literal_value kDefaultInputDistributionTflowUniformDistLow
          < literal_value kDefaultInputDistributionTflowUniformDistHigh)%Q
      /\ (literal_value kDefaultInputDistributionT0UniformDistLow
          < literal_value kDefaultInputDistributionT0UniformDistHigh)%Q
      /\ (literal_value kDefaultInputDistributionPflowUniformDistLow
          < literal_value kDefaultInputDistributionPflowUniformDistHigh)%Q
      /\ (literal_value kDefaultInputDistributionP0UniformDistLow
          < literal_value kDefaultInputDistributionP0UniformDistHigh)%Q).
Proof.
  intros Hlen r0 r1 r2 r3 r4 ins'. subst ins'.
  pose proof (setInputDistributionsViaUxHwCall_unfold ins w) as E.
  cbn zeta in E. rewrite E. clear E. cbn [fst snd].
  change (N.to_nat kInputDistributionIndexMax) with 5%nat in Hlen.
  split; [|split; [reflexivity|by repeat split]].
  repeat split;
    repeat first
      [ rewrite lookup_store_ne by done
      | rewrite lookup_store_eq;
        [ reflexivity
        | rewrite ?length_store;
          unfold kInputDistributionIndexHxfer, kInputDistributionIndexTflow,
            kInputDistributionIndexT0, kInputDistributionIndexPflow,
            kInputDistributionIndexP0; lia ] ].
Qed.

End SetInputsFacts.

(** ** Statements about the loop of [main] *)

Arguments calculateSensorOutput : simpl never.
Arguments setInputDistributionsViaUxHwCall : simpl never.

Section LoopFacts.
Context `{Platform}.

Implicit Types (st : MainState) (i k : nat).

(** One iteration, field by field. *)
Lemma loopBody_unfold (j : N) st :
  let s :=
    setInputDistributionsViaUxHwCall (inputDistributions st) (world st) in
  let r :=
    calculateSensorOutput (arguments st) s.1.1 (outputDistributions st) in
  loopBody j st =
  {| arguments := arguments st;
     calibratedSensorOutput := r.1;
     monteCarloOutputSamples :=
       if isMonteCarloMode (common (arguments st))
       then (fun samples => store samples j r.1) <$> monteCarloOutputSamples st
       else monteCarloOutputSamples st;
     start := start st; end_ := end_ st;
     cpuTimeUsedSeconds := cpuTimeUsedSeconds st;
     inputDistributions := s.1.1;
     outputDistributions := r.2;
     meanAndVariance := meanAndVariance st;
     world := s.1.2;
     trace := trace st ++ s.2 |}.
Proof.
  intros s r. subst s r. unfold loopBody.
  destruct (setInputDistributionsViaUxHwCall _ _) as [[ins w] calls].
  simpl.
  destruct (calculateSensorOutput _ _ _) as [v outs]. simpl.
  by destruct (isMonteCarloMode _).
Qed.

Lemma loopBody_arguments (j : N) st : arguments (loopBody j st) = arguments st.
Proof. pose proof (loopBody_unfold j st) as E. cbn zeta in E. by rewrite E. Qed.

Lemma afterIterations_arguments k st :
  arguments (afterIterations k st) = arguments st.
Proof.
  induction k as [|k IH]; [done|]. simpl. by rewrite loopBody_arguments.
Qed.

(** What the loop leaves alone. *)
Lemma afterIterations_frame k st :
  start (afterIterations k st) = start st
  /\ end_ (afterIterations k st) = end_ st
  /\ cpuTimeUsedSeconds (afterIterations k st) = cpuTimeUsedSeconds st
  /\ meanAndVariance (afterIterations k st) = meanAndVariance st.
Proof.
  induction k as [|k IH]; [done|]. simpl.
  pose proof (loopBody_unfold (N.of_nat k) (afterIterations k st)) as E.
  cbn zeta in E. by rewrite E.
Qed.

(** The loop calls the sampler five times per iteration and nothing else. *)
Lemma afterIterations_trace k st :
  exists calls,
    trace (afterIterations k st) = trace st ++ calls
    /\ length calls = (5 * k)%nat
    /\ forallb isSamplerCall calls = true.
Proof.
  induction k as [|k (calls & Ht & Hl & Hs)].
  - exists []. simpl. by rewrite app_nil_r.
  - simpl.
    pose proof (loopBody_unfold (N.of_nat k) (afterIterations k st)) as E.
    cbn zeta in E. rewrite E. clear E. cbn [trace].
    destruct (setInputDistributionsViaUxHwCall_calls
                (inputDistributions (afterIterations k st))
                (world (afterIterations k st))) as [Hl' Hs'].
    eexists (calls ++ _). rewrite Ht, <- app_assoc. split; [done|]. split.
    + rewrite length_app, Hl, Hl'. lia.
    + by rewrite forallb_app, Hs, Hs'.
Qed.

(** Without the Monte Carlo flag the loop never touches the sample
    pointer. *)
Lemma afterIterations_samples_direct k st :
  isMonteCarloMode (common (arguments st)) = false ->
  monteCarloOutputSamples (afterIterations k st) = monteCarloOutputSamples st.
Proof.
  intros Hmc. induction k as [|k IH]; [done|]. simpl.
  pose proof (loopBody_unfold (N.of_nat k) (afterIterations k st)) as E.
  cbn zeta in E. rewrite E. clear E. cbn [monteCarloOutputSamples].
  by rewrite afterIterations_arguments, Hmc.
Qed.

(** With the flag, the first [k] cells of the block hold the values the
    first [k] iterations computed, in order. *)
Lemma afterIterations_samples_monteCarlo k st samples :
  isMonteCarloMode (common (arguments st)) = true ->
  monteCarloOutputSamples st = Some samples ->
  exists samples',
    monteCarloOutputSamples (afterIterations k st) = Some samples'
    /\ length samples' = length samples
    /\ (forall i, (i < k)%nat -> (i < length samples)%nat ->
        samples' !! i
        = Some (calibratedSensorOutput (afterIterations (S i) st)))
    /\ (forall i, (k <= i)%nat -> samples' !! i = samples !! i).
Proof.
  intros Hmc Hs. induction k as [|k (b & Hb & Hlen & Hlow & Hhigh)].
  - exists samples. simpl. split; [done|]. split; [done|].
    split; [intros; lia|done].
  - assert (Hstep :
      monteCarloOutputSamples (afterIterations (S k) st)
      = Some (store b (N.of_nat k)
                (calibratedSensorOutput (afterIterations (S k) st)))).
    { cbn [afterIterations].
      pose proof (loopBody_unfold (N.of_nat k) (afterIterations k st)) as E.
      cbn zeta in E. rewrite E. clear E.
      cbn [monteCarloOutputSamples calibratedSensorOutput].
      by rewrite afterIterations_arguments, Hmc, Hb. }
    eexists. split; [exact Hstep|]. split; [by rewrite length_store|]. split.
    + intros i Hi Hi'. destruct (decide (i = k)) as [->|Hne].
      * unfold store. rewrite Nat2N.id. apply list_lookup_insert_eq. lia.
      * rewrite lookup_store_ne by (rewrite Nat2N.id; lia).
        apply Hlow; lia.
    + intros i Hi. rewrite lookup_store_ne by (rewrite Nat2N.id; lia).
      apply Hhigh. lia.
Qed.

(** The loop as written runs the body at the indices [0], [1], ... below
    the bound, and stops there. *)
Lemma monteCarloLoop_from fuel k st :
  let n := numberOfMonteCarloIterations (common (arguments st)) in
  n < SIZE_MODULUS ->
  (k <= N.to_nat n)%nat ->
  (N.to_nat n - k <= fuel)%nat ->
  monteCarloLoop fuel (N.of_nat k) (afterIterations k st)
  = Some (afterIterations (N.to_nat n) st).
Proof.
  intros n Hn. revert k.
  induction fuel as [|fuel IH]; intros k Hk Hfuel.
  - assert (k = N.to_nat n) as -> by lia. simpl.
    rewrite afterIterations_arguments. fold n.
    rewrite N2Nat.id, N.ltb_irrefl. done.
  - cbn [monteCarloLoop]. rewrite afterIterations_arguments. fold n.
    destruct (N.ltb_spec (N.of_nat k) n) as [Hlt|Hge].
    + assert (size_succ (N.of_nat k) = N.of_nat (S k)) as ->.
      { unfold size_succ, size_wrap. rewrite N.mod_small; lia. }
      change (loopBody (N.of_nat k) (afterIterations k st))
        with (afterIterations (S k) st).
      apply IH; lia.
    + assert (k = N.to_nat n) as -> by lia. done.
Qed.

(** The loop keeps the size of the output array and, with a single output
    selected, every entry but the selected one. *)
Lemma afterIterations_outputs_length k st :
  length (outputDistributions (afterIterations k st))
  = length (outputDistributions st).
Proof.
  induction k as [|k IH]; [done|]. cbn [afterIterations].
  pose proof (loopBody_unfold (N.of_nat k) (afterIterations k st)) as E.
  cbn zeta in E. rewrite E. cbn [outputDistributions].
  by rewrite calculateSensorOutput_length.
Qed.

Lemma afterIterations_outputs_frame k st j :
  outputSelect (common (arguments st))
  = kOutputDistributionIndexCalibratedMassFlowOutput
  \/ outputSelect (common (arguments st))
     = kOutputDistributionIndexCalibratedDifferentialPressureOutput ->
  j <> N.to_nat (outputSelect (common (arguments st))) ->
  outputDistributions (afterIterations k st) !! j
  = outputDistributions st !! j.
Proof.
  intros Hsel Hj. induction k as [|k IH]; [done|]. cbn [afterIterations].
  pose proof (loopBody_unfold (N.of_nat k) (afterIterations k st)) as E.
  cbn zeta in E. rewrite E. cbn [outputDistributions].
  rewrite calculateSensorOutput_frame;
    rewrite ?afterIterations_arguments; done.
Qed.

(** C4.  The loop runs its body exactly [numberOfMonteCarloIterations]
    times, at the indices 0, 1, ... in order (so the sampler is called five
    times that number).  Iteration [i] first lets
    [setInputDistributionsViaUxHwCall] set the input entries, then
    evaluates [calculateSensorOutput] once, on the entries just set, and
    keeps what it returns; in Monte Carlo mode that value is stored at
    index [i] of [monteCarloOutputSamples], where it stays until the loop
    ends, and otherwise the sample pointer is left alone. *)
Theorem monteCarloLoop_iterations st :
  let a := common (arguments st) in
  let n := numberOfMonteCarloIterations a in
  n < SIZE_MODULUS ->
  (isMonteCarloMode a = true ->
   exists samples,
     monteCarloOutputSamples st = Some samples
     /\ length samples = N.to_nat n) ->
  (forall fuel, (N.to_nat n <= fuel)%nat ->
     monteCarloLoop fuel 0 st = Some (afterIterations (N.to_nat n) st))
  /\ (exists calls,
       trace (afterIterations (N.to_nat n) st) = trace st ++ calls
       /\ length calls = (5 * N.to_nat n)%nat
       /\ forallb isSamplerCall calls = true)
  /\ (forall i, (i < N.to_nat n)%nat ->
      let before := afterIterations i st in
      let after := afterIterations (S i) st in
      let set :=
        setInputDistributionsViaUxHwCall (inputDistributions before)
          (world before) in
      let r :=
        calculateSensorOutput (arguments st) set.1.1
          (outputDistributions before) in
      inputDistributions after = set.1.1
      /\ world after = set.1.2
      /\ trace after = trace before ++ set.2
      /\ calibratedSensorOutput after = r.1
      /\ outputDistributions after = r.2
      /\ (isMonteCarloMode a = true ->
          forall k, (i < k <= N.to_nat n)%nat ->
          exists samples,
            monteCarloOutputSamples (afterIterations k st) = Some samples
            /\ samples !! i = Some r.1)
      /\ (isMonteCarloMode a = false ->
          monteCarloOutputSamples after = monteCarloOutputSamples before)).
Proof.
  intros a n Hn Hbuf. split; [|split].
  - intros fuel Hfuel.
    apply (monteCarloLoop_from fuel 0 st); [done|lia|].
    fold a. fold n. lia.
  - apply afterIterations_trace.
  - intros i Hi before after set r.
    assert (Hafter : after =
      {| arguments := arguments before;
         calibratedSensorOutput := r.1;
         monteCarloOutputSamples :=
           if isMonteCarloMode (common (arguments before))
           then (fun samples => store samples (N.of_nat i) r.1)
                  <$> monteCarloOutputSamples before
           else monteCarloOutputSamples before;
         start := start before; end_ := end_ before;
         cpuTimeUsedSeconds := cpuTimeUsedSeconds before;
         inputDistributions := set.1.1;
         outputDistributions := r.2;
         meanAndVariance := meanAndVariance before;
         world := set.1.2;
         trace := trace before ++ set.2 |}).
    { subst after r set before. cbn [afterIterations].
      pose proof (loopBody_unfold (N.of_nat i) (afterIterations i st)) as E.
      cbn zeta in E. rewrite E.
      by rewrite afterIterations_arguments. }
    assert (Hvalue : calibratedSensorOutput after = r.1) by by rewrite Hafter.
    repeat (split; [by rewrite Hafter|]). split.
    + intros Hmc k Hk. destruct (Hbuf Hmc) as (samples & Hs & Hlen).
      destruct (afterIterations_samples_monteCarlo k st samples Hmc Hs)
        as (samples' & Hs' & _ & Hlow & _).
      exists samples'. split; [done|]. rewrite <- Hvalue.
      apply Hlow; lia.
    + intros Hmc. subst after before.
      by rewrite !afterIterations_samples_direct.
Qed.

End LoopFacts.

(** ** Statements about [main] *)

Section MainFacts.
Context `{Platform}.

Implicit Types (st : MainState) (a : CommandLineArguments) (w : World).

Lemma emit_emit calls1 calls2 st :
  emit calls2 (emit calls1 st) = emit (calls1 ++ calls2) st.
Proof. unfold emit. simpl. by rewrite app_assoc. Qed.

(** Each phase of [main]: the locals it assigns and the calls it adds. *)
Lemma allocateSamples_unfold st :
  let a := common (arguments st) in
  let size := size_mul (numberOfMonteCarloIterations a) sizeof_double in
  allocateSamples st =
  set_monteCarloOutputSamples
    (if isMonteCarloMode a then Some (checkedMalloc size)
     else monteCarloOutputSamples st)
    (emit (if isMonteCarloMode a then [CallCheckedMalloc size] else []) st).
Proof.
  intros a size. subst a size. unfold allocateSamples.
  destruct (isMonteCarloMode _); [done|].
  destruct st. unfold emit, set_monteCarloOutputSamples. simpl.
  by rewrite app_nil_r.
Qed.

Lemma startTiming_unfold st :
  let a := common (arguments st) in
  exists w' calls,
    startTiming st
    = set_start (if isTimingEnabled a || isBenchmarkingMode a
                 then Some (clock (world st)).1 else start st)
        (set_world w' (emit calls st))
    /\ calls = (if isTimingEnabled a || isBenchmarkingMode a
               then [CallClock (clock (world st)).1] else []).
Proof.
  intros a. subst a. unfold startTiming.
  destruct (isTimingEnabled _ || isBenchmarkingMode _).
  - destruct (clock (world st)) as [t w']. by exists w', [CallClock t].
  - exists (world st), []. split; [|done].
    destruct st. unfold emit, set_start, set_world. simpl.
    by rewrite app_nil_r.
Qed.

Lemma stopTiming_unfold st :
  let a := common (arguments st) in
  exists w' calls e,
    stopTiming st
    = set_cpuTimeUsedSeconds
        (if isTimingEnabled a || isBenchmarkingMode a
         then match start st with
              | Some s =>
                  Some (double_of_int ((clock (world st)).1 - s)
                        / double_of_int CLOCKS_PER_SEC)%D
              | None => None
              end
         else cpuTimeUsedSeconds st)
        (set_end e (set_world w' (emit calls st)))
    /\ calls = (if isTimingEnabled a || isBenchmarkingMode a
               then [CallClock (clock (world st)).1] else []).
Proof.
  intros a. subst a. unfold stopTiming.
  destruct (isTimingEnabled _ || isBenchmarkingMode _).
  - destruct (clock (world st)) as [t w'].
    by exists w', [CallClock t], (Some t).
  - exists (world st), [], (end_ st). split; [|done].
    destruct st. unfold emit, set_cpuTimeUsedSeconds, set_end, set_world.
    simpl. by rewrite app_nil_r.
Qed.

Lemma saveAndFree_unfold st :
  let a := common (arguments st) in
  saveAndFree st =
  emit (if isMonteCarloMode a
        then [CallSaveMonteCarloDoubleDataToDataDotOutFile
                (monteCarloOutputSamples st)
                (microsecondsOf (cpuTimeUsedSeconds st))
                (numberOfMonteCarloIterations a);
              CallFree (monteCarloOutputSamples st)]
        else []) st.
Proof.
  intros a. subst a. unfold saveAndFree.
  destruct (isMonteCarloMode _); [done|].
  destruct st. unfold emit. simpl. by rewrite app_nil_r.
Qed.

Lemma aggregateSamples_unfold st :
  let a := common (arguments st) in
  let mv :=
    calculateMeanAndVarianceOfDoubleSamples (monteCarloOutputSamples st)
      (numberOfMonteCarloIterations a) in
  aggregateSamples st =
  set_calibratedSensorOutput
    (if isMonteCarloMode a then Some (mean mv) else calibratedSensorOutput st)
    (set_meanAndVariance
       (if isMonteCarloMode a then Some mv else meanAndVariance st)
       (emit
          (if isMonteCarloMode a
           then [CallCalculateMeanAndVarianceOfDoubleSamples
                   (monteCarloOutputSamples st) (numberOfMonteCarloIterations a)]
           else [])
          st)).
Proof.
  intros a mv. subst a mv. unfold aggregateSamples.
  destruct (isMonteCarloMode _); [done|].
  destruct st. unfold emit. simpl. by rewrite app_nil_r.
Qed.

(** The report: it assigns no local, and these are the calls it makes. *)
Lemma reportResults_unfold st :
  let a := common (arguments st) in
  exists calls w',
    (reportResults st).2 = set_world w' (emit calls st)
    /\ (isBenchmarkingMode a = true ->
        calls = [CallPrintfBenchmark (calibratedSensorOutput st)
                   (microsecondsOf (cpuTimeUsedSeconds st))]
        /\ (reportResults st).1 = None)
    /\ (isBenchmarkingMode a = false -> isOutputJSONMode a = false ->
        outputSelect a <> kOutputDistributionIndexMax ->
        In (CallPrintCalibratedValueAndProbabilities
              (calibratedSensorOutput st)
              (outputVariableNames !! N.to_nat (outputSelect a))
              (unitsOfMeasurement !! N.to_nat (outputSelect a))) calls)
    /\ (forall path outs count result,
        In (CallWriteOutputDoubleDistributionsToCSV path outs count result)
           calls ->
        count = kOutputDistributionIndexMax
        /\ outs = outputDistributions st
        /\ ((reportResults st).1 = None <-> result = 0%Z))
    /\ (isBenchmarkingMode a = false -> isWriteToFileEnabled a = true ->
        In (CallWriteOutputDoubleDistributionsToCSV (outputFilePath a)
              (outputDistributions st) kOutputDistributionIndexMax
              (writeOutputDoubleDistributionsToCSV (outputFilePath a)
                 (outputDistributions st) outputVariableNames
                 kOutputDistributionIndexMax (world st)).1)
           calls)
    /\ (isWriteToFileEnabled a = false -> (reportResults st).1 = None)
    /\ ((reportResults st).1 = None
        \/ (reportResults st).1 = Some kCommonConstantReturnTypeError)
    /\ forallb (fun e => negb (isLifecycleCall e)) calls = true.
Proof.
  intros a. subst a. unfold reportResults.
  destruct (isBenchmarkingMode _) eqn:Hbench.
  { eexists _, (world st). split; [by destruct st|].
    repeat split; try done; try (intros; simpl in *; intuition congruence). }
  set (printed := if negb (isOutputJSONMode _) then _ else _).
  assert (Hprinted : exists calls,
    printed = emit calls st
    /\ (isOutputJSONMode (common (arguments st)) = false ->
        outputSelect (common (arguments st)) <> kOutputDistributionIndexMax ->
        In (CallPrintCalibratedValueAndProbabilities
              (calibratedSensorOutput st)
              (outputVariableNames
                 !! N.to_nat (outputSelect (common (arguments st))))
              (unitsOfMeasurement
                 !! N.to_nat (outputSelect (common (arguments st))))) calls)
    /\ (forall path outs count result,
        ~ In (CallWriteOutputDoubleDistributionsToCSV path outs count result)
             calls)
    /\ forallb (fun e => negb (isLifecycleCall e)) calls = true).
  { subst printed. destruct (isOutputJSONMode _); simpl.
    - eexists. split; [reflexivity|]. split; [done|]. split; [|done].
      intros ? ? ? ? [?|[]]; discriminate.
    - destruct (N.eqb_spec (outputSelect (common (arguments st)))
                  kOutputDistributionIndexMax) as [Hsel|Hsel].
      + rewrite !emit_emit. eexists. split; [reflexivity|].
        split; [done|]. split; [|done].
        intros ? ? ? ? [?|[?|[]]]; discriminate.
      + eexists. split; [reflexivity|]. split; [by left|]. split; [|done].
        intros ? ? ? ? [?|[]]; discriminate. }
  destruct Hprinted as (calls1 & -> & Hprint & Hnocsv1 & Hlife1).
  set (timed := if isTimingEnabled _ then _ else _).
  assert (Htimed : exists calls,
    timed = emit calls st
    /\ (forall e, In e calls1 -> In e calls)
    /\ (forall path outs count result,
        ~ In (CallWriteOutputDoubleDistributionsToCSV path outs count result)
             calls)
    /\ forallb (fun e => negb (isLifecycleCall e)) calls = true).
  { subst timed. destruct (isTimingEnabled _).
    - rewrite emit_emit. eexists. split; [reflexivity|]. split; [|split].
      + intros e He. apply in_or_app. by left.
      + intros ? ? ? ? [?|[?|[]]]%in_app_or; [by eapply Hnocsv1|discriminate].
      + by rewrite forallb_app, Hlife1.
    - exists calls1. done. }
  destruct Htimed as (calls2 & -> & Hsub & Hnocsv2 & Hlife2).
  destruct (isWriteToFileEnabled _) eqn:Hwrite.
  - cbn [outputDistributions emit world].
    destruct (writeOutputDoubleDistributionsToCSV _ _ _ _ _)
      as [result w'] eqn:Hcsv.
    exists (calls2 ++
              [CallWriteOutputDoubleDistributionsToCSV
                 (outputFilePath (common (arguments st)))
                 (outputDistributions st) kOutputDistributionIndexMax result]),
      w'.
    assert (Hcode :
      (if negb (result =? 0)%Z
       then (Some kCommonConstantReturnTypeError,
             set_world w'
               (emit [CallWriteOutputDoubleDistributionsToCSV
                        (outputFilePath (common (arguments st)))
                        (outputDistributions st) kOutputDistributionIndexMax
                        result] (emit calls2 st)))
       else (None,
             set_world w'
               (emit [CallWriteOutputDoubleDistributionsToCSV
                        (outputFilePath (common (arguments st)))
                        (outputDistributions st) kOutputDistributionIndexMax
                        result] (emit calls2 st))))
      = (if negb (result =? 0)%Z
         then Some kCommonConstantReturnTypeError else None,
         set_world w'
           (emit (calls2 ++
                    [CallWriteOutputDoubleDistributionsToCSV
                       (outputFilePath (common (arguments st)))
                       (outputDistributions st) kOutputDistributionIndexMax
                       result]) st))).
    { rewrite emit_emit. by destruct (negb _). }
    rewrite Hcode. clear Hcode. cbn [fst snd].
    split; [done|]. split; [done|]. split.
    { intros _ Hjson Hsel. apply in_or_app. left. by apply Hsub, Hprint. }
    split.
    { intros path outs count r [Hin|[Heq|[]]]%in_app_or.
      - by apply Hnocsv2 in Hin.
      - injection Heq as <- <- <- <-. split; [done|]. split; [done|].
        destruct (Z.eqb_spec result 0); simpl; split; congruence. }
    split.
    { intros _ _. cbn [fst]. apply in_or_app. right. by left. }
    split; [done|]. split.
    { destruct (negb _); [by right|by left]. }
    by rewrite forallb_app, Hlife2.
  - exists calls2, (world st). cbn [fst snd].
    split; [by destruct st|]. split; [done|]. split.
    { intros _ Hjson Hsel. by apply Hsub, Hprint. }
    split.
    { intros path outs count r Hin. by apply Hnocsv2 in Hin. }
    split; [done|]. split; [done|]. split; [by left|done].
Qed.

(** The state in which the loop is entered. *)
Lemma loopEntry_unfold a w :
  let n := numberOfMonteCarloIterations (common a) in
  let timed := isTimingEnabled (common a) || isBenchmarkingMode (common a) in
  arguments (loopEntry a w) = a
  /\ calibratedSensorOutput (loopEntry a w) = None
  /\ cpuTimeUsedSeconds (loopEntry a w) = None
  /\ monteCarloOutputSamples (loopEntry a w)
     = (if isMonteCarloMode (common a)
        then Some (checkedMalloc (size_mul n sizeof_double)) else None)
  /\ outputDistributions (loopEntry a w)
     = replicate (N.to_nat kOutputDistributionIndexMax) None
  /\ trace (loopEntry a w)
     = (if isMonteCarloMode (common a)
        then [CallCheckedMalloc (size_mul n sizeof_double)] else [])
       ++ (if timed then [CallClock (clock w).1] else []).
Proof.
  intros n timed. subst n timed. unfold loopEntry.
  set (st0 := set_arguments a (initialState w)).
  destruct (startTiming_unfold (allocateSamples st0)) as (w' & calls & -> & ->).
  rewrite allocateSamples_unfold. cbn zeta. subst st0. simpl.
  repeat split; try done.
Qed.

(** The state in which the results are reported, from the one the loop
    leaves. *)
Lemma stopTiming_aggregateSamples_unfold st :
  let a := common (arguments st) in
  let stop := stopTiming (aggregateSamples st) in
  arguments stop = arguments st
  /\ monteCarloOutputSamples stop = monteCarloOutputSamples st
  /\ outputDistributions stop = outputDistributions st
  /\ calibratedSensorOutput stop
     = (if isMonteCarloMode a
        then Some (mean (calculateMeanAndVarianceOfDoubleSamples
                           (monteCarloOutputSamples st)
                           (numberOfMonteCarloIterations a)))
        else calibratedSensorOutput st)
  /\ (isTimingEnabled a || isBenchmarkingMode a = false ->
      cpuTimeUsedSeconds stop = cpuTimeUsedSeconds st)
  /\ exists calls,
       trace stop = trace st ++ calls
       /\ forallb isComputationCall calls = true.
Proof.
  intros a stop. subst a stop.
  destruct (stopTiming_unfold (aggregateSamples st))
    as (w' & calls & e & -> & Hcalls).
  rewrite aggregateSamples_unfold in *. cbn zeta in *. simpl in *.
  repeat split; try done.
  - by intros ->.
  - eexists. split; [by rewrite <- app_assoc|].
    rewrite forallb_app, Hcalls.
    by destruct (isMonteCarloMode _),
      (isTimingEnabled _ || isBenchmarkingMode _).
Qed.

(** [main] from the end of the loop on: it returns, either from the
    failed CSV write or from its last line. *)
Lemma main_unfold argv w a calls w' :
  let n := N.to_nat (numberOfMonteCarloIterations (common a)) in
  let loopEnd := afterIterations n (loopEntry a w) in
  let stop := stopTiming (aggregateSamples loopEnd) in
  getCommandLineArguments argv zeroArguments = (0%Z, a) ->
  numberOfMonteCarloIterations (common a) < SIZE_MODULUS ->
  (reportResults stop).2 = set_world w' (emit calls stop) ->
  monteCarloLoop n 0 (loopEntry a w) = Some loopEnd
  /\ exists code tail,
       main argv w = Some (code, set_world w' (emit (calls ++ tail) stop))
       /\ (((reportResults stop).1 = None /\ code = 0%Z
            /\ tail = if isMonteCarloMode (common a)
                      then [CallSaveMonteCarloDoubleDataToDataDotOutFile
                              (monteCarloOutputSamples stop)
                              (microsecondsOf (cpuTimeUsedSeconds stop))
                              (numberOfMonteCarloIterations (common a));
                            CallFree (monteCarloOutputSamples stop)]
                      else [])
           \/ (exists code', (reportResults stop).1 = Some code'
               /\ code = code' /\ tail = [])).
Proof.
  intros n loopEnd stop Hparse Hn Hreport.
  destruct (loopEntry_unfold a w) as (Hargs & _).
  assert (Hloop : monteCarloLoop n 0 (loopEntry a w) = Some loopEnd).
  { subst loopEnd n. rewrite <- Hargs at 1 3.
    apply (monteCarloLoop_from _ 0 (loopEntry a w)); rewrite ?Hargs; [done|lia|lia]. }
  split; [done|].
  unfold main. change (arguments (initialState w)) with zeroArguments.
  rewrite Hparse. cbn [negb Z.eqb]. unfold runWithArguments.
  fold (loopEntry a w). rewrite Hargs. fold n. rewrite Hloop.
  fold stop. destruct (reportResults stop) as [[code|] st'] eqn:Hrep;
    cbn [fst snd] in *; subst st'.
  - exists code, []. rewrite app_nil_r. split; [done|]. right. by exists code.
  - eexists 0%Z, _. split; [|left; split; [done|split; [done|reflexivity]]].
    rewrite saveAndFree_unfold. cbn zeta.
    destruct (stopTiming_aggregateSamples_unfold loopEnd) as (Hargs' & _).
    fold stop in Hargs'.
    assert (Ha : arguments (set_world w' (emit calls stop)) = a).
    { change (arguments (set_world w' (emit calls stop)))
        with (arguments stop).
      rewrite Hargs'. subst loopEnd. by rewrite afterIterations_arguments. }
    rewrite Ha, <- emit_emit. reflexivity.
Qed.

Lemma forallb_sampler_timing (calls : list Event) :
  forallb isSamplerCall calls = true ->
  forallb isComputationCall calls = true.
Proof.
  induction calls as [|e calls IH]; [done|]. simpl.
  intros [He Hrest]%andb_prop. rewrite (IH Hrest).
  by destruct e.
Qed.

(** Up to the report, [main] has called [checkedMalloc] once in Monte
    Carlo mode and never otherwise; its other calls went to the clock, to
    the sampler and to the aggregation of the samples. *)
Lemma stop_trace a w :
  let n := numberOfMonteCarloIterations (common a) in
  let loopEnd := afterIterations (N.to_nat n) (loopEntry a w) in
  let stop := stopTiming (aggregateSamples loopEnd) in
  exists rest,
    trace stop
    = (if isMonteCarloMode (common a)
       then [CallCheckedMalloc (size_mul n sizeof_double)] else []) ++ rest
    /\ forallb isComputationCall rest = true.
Proof.
  intros n loopEnd stop.
  destruct (stopTiming_aggregateSamples_unfold loopEnd)
    as (_ & _ & _ & _ & _ & c1 & Ht1 & Hc1).
  fold stop in Ht1.
  destruct (afterIterations_trace (N.to_nat n) (loopEntry a w))
    as (c2 & Ht2 & _ & Hc2%forallb_sampler_timing).
  fold loopEnd in Ht2.
  destruct (loopEntry_unfold a w) as (_ & _ & _ & _ & _ & Ht3).
  cbn zeta in Ht3. fold n in Ht3.
  rewrite Ht1, Ht2, Ht3, <- !app_assoc. eexists. split; [reflexivity|].
  rewrite !forallb_app, Hc1, Hc2.
  by destruct (isTimingEnabled _ || isBenchmarkingMode _).
Qed.

(** Where a call found in the trace of [main] was made: before the report
    (the allocation, the clock, the sampler, the aggregation), in the
    report, or after. *)
Lemma main_trace_cases a w calls tail w' e :
  let n := numberOfMonteCarloIterations (common a) in
  let loopEnd := afterIterations (N.to_nat n) (loopEntry a w) in
  let stop := stopTiming (aggregateSamples loopEnd) in
  In e (trace (set_world w' (emit (calls ++ tail) stop))) ->
  (isMonteCarloMode (common a) = true
   /\ e = CallCheckedMalloc (size_mul n sizeof_double))
  \/ isComputationCall e = true
  \/ In e calls
  \/ In e tail.
Proof.
  intros n loopEnd stop. cbn [trace set_world emit].
  destruct (stop_trace a w) as (rest & Ht & Hrest).
  fold n loopEnd stop in Ht. rewrite Ht.
  rewrite forallb_forall in Hrest.
  intros [[Hin|Hin]%in_app_or|[Hin|Hin]%in_app_or]%in_app_or; auto.
  destruct (isMonteCarloMode _); [|done].
  destruct Hin as [<-|[]]. by left.
Qed.

(** [main] returns whenever the iteration count read from the command
    line is a [size_t]. *)
Lemma main_returns argv w :
  numberOfMonteCarloIterations
    (common (getCommandLineArguments argv zeroArguments).2) < SIZE_MODULUS ->
  exists code st, main argv w = Some (code, st).
Proof.
  intros Hn.
  destruct (getCommandLineArguments argv zeroArguments) as [error a] eqn:Hparse.
  cbn [snd] in Hn. destruct (Z.eqb_spec error 0) as [->|Hne].
  - destruct (reportResults_unfold
                (stopTiming (aggregateSamples
                   (afterIterations
                      (N.to_nat (numberOfMonteCarloIterations (common a)))
                      (loopEntry a w)))))
      as (calls & w' & Hrep & _).
    destruct (main_unfold argv w a calls w' Hparse Hn Hrep)
      as (_ & code & tail & Hmain & _).
    eauto.
  - unfold main. change (arguments (initialState w)) with zeroArguments.
    rewrite Hparse. apply Z.eqb_neq in Hne. rewrite Hne. simpl. eauto.
Qed.

(** With a file requested outside benchmarking mode, [main] calls the CSV
    writer on the whole output array, and the trace records what the
    writer answered. *)
Lemma main_csv_call argv w a :
  getCommandLineArguments argv zeroArguments = (0%Z, a) ->
  numberOfMonteCarloIterations (common a) < SIZE_MODULUS ->
  isBenchmarkingMode (common a) = false ->
  isWriteToFileEnabled (common a) = true ->
  exists code st w',
    main argv w = Some (code, st)
    /\ In (CallWriteOutputDoubleDistributionsToCSV
             (outputFilePath (common a)) (outputDistributions st)
             kOutputDistributionIndexMax
             (writeOutputDoubleDistributionsToCSV
                (outputFilePath (common a)) (outputDistributions st)
                outputVariableNames kOutputDistributionIndexMax w').1)
          (trace st).
Proof.
  intros Hparse Hn Hbench Hwrite.
  set (n := numberOfMonteCarloIterations (common a)) in *.
  set (loopEnd := afterIterations (N.to_nat n) (loopEntry a w)).
  set (stop := stopTiming (aggregateSamples loopEnd)).
  destruct (reportResults_unfold stop)
    as (calls & w' & Hrep & _ & _ & _ & Hcall & _).
  destruct (main_unfold argv w a calls w' Hparse Hn Hrep)
    as (_ & code & tail & Hmain & _).
  fold n loopEnd stop in Hmain.
  destruct (stopTiming_aggregateSamples_unfold loopEnd) as (Hargs & _).
  fold stop in Hargs.
  assert (Ha : arguments loopEnd = a).
  { subst loopEnd. rewrite afterIterations_arguments.
    apply loopEntry_unfold. }
  rewrite Ha in Hargs. cbn zeta in Hcall. rewrite Hargs in Hcall.
  exists code, (set_world w' (emit (calls ++ tail) stop)), (world stop).
  split; [done|]. cbn [trace set_world emit outputDistributions].
  apply in_or_app. right. apply in_or_app. left. by apply Hcall.
Qed.

(** C9.  With a single output selected, [calculateSensorOutput] assigns
    the selected entry of [outputDistributions] and no other.  [main]
    nevertheless hands the CSV writer the whole array with the count
    [kOutputDistributionIndexMax]: the entry that was not selected goes to
    the writer as it was declared, never assigned. *)
Theorem single_output_frame a :
  outputSelect (common a) = kOutputDistributionIndexCalibratedMassFlowOutput
  \/ outputSelect (common a)
     = kOutputDistributionIndexCalibratedDifferentialPressureOutput ->
  (forall ins outs : list (option double),
     let r := calculateSensorOutput a ins outs in
     ((N.to_nat (outputSelect (common a)) < length outs)%nat ->
      r.2 !! N.to_nat (outputSelect (common a)) = Some r.1)
     /\ (forall j, j <> N.to_nat (outputSelect (common a)) ->
         r.2 !! j = outs !! j))
  /\ (forall argv w,
       getCommandLineArguments argv zeroArguments = (0%Z, a) ->
       numberOfMonteCarloIterations (common a) < SIZE_MODULUS ->
       exists code st,
         main argv w = Some (code, st)
         /\ (forall path outs count result,
             In (CallWriteOutputDoubleDistributionsToCSV path outs count
                   result) (trace st) ->
             count = kOutputDistributionIndexMax
             /\ outs = outputDistributions st
             /\ length outs = N.to_nat kOutputDistributionIndexMax
             /\ (forall j, j <> N.to_nat (outputSelect (common a)) ->
                 (j < N.to_nat kOutputDistributionIndexMax)%nat ->
                 outs !! j = Some None))
         /\ (isBenchmarkingMode (common a) = false ->
             isWriteToFileEnabled (common a) = true ->
             exists result,
               In (CallWriteOutputDoubleDistributionsToCSV
                     (outputFilePath (common a)) (outputDistributions st)
                     kOutputDistributionIndexMax result) (trace st))).
Proof.
  intros Hsel. split.
  { intros ins outs r. subst r. split.
    - by apply calculateSensorOutput_selected.
    - intros j Hj. by apply calculateSensorOutput_frame. }
  intros argv w Hparse Hn.
  set (n := numberOfMonteCarloIterations (common a)) in *.
  set (loopEnd := afterIterations (N.to_nat n) (loopEntry a w)).
  set (stop := stopTiming (aggregateSamples loopEnd)).
  destruct (reportResults_unfold stop)
    as (calls & w' & Hrep & _ & _ & Hcsv & Hwrite & _).
  destruct (main_unfold argv w a calls w' Hparse Hn Hrep)
    as (_ & code & tail & Hmain & Htail).
  fold n loopEnd stop in Hmain, Htail.
  destruct (stopTiming_aggregateSamples_unfold loopEnd)
    as (Hargs & _ & Houts & _).
  fold stop in Hargs, Houts.
  destruct (loopEntry_unfold a w) as (Hentry & _ & _ & _ & Houts0 & _).
  assert (Ha : arguments loopEnd = a).
  { subst loopEnd. by rewrite afterIterations_arguments. }
  rewrite Ha in Hargs. cbn zeta in Hwrite. rewrite Hargs in Hwrite.
  exists code, (set_world w' (emit (calls ++ tail) stop)).
  split; [done|]. split.
  - intros path outs count result Hin.
    assert (Hcalls :
      In (CallWriteOutputDoubleDistributionsToCSV path outs count result)
         calls).
    { apply (main_trace_cases a w) in Hin.
      destruct Hin as [[_ ?]|[?|[?|Hin]]]; [done|done|done|].
      destruct Htail as [(_ & _ & ->)|(? & _ & _ & ->)]; [|done].
      destruct (isMonteCarloMode _); [|done].
      destruct Hin as [?|[?|[]]]; done. }
    apply Hcsv in Hcalls as (-> & -> & _). split; [done|].
    change (outputDistributions (set_world w' (emit (calls ++ tail) stop)))
      with (outputDistributions stop).
    split; [done|]. rewrite Houts. subst loopEnd. split.
    + by rewrite afterIterations_outputs_length, Houts0, length_replicate.
    + intros j Hj Hj'.
      rewrite afterIterations_outputs_frame; rewrite ?Hentry; [|done|done].
      rewrite Houts0. by apply lookup_replicate_2.
  - intros Hb Hw. pose proof (Hwrite Hb Hw) as Hin.
    eexists. cbn [trace set_world emit outputDistributions].
    apply in_or_app. right. apply in_or_app. left. exact Hin.
Qed.

(** C10.  A Monte Carlo run with neither timing nor benchmarking enabled
    never assigns [cpuTimeUsedSeconds]: [main] returns with it unassigned,
    and the elapsed time it passes to
    [saveMonteCarloDoubleDataToDataDotOutFile], a call it makes unless the
    CSV write has failed, is the conversion of that unassigned cell. *)
Theorem main_untimed_monteCarlo_saves_unset_time argv w a :
  let n := numberOfMonteCarloIterations (common a) in
  getCommandLineArguments argv zeroArguments = (0%Z, a) ->
  n < SIZE_MODULUS ->
  isMonteCarloMode (common a) = true ->
  isTimingEnabled (common a) = false ->
  isBenchmarkingMode (common a) = false ->
  exists code st,
    main argv w = Some (code, st)
    /\ cpuTimeUsedSeconds st = None
    /\ (forall samples microseconds count,
        In (CallSaveMonteCarloDoubleDataToDataDotOutFile samples microseconds
              count) (trace st) ->
        microseconds = None)
    /\ (isWriteToFileEnabled (common a) = false
        \/ (forall path outs count result,
            In (CallWriteOutputDoubleDistributionsToCSV path outs count
                  result) (trace st) -> result = 0%Z) ->
        In (CallSaveMonteCarloDoubleDataToDataDotOutFile
              (monteCarloOutputSamples st) None n) (trace st)).
Proof.
  intros n Hparse Hn Hmc Htiming Hbench.
  set (loopEnd := afterIterations (N.to_nat n) (loopEntry a w)).
  set (stop := stopTiming (aggregateSamples loopEnd)).
  destruct (reportResults_unfold stop)
    as (calls & w' & Hrep & _ & _ & Hcsv & Hwrite & Hnowrite & _ & Hlife).
  destruct (main_unfold argv w a calls w' Hparse Hn Hrep)
    as (_ & code & tail & Hmain & Htail).
  fold n loopEnd stop in Hmain, Htail.
  destruct (stopTiming_aggregateSamples_unfold loopEnd)
    as (Hargs & _ & _ & _ & Hcpu & _).
  fold stop in Hargs, Hcpu.
  destruct (loopEntry_unfold a w) as (Hentry & _ & Hcpu0 & _).
  assert (Ha : arguments loopEnd = a).
  { subst loopEnd. by rewrite afterIterations_arguments. }
  rewrite Ha in Hargs, Hcpu. rewrite Htiming, Hbench in Hcpu.
  specialize (Hcpu eq_refl).
  assert (Hunset : cpuTimeUsedSeconds stop = None).
  { rewrite Hcpu. subst loopEnd.
    destruct (afterIterations_frame (N.to_nat n) (loopEntry a w))
      as (_ & _ & -> & _). done. }
  cbn zeta in Hwrite, Hnowrite. rewrite Hargs in Hwrite, Hnowrite.
  rewrite Hmc in Htail.
  exists code, (set_world w' (emit (calls ++ tail) stop)).
  split; [done|]. split; [done|]. split.
  - intros samples microseconds count Hin.
    apply (main_trace_cases a w) in Hin.
    destruct Hin as [[_ ?]|[?|[Hin|Hin]]]; [done|done| |].
    + rewrite forallb_forall in Hlife. by apply Hlife in Hin.
    + destruct Htail as [(_ & _ & ->)|(? & _ & _ & ->)]; [|done].
      destruct Hin as [Heq|[?|[]]]; [|done].
      injection Heq as _ <- _. by rewrite Hunset.
  - intros Hok. cbn [trace set_world emit monteCarloOutputSamples].
    destruct Htail as [(_ & _ & ->)|(code' & Hcode & _ & _)].
    + apply in_or_app. right. apply in_or_app. right. left.
      by rewrite Hunset.
    + exfalso.
      destruct (isWriteToFileEnabled (common a)) eqn:Hw;
        [|by rewrite (Hnowrite eq_refl) in Hcode].
      destruct Hok as [?|Hok]; [done|].
      pose proof (Hwrite Hbench eq_refl) as Hin.
      assert (Hzero := Hin).
      apply Hcsv in Hin as (_ & _ & [_ Hnone]).
      rewrite Hnone in Hcode; [done|].
      eapply Hok. cbn [trace set_world emit].
      apply in_or_app. right. apply in_or_app. left. exact Hzero.
Qed.

(** C7, the path on which it fails.  In Monte Carlo mode [main] calls
    [checkedMalloc] for its samples; when the CSV writer then reports an
    error, [main] returns the error code at once, and the samples are
    neither saved nor freed. *)
Theorem main_monteCarlo_csv_failure_skips_free argv w a :
  let n := numberOfMonteCarloIterations (common a) in
  getCommandLineArguments argv zeroArguments = (0%Z, a) ->
  n < SIZE_MODULUS ->
  isMonteCarloMode (common a) = true ->
  exists code st,
    main argv w = Some (code, st)
    /\ In (CallCheckedMalloc (size_mul n sizeof_double)) (trace st)
    /\ ((exists path outs count result,
          In (CallWriteOutputDoubleDistributionsToCSV path outs count result)
             (trace st) /\ result <> 0%Z) ->
        code = kCommonConstantReturnTypeError
        /\ forall e, In e (trace st) ->
             isSaveCall e = false /\ isFreeCall e = false).
Proof.
  intros n Hparse Hn Hmc.
  set (loopEnd := afterIterations (N.to_nat n) (loopEntry a w)).
  set (stop := stopTiming (aggregateSamples loopEnd)).
  destruct (reportResults_unfold stop)
    as (calls & w' & Hrep & _ & _ & Hcsv & _ & _ & Hcodes & Hlife).
  destruct (main_unfold argv w a calls w' Hparse Hn Hrep)
    as (_ & code & tail & Hmain & Htail).
  fold n loopEnd stop in Hmain, Htail.
  rewrite Hmc in Htail.
  exists code, (set_world w' (emit (calls ++ tail) stop)).
  split; [done|]. split.
  - cbn [trace set_world emit].
    destruct (stop_trace a w) as (rest & Ht & _).
    fold n loopEnd stop in Ht. rewrite Ht, Hmc.
    apply in_or_app. left. by left.
  - intros (path & outs & count & result & Hin & Hfail).
    assert (Hcalls :
      In (CallWriteOutputDoubleDistributionsToCSV path outs count result)
         calls).
    { apply (main_trace_cases a w) in Hin.
      destruct Hin as [[_ ?]|[?|[?|Hin]]]; [done|done|done|].
      destruct Htail as [(_ & _ & ->)|(? & _ & _ & ->)]; [|done].
      destruct Hin as [?|[?|[]]]; done. }
    apply Hcsv in Hcalls as (_ & _ & [Hnone _]).
    destruct Htail as [(Hnone' & _ & _)|(code' & Hcode & -> & ->)];
      [by apply Hnone in Hnone'|].
    split.
    + destruct Hcodes as [Hc|Hc]; rewrite Hc in Hcode; congruence.
    + intros e He. apply (main_trace_cases a w) in He.
      rewrite forallb_forall in Hlife.
      destruct He as [[_ ->]|[He|[He|[]]]]; [done|by destruct e|].
      apply Hlife in He. unfold isLifecycleCall in He.
      by destruct (isSaveCall e), (isFreeCall e), (isCheckedMallocCall e).
Qed.

(** *** What does hold of the two modes *)

(** The block [main] allocates has room for the samples whenever the byte
    count does not wrap. *)
Lemma loopEntry_samples a w :
  let n := numberOfMonteCarloIterations (common a) in
  isMonteCarloMode (common a) = true ->
  n * sizeof_double < SIZE_MODULUS ->
  exists samples,
    monteCarloOutputSamples (loopEntry a w) = Some samples
    /\ length samples = N.to_nat n.
Proof.
  intros n Hmc Hsize.
  destruct (loopEntry_unfold a w) as (_ & _ & _ & Hs & _).
  cbn zeta in Hs. fold n in Hs. rewrite Hmc in Hs.
  eexists. split; [exact Hs|]. unfold checkedMalloc.
  rewrite length_replicate. f_equal.
  unfold size_mul, size_wrap. rewrite N.mod_small by done.
  apply N.div_mul. done.
Qed.

(** X15.  Monte Carlo mode, when no CSV write fails: one block is allocated,
    the loop fills it with the value of each iteration, the mean is taken
    from it, and the last two calls of [main] save it and free it. *)
Lemma main_monteCarlo_lifecycle argv w a :
  let n := numberOfMonteCarloIterations (common a) in
  getCommandLineArguments argv zeroArguments = (0%Z, a) ->
  n * sizeof_double < SIZE_MODULUS ->
  isMonteCarloMode (common a) = true ->
  exists code st samples,
    main argv w = Some (code, st)
    /\ monteCarloOutputSamples st = Some samples
    /\ length samples = N.to_nat n
    /\ (forall i, (i < N.to_nat n)%nat ->
        samples !! i
        = Some (calibratedSensorOutput
                  (afterIterations (S i) (loopEntry a w))))
    /\ calibratedSensorOutput st
       = Some (mean (calculateMeanAndVarianceOfDoubleSamples
                       (Some samples) n))
    /\ (isWriteToFileEnabled (common a) = false
        \/ isBenchmarkingMode (common a) = true
        \/ (forall path outs count result,
            In (CallWriteOutputDoubleDistributionsToCSV path outs count
                  result) (trace st) -> result = 0%Z) ->
        code = 0%Z
        /\ exists before,
             trace st
             = CallCheckedMalloc (size_mul n sizeof_double) :: before
               ++ [CallSaveMonteCarloDoubleDataToDataDotOutFile
                     (Some samples)
                     (microsecondsOf (cpuTimeUsedSeconds st)) n;
                   CallFree (Some samples)]
             /\ forallb (fun e => negb (isLifecycleCall e)) before = true).
Proof.
  intros n Hparse Hsize Hmc.
  assert (Hn : n < SIZE_MODULUS).
  { unfold sizeof_double in Hsize. lia. }
  set (loopEnd := afterIterations (N.to_nat n) (loopEntry a w)).
  set (stop := stopTiming (aggregateSamples loopEnd)).
  destruct (reportResults_unfold stop)
    as (calls & w' & Hrep & Hbench & _ & Hcsv & Hwrite & Hnowrite & _ & Hlife).
  destruct (main_unfold argv w a calls w' Hparse Hn Hrep)
    as (_ & code & tail & Hmain & Htail).
  fold n loopEnd stop in Hmain, Htail. rewrite Hmc in Htail.
  destruct (stopTiming_aggregateSamples_unfold loopEnd)
    as (Hargs & Hsamples & _ & Hvalue & _).
  fold stop in Hargs, Hsamples, Hvalue.
  destruct (loopEntry_unfold a w) as (Hentry & _).
  assert (Ha : arguments loopEnd = a).
  { subst loopEnd. by rewrite afterIterations_arguments. }
  rewrite Ha in Hargs, Hvalue. rewrite Hmc in Hvalue. fold n in Hvalue.
  cbn zeta in Hbench, Hwrite, Hnowrite.
  rewrite Hargs in Hbench, Hwrite, Hnowrite.
  destruct (loopEntry_samples a w Hmc Hsize) as (samples0 & Hs0 & Hlen0).
  fold n in Hlen0.
  destruct (afterIterations_samples_monteCarlo (N.to_nat n) (loopEntry a w)
              samples0) as (samples & Hs & Hlen & Hlow & _);
    [by rewrite Hentry|done|].
  fold loopEnd in Hs. rewrite Hs in Hsamples, Hvalue.
  exists code, (set_world w' (emit (calls ++ tail) stop)), samples.
  split; [done|]. split; [done|]. split; [lia|]. split.
  { intros i Hi. apply Hlow; lia. }
  split; [done|]. intros Hok.
  assert (Hnone : (reportResults stop).1 = None).
  { destruct Hok as [Hw|[Hb|Hok]].
    - by apply Hnowrite.
    - by apply Hbench.
    - destruct (isBenchmarkingMode (common a)) eqn:Hb;
        [by apply Hbench|].
      destruct (isWriteToFileEnabled (common a)) eqn:Hw;
        [|by apply Hnowrite].
      pose proof (Hwrite eq_refl eq_refl) as Hin.
      assert (Hzero := Hin).
      apply Hcsv in Hin as (_ & _ & [_ Hnone]). apply Hnone.
      eapply Hok. cbn [trace set_world emit].
      apply in_or_app. right. apply in_or_app. left. exact Hzero. }
  destruct Htail as [(_ & -> & ->)|(code' & Hcode & _)];
    [|by rewrite Hnone in Hcode].
  split; [done|].
  destruct (stop_trace a w) as (rest & Ht & Hrest).
  fold n loopEnd stop in Ht. rewrite Hmc in Ht.
  exists (rest ++ calls). split.
  - cbn [trace set_world emit cpuTimeUsedSeconds]. rewrite Ht, Hsamples.
    cbn [app]. by rewrite <- !app_assoc.
  - rewrite forallb_app, Hlife, andb_true_r.
    clear -Hrest. induction rest as [|e rest IH]; [done|].
    cbn [forallb] in *. apply andb_prop in Hrest as [He Hrest].
    rewrite (IH Hrest), andb_true_r. by destruct e.
Qed.

(** X16.  Without the Monte Carlo flag: no block is ever allocated, saved or
    freed, the sample pointer stays [NULL], and [calibratedSensorOutput]
    is what the last iteration of the loop returned. *)
Lemma main_direct_mode argv w a :
  let n := numberOfMonteCarloIterations (common a) in
  getCommandLineArguments argv zeroArguments = (0%Z, a) ->
  n < SIZE_MODULUS ->
  isMonteCarloMode (common a) = false ->
  exists code st,
    main argv w = Some (code, st)
    /\ monteCarloOutputSamples st = None
    /\ (forall e, In e (trace st) -> isLifecycleCall e = false)
    /\ calibratedSensorOutput st
       = calibratedSensorOutput (afterIterations (N.to_nat n) (loopEntry a w))
    /\ (forall k, N.to_nat n = S k ->
        let before := afterIterations k (loopEntry a w) in
        calibratedSensorOutput st
        = (calculateSensorOutput a
             (setInputDistributionsViaUxHwCall (inputDistributions before)
                (world before)).1.1
             (outputDistributions before)).1).
Proof.
  intros n Hparse Hn Hmc.
  set (loopEnd := afterIterations (N.to_nat n) (loopEntry a w)).
  set (stop := stopTiming (aggregateSamples loopEnd)).
  destruct (reportResults_unfold stop)
    as (calls & w' & Hrep & _ & _ & _ & _ & _ & _ & Hlife).
  destruct (main_unfold argv w a calls w' Hparse Hn Hrep)
    as (_ & code & tail & Hmain & Htail).
  fold n loopEnd stop in Hmain, Htail. rewrite Hmc in Htail.
  destruct (stopTiming_aggregateSamples_unfold loopEnd)
    as (Hargs & Hsamples & _ & Hvalue & _).
  fold stop in Hargs, Hsamples, Hvalue.
  destruct (loopEntry_unfold a w) as (Hentry & _ & _ & Hs0 & _).
  cbn zeta in Hs0. rewrite Hmc in Hs0.
  assert (Ha : arguments loopEnd = a).
  { subst loopEnd. by rewrite afterIterations_arguments. }
  rewrite Ha in Hargs, Hvalue. rewrite Hmc in Hvalue.
  exists code, (set_world w' (emit (calls ++ tail) stop)).
  split; [done|]. split.
  { cbn [monteCarloOutputSamples set_world emit]. rewrite Hsamples.
    subst loopEnd. rewrite afterIterations_samples_direct; [done|].
    by rewrite Hentry. }
  split.
  { intros e He. apply (main_trace_cases a w) in He.
    rewrite Hmc in He. rewrite forallb_forall in Hlife.
    destruct He as [[? _]|[He|[He|He]]]; [done|by destruct e| |].
    - apply Hlife in He. by destruct (isLifecycleCall e).
    - by destruct Htail as [(_ & _ & ->)|(? & _ & _ & ->)]. }
  split; [done|].
  intros k Hk before.
  change (calibratedSensorOutput (set_world w' (emit (calls ++ tail) stop)))
    with (calibratedSensorOutput stop).
  rewrite Hvalue. subst loopEnd. rewrite Hk. cbn [afterIterations].
  pose proof (loopBody_unfold (N.of_nat k) before) as E.
  cbn zeta in E. subst before. rewrite E. cbn [calibratedSensorOutput].
  by rewrite afterIterations_arguments, Hentry.
Qed.

End MainFacts.

(** ** Worked instances on the exact interpretation *)

Section WorkedInstances.
Import Exact.

Lemma calculateSensorOutput_mass_flow_polynomial_witness :
  let a := arguments_of 0 1 false false false false false in
  (outputSelect (common a) = kOutputDistributionIndexCalibratedMassFlowOutput
   \/ outputSelect (common a) = kOutputDistributionIndexMax)
  /\ load exampleInputs kInputDistributionIndexHxfer = Some 0.03%Q
  /\ (calculateSensorOutput a exampleInputs [None; None]).2 !! 0%nat
     = Some (Some (324585769 # 125000)%Q).
Proof.
  intros a. split; [by left|]. split; [reflexivity|].
  exact (proj1 (calculateSensorOutput_mass_flow_polynomial
                  a exampleInputs [None; None] 0.03%Q
                  (or_introl eq_refl) eq_refl
                  ltac:(vm_compute; lia))).
Defined.

Lemma calculateSensorOutput_differential_pressure_witness :
  let a := arguments_of 1 1 false false false false false in
  (outputSelect (common a)
   = kOutputDistributionIndexCalibratedDifferentialPressureOutput
   \/ outputSelect (common a) = kOutputDistributionIndexMax)
  /\ load exampleInputs kInputDistributionIndexT0 = Some 273.25%Q
  /\ load exampleInputs kInputDistributionIndexPflow = Some 421000%Q
  /\ (calculateSensorOutput a exampleInputs [None; None]).2 !! 1%nat
     = Some (Some (76403270407603 # 28759562500)%Q).
Proof.
  intros a. split; [by left|]. split; [reflexivity|]. split; [reflexivity|].
  exact (calculateSensorOutput_differential_pressure
           a exampleInputs [None; None]
           0.03%Q 293.5%Q 273.25%Q 421000%Q 401000%Q
           (or_introl eq_refl) eq_refl eq_refl eq_refl eq_refl eq_refl
           ltac:(vm_compute; lia)).
Defined.

(** Two calls that agree on [outputSelect] and on the five inputs only:
    other flags, a sixth input cell and the old outputs all differ.  With
    all outputs selected they agree; with [outputSelect] equal to 3 each
    returns its unassigned local and leaves its array as it was. *)
Lemma calculateSensorOutput_deterministic_where_selected_witness :
  let a1 := arguments_of 2 1 false false false false false in
  let a2 := arguments_of 2 7 true true false true true in
  let b1 := arguments_of 3 1 false false false false false in
  let b2 := arguments_of 3 7 true true false true true in
  let ins2 := exampleInputs ++ [Some 42%Q] in
  let outs2 := [Some 1%Q; Some 2%Q] in
  ((calculateSensorOutput a1 exampleInputs [None; None]).1
   = (calculateSensorOutput a2 ins2 outs2).1
   /\ is_Some (calculateSensorOutput a1 exampleInputs [None; None]).1
   /\ (calculateSensorOutput a1 exampleInputs [None; None]).2 !! 0%nat
      = (calculateSensorOutput a2 ins2 outs2).2 !! 0%nat
   /\ (calculateSensorOutput a1 exampleInputs [None; None]).2 !! 1%nat
      = (calculateSensorOutput a2 ins2 outs2).2 !! 1%nat)
  /\ calculateSensorOutput b1 exampleInputs [None; None]
     = (None, [None; None])
  /\ calculateSensorOutput b2 ins2 outs2 = (None, outs2).
Proof.
  intros a1 a2 b1 b2 ins2 outs2.
  assert (Hins : forall i, i < kInputDistributionIndexMax ->
                 load exampleInputs i = load ins2 i).
  { intros i Hi. unfold kInputDistributionIndexMax in Hi.
    destruct i as [|[[[]|[]|]|[[]|[]|]|]]; first [reflexivity|lia]. }
  assert (Hassigned : forall i, i < kInputDistributionIndexMax ->
                      is_Some (load exampleInputs i)).
  { intros i Hi. unfold kInputDistributionIndexMax in Hi.
    destruct i as [|[[[]|[]|]|[[]|[]|]|]];
      first [eexists; reflexivity|lia]. }
  assert (Hle : outputSelect (common a1) <= kOutputDistributionIndexMax)
    by (vm_compute; discriminate).
  assert (Hlt : kOutputDistributionIndexMax < outputSelect (common b1))
    by (vm_compute; reflexivity).
  split.
  - destruct (calculateSensorOutput_deterministic_where_selected
                (H := arithmetic) a1 a2 exampleInputs ins2 [None; None] outs2
                eq_refl Hins eq_refl) as (Hselected & _).
    destruct (Hselected Hle) as (Hret & Hsome & Hmass & Hpressure).
    split; [exact Hret|]. split; [exact (Hsome Hassigned)|]. split.
    + exact (Hmass (or_intror eq_refl)).
    + exact (Hpressure (or_intror eq_refl)).
  - destruct (calculateSensorOutput_deterministic_where_selected
                (H := arithmetic) b1 b2 exampleInputs ins2 [None; None] outs2
                eq_refl Hins eq_refl) as (_ & Hunselected).
    exact (Hunselected Hlt).
Defined.

Lemma calculateSensorOutput_all_returns_pressure_witness :
  let a := arguments_of 2 1 false false false false false in
  let r := calculateSensorOutput a exampleInputs [None; None] in
  outputSelect (common a) = kOutputDistributionIndexMax
  /\ r.1 = Some (76403270407603 # 28759562500)%Q
  /\ r.2 !! 1%nat = Some r.1
  /\ r.2 !! 0%nat = Some (Some (324585769 # 125000)%Q).
Proof.
  intros a r. split; [reflexivity|].
  exact (calculateSensorOutput_all_returns_pressure
           a exampleInputs [None; None]
           0.03%Q 293.5%Q 273.25%Q 421000%Q 401000%Q
           eq_refl eq_refl eq_refl eq_refl eq_refl eq_refl
           ltac:(vm_compute; lia)).
Defined.

Lemma setInputDistributionsViaUxHwCall_uniform_witness :
  let ins' :=
    (setInputDistributionsViaUxHwCall (H0 := platform 0 0 zeroArguments)
       (replicate 5 None) world0).1.1 in
  (N.to_nat kInputDistributionIndexMax <= length (replicate 5 (@None Q)))%nat
  /\ ins' !! 0%nat = Some (Some (3 # 200)%Q)
  /\ ins' !! 1%nat = Some (Some (2347 # 8)%Q)
  /\ ins' !! 2%nat = Some (Some (4373 # 16)%Q)
  /\ ins' !! 3%nat = Some (Some 424375%Q)
  /\ ins' !! 4%nat = Some (Some 400625%Q).
Proof.
  intros ins'. split; [vm_compute; lia|].
  exact (proj1 (setInputDistributionsViaUxHwCall_uniform
                  (H0 := platform 0 0 zeroArguments)
                  (replicate 5 None) world0 ltac:(vm_compute; lia))).
Defined.

(** Three Monte Carlo iterations for the differential pressure. *)
Lemma monteCarloLoop_iterations_witness :
  let a := arguments_of 1 3 true false false false false in
  let st := loopEntry (H0 := platform 0 0 a) a world0 in
  numberOfMonteCarloIterations (common (arguments st)) < SIZE_MODULUS
  /\ monteCarloOutputSamples st = Some (replicate 3 None)
  /\ monteCarloLoop 3 0 st = Some (afterIterations 3 st)
  /\ exists samples,
       monteCarloOutputSamples (afterIterations 3 st) = Some samples
       /\ samples !! 1%nat
          = Some (calibratedSensorOutput (afterIterations 2 st)).
Proof.
  intros a st.
  assert (Hn : numberOfMonteCarloIterations (common (arguments st))
               < SIZE_MODULUS) by (vm_compute; reflexivity).
  assert (Hbuf : isMonteCarloMode (common (arguments st)) = true ->
                 exists samples,
                   monteCarloOutputSamples st = Some samples
                   /\ length samples
                      = N.to_nat (numberOfMonteCarloIterations
                                    (common (arguments st)))).
  { intros _. exists (replicate 3 None). split; reflexivity. }
  destruct (monteCarloLoop_iterations st Hn Hbuf) as (Hrun & _ & Hiter).
  split; [exact Hn|]. split; [reflexivity|]. split.
  - exact (Hrun 3%nat ltac:(vm_compute; lia)).
  - destruct (Hiter 1%nat ltac:(vm_compute; lia))
      as (_ & _ & _ & Hvalue & _ & Hstored & _).
    destruct (Hstored eq_refl 3%nat ltac:(vm_compute; lia))
      as (samples & Hsamples & Hat).
    exists samples. split; [exact Hsamples|].
    rewrite Hat, Hvalue. reflexivity.
Defined.

(** Mass flow alone, written to a file: the pressure entry reaches the
    CSV writer unassigned. *)
Lemma single_output_frame_witness :
  let a := arguments_of 0 2 false false false false true in
  outputSelect (common a) = kOutputDistributionIndexCalibratedMassFlowOutput
  /\ exists code st result,
       main (H0 := platform 0 0 a) [] world0 = Some (code, st)
       /\ In (CallWriteOutputDoubleDistributionsToCSV "out.csv"
                (outputDistributions st) kOutputDistributionIndexMax result)
             (trace st)
       /\ outputDistributions st !! 1%nat = Some None.
Proof.
  intros a. split; [reflexivity|].
  destruct (single_output_frame (H0 := platform 0 0 a) a (or_introl eq_refl))
    as (_ & Hmain).
  destruct (Hmain [] world0 eq_refl ltac:(vm_compute; reflexivity))
    as (code & st & Hrun & Hcsv & Hwrite).
  destruct (Hwrite eq_refl eq_refl) as (result & Hin).
  exists code, st, result. split; [exact Hrun|]. split; [exact Hin|].
  destruct (Hcsv _ _ _ _ Hin) as (_ & _ & _ & Hother).
  exact (Hother 1%nat ltac:(discriminate) ltac:(vm_compute; lia)).
Defined.

(** Monte Carlo without timing or benchmarking: the time saved with the
    samples was never measured. *)
Lemma main_untimed_monteCarlo_saves_unset_time_witness :
  let a := arguments_of 1 3 true false false false false in
  numberOfMonteCarloIterations (common a) < SIZE_MODULUS
  /\ isMonteCarloMode (common a) = true
  /\ isTimingEnabled (common a) = false
  /\ isBenchmarkingMode (common a) = false
  /\ exists code st,
       main (H0 := platform 0 0 a) [] world0 = Some (code, st)
       /\ cpuTimeUsedSeconds st = None
       /\ In (CallSaveMonteCarloDoubleDataToDataDotOutFile
                (monteCarloOutputSamples st) None 3) (trace st).
Proof.
  intros a.
  assert (Hn : numberOfMonteCarloIterations (common a) < SIZE_MODULUS)
    by (vm_compute; reflexivity).
  split; [exact Hn|]. repeat (split; [reflexivity|]).
  destruct (main_untimed_monteCarlo_saves_unset_time (H0 := platform 0 0 a)
              [] world0 a eq_refl Hn eq_refl eq_refl eq_refl)
    as (code & st & Hmain & Hunset & _ & Hsave).
  exists code, st. split; [exact Hmain|]. split; [exact Hunset|].
  exact (Hsave (or_introl eq_refl)).
Defined.

(** Monte Carlo with an output file that cannot be written: the CSV
    writer answers 1. *)
Lemma main_monteCarlo_csv_failure_skips_free_witness :
  let a := arguments_of 1 2 true false false false true in
  numberOfMonteCarloIterations (common a) < SIZE_MODULUS
  /\ isMonteCarloMode (common a) = true
  /\ exists code st,
       main (H0 := platform 0 1 a) [] world0 = Some (code, st)
       /\ In (CallCheckedMalloc 16) (trace st)
       /\ code = 1%Z
       /\ forall e, In e (trace st) ->
            isSaveCall e = false /\ isFreeCall e = false.
Proof.
  intros a.
  assert (Hn : numberOfMonteCarloIterations (common a) < SIZE_MODULUS)
    by (vm_compute; reflexivity).
  split; [exact Hn|]. split; [reflexivity|].
  destruct (main_monteCarlo_csv_failure_skips_free (H0 := platform 0 1 a)
              [] world0 a eq_refl Hn eq_refl)
    as (code & st & Hmain & Hmalloc & Hfail).
  destruct (main_csv_call (H0 := platform 0 1 a)
              [] world0 a eq_refl Hn eq_refl eq_refl)
    as (code' & st' & w' & Hmain' & Hin).
  rewrite Hmain in Hmain'. injection Hmain' as <- <-.
  exists code, st. split; [exact Hmain|]. split; [exact Hmalloc|].
  apply Hfail. eexists _, _, _, _. split; [exact Hin|].
  change (1%Z <> 0%Z). discriminate.
Defined.

End WorkedInstances.

(** ** Further properties of [main]: what it reports, measures and returns *)

Section ReportFacts.
Context `{Platform}.

Implicit Types (st : MainState) (a : CommandLineArguments) (w : World).

(** The report in full: the calls it makes, in order, the world it leaves
    and whether it takes the early [return]. *)
Lemma reportResults_calls st :
  let a := common (arguments st) in
  let written :=
    writeOutputDoubleDistributionsToCSV (outputFilePath a)
      (outputDistributions st) outputVariableNames
      kOutputDistributionIndexMax (world st) in
  let writes := negb (isBenchmarkingMode a) && isWriteToFileEnabled a in
  let calls :=
    if isBenchmarkingMode a
    then [CallPrintfBenchmark (calibratedSensorOutput st)
            (microsecondsOf (cpuTimeUsedSeconds st))]
    else
      (if isOutputJSONMode a
       then [CallPrintJSONFormattedOutput (monteCarloOutputSamples st)
               (outputDistributions st)]
       else if outputSelect a =? kOutputDistributionIndexMax
       then [CallPrintCalibratedValueAndProbabilities
               (load (outputDistributions st)
                  kOutputDistributionIndexCalibratedMassFlowOutput)
               (Some "Calibrated Mass Flow"%string) (Some "sccm"%string);
             CallPrintCalibratedValueAndProbabilities
               (load (outputDistributions st)
                  kOutputDistributionIndexCalibratedDifferentialPressureOutput)
               (Some "Calibrated Differential Pressure"%string)
               (Some "Pa"%string)]
       else [CallPrintCalibratedValueAndProbabilities
               (calibratedSensorOutput st)
               (outputVariableNames !! N.to_nat (outputSelect a))
               (unitsOfMeasurement !! N.to_nat (outputSelect a))])
      ++ (if isTimingEnabled a
          then [CallPrintfCpuTime (cpuTimeUsedSeconds st)] else [])
      ++ (if isWriteToFileEnabled a
          then [CallWriteOutputDoubleDistributionsToCSV (outputFilePath a)
                  (outputDistributions st) kOutputDistributionIndexMax
                  written.1]
          else []) in
  reportResults st
  = (if writes && negb (written.1 =? 0)%Z
     then Some kCommonConstantReturnTypeError else None,
     set_world (if writes then written.2 else world st) (emit calls st)).
Proof.
  intros a written writes calls. subst a written writes calls.
  unfold reportResults.
  destruct (isBenchmarkingMode _); [by destruct st|].
  change (N.of_nat <$> seq 0 (N.to_nat kOutputDistributionIndexMax))
    with [0; 1].
  destruct (isOutputJSONMode _), (outputSelect _ =? _), (isTimingEnabled _),
    (isWriteToFileEnabled _);
    cbn [negb andb foldl outputDistributions world emit];
    rewrite ?emit_emit;
    try destruct (writeOutputDoubleDistributionsToCSV _ _ _ _ _)
      as [result w'];
    cbn [fst snd]; rewrite ?emit_emit;
    try destruct (negb (result =? 0)%Z);
    try reflexivity; by destruct st.
Qed.

Lemma stopTiming_explicit st :
  let a := common (arguments st) in
  let t := (clock (world st)).1 in
  stopTiming st
  = if isTimingEnabled a || isBenchmarkingMode a
    then set_cpuTimeUsedSeconds
           (match start st with
            | Some s =>
                Some (double_of_int (t - s) / double_of_int CLOCKS_PER_SEC)%D
            | None => None
            end)
           (set_end (Some t)
              (set_world (clock (world st)).2 (emit [CallClock t] st)))
    else st.
Proof.
  intros a t. subst a t. unfold stopTiming.
  destruct (isTimingEnabled _ || isBenchmarkingMode _); [|done].
  by destruct (clock (world st)).
Qed.

(** The clock reading that opens the measurement, when there is one. *)
Lemma loopEntry_timing a w :
  let timed := isTimingEnabled (common a) || isBenchmarkingMode (common a) in
  start (loopEntry a w) = (if timed then Some (clock w).1 else None)
  /\ world (loopEntry a w) = (if timed then (clock w).2 else w)
  /\ inputDistributions (loopEntry a w)
     = replicate (N.to_nat kInputDistributionIndexMax) None.
Proof.
  intros timed. subst timed. unfold loopEntry, startTiming.
  rewrite allocateSamples_unfold. cbn zeta.
  cbn [arguments set_monteCarloOutputSamples emit set_arguments world
       initialState].
  destruct (isTimingEnabled _ || isBenchmarkingMode _); [|done].
  by destruct (clock w).
Qed.

(** What the aggregation leaves as it finds it. *)
Lemma aggregateSamples_fields st :
  arguments (aggregateSamples st) = arguments st
  /\ world (aggregateSamples st) = world st
  /\ start (aggregateSamples st) = start st.
Proof. unfold aggregateSamples. by destruct (isMonteCarloMode _). Qed.

(** Assignments that leave a state as it is. *)
Lemma stop_untimed st c e w :
  c = cpuTimeUsedSeconds st -> e = end_ st -> w = world st ->
  set_cpuTimeUsedSeconds c (set_end e (set_world w (emit [] st))) = st.
Proof.
  intros -> -> ->. destruct st.
  unfold emit, set_cpuTimeUsedSeconds, set_end, set_world. simpl.
  by rewrite app_nil_r.
Qed.

(** All of [main] after a successful reading of the arguments: the value
    it returns, its variables on return and every call it has made, in
    order. *)
Lemma main_behaviour argv w a :
  let n := numberOfMonteCarloIterations (common a) in
  let timed := isTimingEnabled (common a) || isBenchmarkingMode (common a) in
  let loopEnd := afterIterations (N.to_nat n) (loopEntry a w) in
  let t0 := (clock w).1 in
  let t1 := (clock (world loopEnd)).1 in
  let value :=
    if isMonteCarloMode (common a)
    then Some (mean (calculateMeanAndVarianceOfDoubleSamples
                       (monteCarloOutputSamples loopEnd) n))
    else calibratedSensorOutput loopEnd in
  let cpu :=
    if timed
    then Some (double_of_int (t1 - t0) / double_of_int CLOCKS_PER_SEC)%D
    else None in
  let outs := outputDistributions loopEnd in
  let samples := monteCarloOutputSamples loopEnd in
  let written :=
    writeOutputDoubleDistributionsToCSV (outputFilePath (common a)) outs
      outputVariableNames kOutputDistributionIndexMax
      (if timed then (clock (world loopEnd)).2 else world loopEnd) in
  let failed :=
    negb (isBenchmarkingMode (common a)) && isWriteToFileEnabled (common a)
    && negb (written.1 =? 0)%Z in
  let reportCalls :=
    if isBenchmarkingMode (common a)
    then [CallPrintfBenchmark value (microsecondsOf cpu)]
    else
      (if isOutputJSONMode (common a)
       then [CallPrintJSONFormattedOutput samples outs]
       else if outputSelect (common a) =? kOutputDistributionIndexMax
       then [CallPrintCalibratedValueAndProbabilities
               (load outs kOutputDistributionIndexCalibratedMassFlowOutput)
               (Some "Calibrated Mass Flow"%string) (Some "sccm"%string);
             CallPrintCalibratedValueAndProbabilities
               (load outs
                  kOutputDistributionIndexCalibratedDifferentialPressureOutput)
               (Some "Calibrated Differential Pressure"%string)
               (Some "Pa"%string)]
       else [CallPrintCalibratedValueAndProbabilities value
               (outputVariableNames !! N.to_nat (outputSelect (common a)))
               (unitsOfMeasurement !! N.to_nat (outputSelect (common a)))])
      ++ (if isTimingEnabled (common a) then [CallPrintfCpuTime cpu] else [])
      ++ (if isWriteToFileEnabled (common a)
          then [CallWriteOutputDoubleDistributionsToCSV
                  (outputFilePath (common a)) outs
                  kOutputDistributionIndexMax written.1]
          else []) in
  let aggregation :=
    if isMonteCarloMode (common a)
    then [CallCalculateMeanAndVarianceOfDoubleSamples samples n] else [] in
  let lastCalls :=
    if failed then []
    else if isMonteCarloMode (common a)
    then [CallSaveMonteCarloDoubleDataToDataDotOutFile samples
            (microsecondsOf cpu) n;
          CallFree samples]
    else [] in
  getCommandLineArguments argv zeroArguments = (0%Z, a) ->
  n < SIZE_MODULUS ->
  exists st samplerCalls,
    main argv w
    = Some (if failed then kCommonConstantReturnTypeError else 0%Z, st)
    /\ arguments st = a
    /\ calibratedSensorOutput st = value
    /\ cpuTimeUsedSeconds st = cpu
    /\ monteCarloOutputSamples st = samples
    /\ outputDistributions st = outs
    /\ inputDistributions st = inputDistributions loopEnd
    /\ length samplerCalls = (5 * N.to_nat n)%nat
    /\ forallb isSamplerCall samplerCalls = true
    /\ trace st
       = (if isMonteCarloMode (common a)
          then [CallCheckedMalloc (size_mul n sizeof_double)] else [])
         ++ (if timed then [CallClock t0] else [])
         ++ samplerCalls
         ++ aggregation
         ++ (if timed then [CallClock t1] else [])
         ++ reportCalls ++ lastCalls.
Proof.
  intros n timed loopEnd t0 t1 value cpu outs samples written failed
    reportCalls aggregation lastCalls Hparse Hn.
  set (stop := stopTiming (aggregateSamples loopEnd)).
  destruct (loopEntry_unfold a w) as (Hentry & _ & _ & _ & _ & Htrace0).
  destruct (loopEntry_timing a w) as (Hstart0 & _ & _).
  cbn zeta in Htrace0, Hstart0. fold n timed t0 in Htrace0, Hstart0.
  assert (Ha : arguments loopEnd = a).
  { subst loopEnd. by rewrite afterIterations_arguments. }
  destruct (afterIterations_frame (N.to_nat n) (loopEntry a w))
    as (Hstart & _ & Hcpu0 & _).
  fold loopEnd in Hstart, Hcpu0.
  destruct (afterIterations_trace (N.to_nat n) (loopEntry a w))
    as (samplerCalls & Htrace & Hlen & Hsampler).
  fold loopEnd in Htrace.
  assert (Hstop : stop =
    set_cpuTimeUsedSeconds cpu
      (set_end (if timed then Some t1 else end_ loopEnd)
         (set_world (if timed then (clock (world loopEnd)).2
                     else world loopEnd)
            (emit (if timed then [CallClock t1] else [])
               (set_calibratedSensorOutput value
                  (set_meanAndVariance
                     (if isMonteCarloMode (common a)
                      then Some (calculateMeanAndVarianceOfDoubleSamples
                                   (monteCarloOutputSamples loopEnd) n)
                      else meanAndVariance loopEnd)
                     (emit aggregation loopEnd))))))).
  { subst stop. rewrite stopTiming_explicit. cbn zeta.
    destruct (aggregateSamples_fields loopEnd) as (Fa & Fw & Fs).
    rewrite Fa, Fw, Fs, Ha, Hstart, Hstart0. fold timed t1.
    rewrite aggregateSamples_unfold. cbn zeta. rewrite Ha.
    fold n samples aggregation value. subst cpu.
    destruct (loopEntry_unfold a w) as (_ & _ & Hc & _).
    destruct timed; [reflexivity|].
    symmetry. apply stop_untimed; [|reflexivity|reflexivity].
    by rewrite <- Hc, <- Hcpu0. }
  pose proof (reportResults_calls stop) as Hrep. cbn zeta in Hrep.
  assert (Hfields :
    arguments stop = a /\ calibratedSensorOutput stop = value
    /\ cpuTimeUsedSeconds stop = cpu /\ monteCarloOutputSamples stop = samples
    /\ outputDistributions stop = outs
    /\ world stop = (if timed then (clock (world loopEnd)).2
                     else world loopEnd)
    /\ inputDistributions stop = inputDistributions loopEnd
    /\ trace stop
       = trace loopEnd ++ aggregation
         ++ (if timed then [CallClock t1] else [])).
  { rewrite Hstop. repeat split; try done.
    cbn [trace set_cpuTimeUsedSeconds set_end set_world emit
         set_calibratedSensorOutput set_meanAndVariance].
    by rewrite <- app_assoc. }
  destruct Hfields as (E1 & E2 & E3 & E4 & E5 & E6 & E7 & E8).
  rewrite E1, E2, E3, E4, E5, E6 in Hrep.
  fold written reportCalls in Hrep.
  destruct (main_unfold argv w a reportCalls
              (if negb (isBenchmarkingMode (common a))
                  && isWriteToFileEnabled (common a)
               then written.2 else world stop) Hparse Hn)
    as (_ & code & tail & Hmain & Htail).
  { fold n loopEnd stop. rewrite Hrep. cbn [snd]. by rewrite E6. }
  fold n loopEnd stop in Hmain, Htail. rewrite Hrep in Htail.
  cbn [fst] in Htail. rewrite E3, E4 in Htail.
  eexists _, samplerCalls. split.
  { rewrite Hmain. f_equal. f_equal.
    subst failed. destruct Htail as [(Hnone & -> & _)|(c & Hsome & -> & _)].
    - by destruct (_ && negb _).
    - destruct (_ && negb _); [congruence|done]. }
  cbn [arguments calibratedSensorOutput cpuTimeUsedSeconds
       monteCarloOutputSamples outputDistributions inputDistributions trace
       set_world emit].
  repeat (split; [done|]).
  rewrite E8, Htrace, Htrace0, <- !app_assoc. do 6 f_equal.
  subst lastCalls failed.
  destruct Htail as [(Hnone & _ & ->)|(c & Hsome & _ & ->)].
  - by destruct (_ && negb _).
  - by destruct (_ && negb _).
Qed.

End ReportFacts.

(** ** Further properties of [calculateSensorOutput] *)

Section CalculateCompositions.
Context `{DoubleArithmetic}.

Implicit Types (a : CommandLineArguments) (ins outs : list (option double)).

Lemma store_store_eq outs i v v' :
  store (store outs i v') i v = store outs i v.
Proof. unfold store. apply list_insert_insert_eq. Qed.

Lemma store_store_ne outs i j v v' :
  N.to_nat i <> N.to_nat j ->
  store (store outs j v') i v = store (store outs i v) j v'.
Proof. intros Hij. unfold store. by apply list_insert_insert_ne. Qed.

(** The returned value does not depend on the output array, and what a
    call writes replaces what an earlier call wrote. *)
Lemma calculateSensorOutput_return_outputs a ins outs outs' :
  (calculateSensorOutput a ins outs).1 = (calculateSensorOutput a ins outs').1.
Proof.
  destruct (outputSelect_cases a) as [S|[S|[S|(N0 & N1 & N2)]]].
  - by rewrite !(calculateSensorOutput_mass_flow_only _ _ _ S).
  - by rewrite !(calculateSensorOutput_pressure_only _ _ _ S).
  - by rewrite !(calculateSensorOutput_all _ _ _ S).
  - by rewrite !(calculateSensorOutput_none _ _ _ N0 N1 N2).
Qed.

Lemma calculateSensorOutput_outputs_overwritten a ins1 ins2 outs :
  (calculateSensorOutput a ins2 (calculateSensorOutput a ins1 outs).2).2
  = (calculateSensorOutput a ins2 outs).2.
Proof.
  destruct (outputSelect_cases a) as [S|[S|[S|(N0 & N1 & N2)]]].
  - rewrite !(calculateSensorOutput_mass_flow_only _ _ _ S). cbn [snd].
    apply store_store_eq.
  - rewrite !(calculateSensorOutput_pressure_only _ _ _ S). cbn [snd].
    apply store_store_eq.
  - rewrite !(calculateSensorOutput_all _ _ _ S). cbn [snd].
    rewrite (store_store_ne _
               kOutputDistributionIndexCalibratedMassFlowOutput
               kOutputDistributionIndexCalibratedDifferentialPressureOutput)
      by done.
    by rewrite !store_store_eq.
  - by rewrite !(calculateSensorOutput_none _ _ _ N0 N1 N2).
Qed.

(** X1.  Asking [calculateSensorOutput] for all outputs is the same as
    calling it for the mass flow alone and then, on the array that call
    leaves, for the differential pressure alone: the same output array
    and the same returned value. *)
Theorem calculateSensorOutput_all_composes aAll aMass aPressure ins outs :
  outputSelect (common aAll) = kOutputDistributionIndexMax ->
  outputSelect (common aMass)
  = kOutputDistributionIndexCalibratedMassFlowOutput ->
  outputSelect (common aPressure)
  = kOutputDistributionIndexCalibratedDifferentialPressureOutput ->
  calculateSensorOutput aAll ins outs
  = calculateSensorOutput aPressure ins
      (calculateSensorOutput aMass ins outs).2.
Proof.
  intros HAll HMass HPressure.
  by rewrite (calculateSensorOutput_all _ _ _ HAll),
    (calculateSensorOutput_pressure_only _ _ _ HPressure),
    (calculateSensorOutput_mass_flow_only _ _ _ HMass).
Qed.

(** X2.  With an output selected ([outputSelect] at most
    [kOutputDistributionIndexMax]), a call of [calculateSensorOutput]
    leaves nothing of an earlier call with the same [outputSelect] behind:
    calling it on inputs [ins1] and then on inputs [ins2] gives the output
    array and the returned value of the call on [ins2] alone.  In
    particular a repeated call changes nothing. *)
Theorem calculateSensorOutput_last_call_wins a ins1 ins2 outs :
  outputSelect (common a) <= kOutputDistributionIndexMax ->
  calculateSensorOutput a ins2 (calculateSensorOutput a ins1 outs).2
  = calculateSensorOutput a ins2 outs.
Proof.
  intros _. apply injective_projections.
  - apply calculateSensorOutput_return_outputs.
  - apply calculateSensorOutput_outputs_overwritten.
Qed.

End CalculateCompositions.

(** ** Further properties of [setInputDistributionsViaUxHwCall] and of the loop *)

Section LoopInvariants.
Context `{Platform}.

Implicit Types (st : MainState) (ins : list (option double)) (w : World).

(** After the call the five entries are assigned, whatever they held. *)
Lemma setInputDistributionsViaUxHwCall_assigned ins w (i : N) :
  (N.to_nat kInputDistributionIndexMax <= length ins)%nat ->
  i < kInputDistributionIndexMax ->
  is_Some (load (setInputDistributionsViaUxHwCall ins w).1.1 i).
Proof.
  intros Hlen Hi.
  pose proof (setInputDistributionsViaUxHwCall_unfold ins w) as E.
  cbn zeta in E. rewrite E. clear E. cbn [fst snd].
  change (N.to_nat kInputDistributionIndexMax) with 5%nat in Hlen.
  unfold kInputDistributionIndexMax in Hi. unfold load.
  assert (i = kInputDistributionIndexHxfer \/ i = kInputDistributionIndexTflow
          \/ i = kInputDistributionIndexT0 \/ i = kInputDistributionIndexPflow
          \/ i = kInputDistributionIndexP0) as [->|[->|[->|[->| ->]]]].
  { unfold kInputDistributionIndexHxfer, kInputDistributionIndexTflow,
      kInputDistributionIndexT0, kInputDistributionIndexPflow,
      kInputDistributionIndexP0. lia. }
  all: repeat first
    [ rewrite lookup_store_ne by done
    | rewrite lookup_store_eq;
      [ by eexists
      | rewrite ?length_store;
        unfold kInputDistributionIndexHxfer, kInputDistributionIndexTflow,
          kInputDistributionIndexT0, kInputDistributionIndexPflow,
          kInputDistributionIndexP0; lia ] ].
Qed.

Lemma afterIterations_inputs_length k st :
  length (inputDistributions (afterIterations k st))
  = length (inputDistributions st).
Proof.
  induction k as [|k IH]; [done|]. cbn [afterIterations].
  pose proof (loopBody_unfold (N.of_nat k) (afterIterations k st)) as E.
  cbn zeta in E. rewrite E. cbn [inputDistributions].
  by rewrite setInputDistributionsViaUxHwCall_length.
Qed.

(** What an iteration computes does not depend on the output array left
    by the iterations before it. *)
Lemma afterIterations_outputs_overwritten k st ins :
  (calculateSensorOutput (arguments st) ins
     (outputDistributions (afterIterations k st))).2
  = (calculateSensorOutput (arguments st) ins (outputDistributions st)).2.
Proof.
  induction k as [|k IH]; [done|]. cbn [afterIterations].
  pose proof (loopBody_unfold (N.of_nat k) (afterIterations k st)) as E.
  cbn zeta in E. rewrite E. cbn [outputDistributions].
  rewrite afterIterations_arguments.
  by rewrite calculateSensorOutput_outputs_overwritten.
Qed.

(** The variables an iteration assigns, in terms of the state before it. *)
Lemma afterIterations_last k st :
  let before := afterIterations k st in
  let ins :=
    (setInputDistributionsViaUxHwCall (inputDistributions before)
       (world before)).1.1 in
  inputDistributions (afterIterations (S k) st) = ins
  /\ calibratedSensorOutput (afterIterations (S k) st)
     = (calculateSensorOutput (arguments st) ins (outputDistributions st)).1
  /\ outputDistributions (afterIterations (S k) st)
     = (calculateSensorOutput (arguments st) ins (outputDistributions st)).2.
Proof.
  intros before ins. subst before ins. cbn [afterIterations].
  pose proof (loopBody_unfold (N.of_nat k) (afterIterations k st)) as E.
  cbn zeta in E. rewrite E.
  cbn [inputDistributions calibratedSensorOutput outputDistributions].
  rewrite afterIterations_arguments. split; [done|]. split.
  - apply calculateSensorOutput_return_outputs.
  - apply afterIterations_outputs_overwritten.
Qed.

(** The value an iteration hands on: what [calculateSensorOutput] returns
    on the inputs drawn in that iteration. *)
Lemma afterIterations_sample k st :
  let before := afterIterations k st in
  calibratedSensorOutput (afterIterations (S k) st)
  = (calculateSensorOutput (arguments st)
       (setInputDistributionsViaUxHwCall (inputDistributions before)
          (world before)).1.1
       (outputDistributions before)).1.
Proof.
  intros before. subst before.
  destruct (afterIterations_last k st) as (_ & -> & _).
  apply calculateSensorOutput_return_outputs.
Qed.

(** X3.  [setInputDistributionsViaUxHwCall] replaces the five entries by
    values that do not depend on what the array held: two calls in the
    same sampler state on different arrays leave the same five entries,
    the same sampler state and have made the same five calls.  Cells past
    the fifth and the length of the array are left alone. *)
Theorem setInputDistributionsViaUxHwCall_frame ins1 ins2 w :
  let r1 := setInputDistributionsViaUxHwCall ins1 w in
  let r2 := setInputDistributionsViaUxHwCall ins2 w in
  length r1.1.1 = length ins1
  /\ (forall i, (N.to_nat kInputDistributionIndexMax <= i)%nat ->
      r1.1.1 !! i = ins1 !! i)
  /\ r1.1.2 = r2.1.2
  /\ r1.2 = r2.2
  /\ ((N.to_nat kInputDistributionIndexMax <= length ins1)%nat ->
      (N.to_nat kInputDistributionIndexMax <= length ins2)%nat ->
      forall i, (i < N.to_nat kInputDistributionIndexMax)%nat ->
      r1.1.1 !! i = r2.1.1 !! i).
Proof.
  intros r1 r2. subst r1 r2.
  pose proof (setInputDistributionsViaUxHwCall_unfold ins1 w) as E1.
  pose proof (setInputDistributionsViaUxHwCall_unfold ins2 w) as E2.
  cbn zeta in E1, E2. rewrite E1, E2. clear E1 E2. cbn [fst snd].
  change (N.to_nat kInputDistributionIndexMax) with 5%nat.
  split; [by rewrite !length_store|]. split.
  { intros i Hi.
    rewrite !lookup_store_ne;
      [done|unfold kInputDistributionIndexHxfer, kInputDistributionIndexTflow,
              kInputDistributionIndexT0, kInputDistributionIndexPflow,
              kInputDistributionIndexP0; lia..]. }
  split; [done|]. split; [done|].
  intros Hlen1 Hlen2 i Hi.
  assert (i = N.to_nat kInputDistributionIndexHxfer
          \/ i = N.to_nat kInputDistributionIndexTflow
          \/ i = N.to_nat kInputDistributionIndexT0
          \/ i = N.to_nat kInputDistributionIndexPflow
          \/ i = N.to_nat kInputDistributionIndexP0) as [->|[->|[->|[->| ->]]]].
  { unfold kInputDistributionIndexHxfer, kInputDistributionIndexTflow,
      kInputDistributionIndexT0, kInputDistributionIndexPflow,
      kInputDistributionIndexP0. lia. }
  all: repeat first
    [ rewrite lookup_store_ne by done
    | rewrite lookup_store_eq;
      [ | rewrite ?length_store;
          unfold kInputDistributionIndexHxfer, kInputDistributionIndexTflow,
            kInputDistributionIndexT0, kInputDistributionIndexPflow,
            kInputDistributionIndexP0; lia ] ];
    reflexivity.
Qed.

End LoopInvariants.

(** ** Further properties of [main] *)

Section MainBehaviour.
Context `{Platform}.

Implicit Types (st : MainState) (a : CommandLineArguments) (w : World).

(** Case analysis on every flag the goal still branches on. *)
Ltac by_flags :=
  repeat match goal with
         | |- context [if ?b then _ else _] => destruct b
         end;
  reflexivity.

Lemma filter_sampler_calls (f : Event -> bool) (calls : list Event) :
  (forall e, isSamplerCall e = true -> f e = false) ->
  forallb isSamplerCall calls = true ->
  List.filter f calls = [].
Proof.
  intros Hf. induction calls as [|e calls IH]; [done|]. cbn [forallb].
  intros [He Hrest]%andb_prop. cbn [List.filter].
  by rewrite (Hf e He), (IH Hrest).
Qed.

(** With a selection that names no output, the loop assigns neither the
    output array nor, after its first iteration, a computed value. *)
Lemma afterIterations_nothing_selected k st :
  kOutputDistributionIndexMax < outputSelect (common (arguments st)) ->
  outputDistributions (afterIterations k st) = outputDistributions st
  /\ calibratedSensorOutput (afterIterations (S k) st) = None.
Proof.
  intros Hsel.
  assert (Hnone : forall ins outs,
            calculateSensorOutput (arguments st) ins outs = (None, outs)).
  { intros ins outs. apply calculateSensorOutput_none;
      unfold kOutputDistributionIndexCalibratedMassFlowOutput,
        kOutputDistributionIndexCalibratedDifferentialPressureOutput,
        kOutputDistributionIndexMax in *; lia. }
  split.
  - induction k as [|k IH]; [done|].
    destruct (afterIterations_last k st) as (_ & _ & ->).
    by rewrite Hnone.
  - destruct (afterIterations_last k st) as (_ & -> & _).
    by rewrite Hnone.
Qed.

(** The calibrated values [main] reports, by output format. *)
Lemma main_value_reports argv w a :
  let n := numberOfMonteCarloIterations (common a) in
  let loopEnd := afterIterations (N.to_nat n) (loopEntry a w) in
  getCommandLineArguments argv zeroArguments = (0%Z, a) ->
  n < SIZE_MODULUS ->
  exists code st,
    main argv w = Some (code, st)
    /\ calibratedSensorOutput st
       = (if isMonteCarloMode (common a)
          then Some (mean (calculateMeanAndVarianceOfDoubleSamples
                             (monteCarloOutputSamples loopEnd) n))
          else calibratedSensorOutput loopEnd)
    /\ monteCarloOutputSamples st = monteCarloOutputSamples loopEnd
    /\ outputDistributions st = outputDistributions loopEnd
    /\ List.filter isValueReportCall (trace st)
       = if isBenchmarkingMode (common a)
         then [CallPrintfBenchmark (calibratedSensorOutput st)
                 (microsecondsOf (cpuTimeUsedSeconds st))]
         else if isOutputJSONMode (common a)
         then [CallPrintJSONFormattedOutput (monteCarloOutputSamples st)
                 (outputDistributions st)]
         else if outputSelect (common a) =? kOutputDistributionIndexMax
         then [CallPrintCalibratedValueAndProbabilities
                 (load (outputDistributions st)
                    kOutputDistributionIndexCalibratedMassFlowOutput)
                 (Some "Calibrated Mass Flow"%string) (Some "sccm"%string);
               CallPrintCalibratedValueAndProbabilities
                 (load (outputDistributions st)
                    kOutputDistributionIndexCalibratedDifferentialPressureOutput)
                 (Some "Calibrated Differential Pressure"%string)
                 (Some "Pa"%string)]
         else [CallPrintCalibratedValueAndProbabilities
                 (calibratedSensorOutput st)
                 (outputVariableNames !! N.to_nat (outputSelect (common a)))
                 (unitsOfMeasurement !! N.to_nat (outputSelect (common a)))].
Proof.
  intros n loopEnd Hparse Hn.
  destruct (main_behaviour argv w a Hparse Hn)
    as (st & samplerCalls & Hmain & _ & Hvalue & Hcpu & Hsamples & Houts & _
        & _ & Hsampler & Htrace).
  fold n loopEnd in Hvalue, Hcpu, Hsamples, Houts, Htrace.
  eexists _, st. split; [exact Hmain|]. split; [exact Hvalue|].
  split; [exact Hsamples|]. split; [exact Houts|].
  rewrite Htrace, Hvalue, Hcpu, Hsamples, Houts, !List.filter_app.
  rewrite (filter_sampler_calls isValueReportCall samplerCalls);
    [|by intros []|done].
  by_flags.
Qed.

(** X4.  When [main] returns after at least one iteration,
    [outputDistributions] holds what [calculateSensorOutput] wrote in the
    last iteration, on an array never assigned before, and
    [inputDistributions] the samples of that iteration: earlier iterations
    leave nothing behind.  This is also so in Monte Carlo mode, where the
    mean goes to [calibratedSensorOutput] and not into the array. *)
Theorem main_outputs_of_last_iteration argv w a k :
  let n := numberOfMonteCarloIterations (common a) in
  let before := afterIterations k (loopEntry a w) in
  let lastInputs :=
    (setInputDistributionsViaUxHwCall (inputDistributions before)
       (world before)).1.1 in
  let r :=
    calculateSensorOutput a lastInputs
      (replicate (N.to_nat kOutputDistributionIndexMax) None) in
  getCommandLineArguments argv zeroArguments = (0%Z, a) ->
  n < SIZE_MODULUS ->
  N.to_nat n = S k ->
  exists code st,
    main argv w = Some (code, st)
    /\ inputDistributions st = lastInputs
    /\ outputDistributions st = r.2
    /\ calibratedSensorOutput st
       = (if isMonteCarloMode (common a)
          then Some (mean (calculateMeanAndVarianceOfDoubleSamples
                             (monteCarloOutputSamples st) n))
          else r.1).
Proof.
  intros n before lastInputs r Hparse Hn Hk.
  destruct (main_behaviour argv w a Hparse Hn)
    as (st & samplerCalls & Hmain & _ & Hvalue & _ & Hsamples & Houts & Hins
        & _).
  fold n in Hvalue, Hsamples, Houts, Hins.
  rewrite Hk in Hvalue, Houts, Hins.
  destruct (afterIterations_last k (loopEntry a w)) as (E1 & E2 & E3).
  destruct (loopEntry_unfold a w) as (Hargs & _ & _ & _ & Houts0 & _).
  rewrite Hargs, Houts0 in E2, E3. fold before lastInputs r in E1, E2, E3.
  eexists _, st. split; [exact Hmain|].
  split; [by rewrite Hins|]. split; [by rewrite Houts|].
  rewrite Hvalue, Hsamples, Hk. by destruct (isMonteCarloMode _).
Qed.

(** X5.  In Monte Carlo mode with a valid [outputSelect], every one of the
    [numberOfMonteCarloIterations] cells of the block handed to
    [calculateMeanAndVarianceOfDoubleSamples] has been assigned a computed
    value: the aggregation never reads a cell [checkedMalloc] left
    uninitialised. *)
Theorem main_monteCarlo_samples_assigned argv w a :
  let n := numberOfMonteCarloIterations (common a) in
  getCommandLineArguments argv zeroArguments = (0%Z, a) ->
  n * sizeof_double < SIZE_MODULUS ->
  isMonteCarloMode (common a) = true ->
  outputSelect (common a) <= kOutputDistributionIndexMax ->
  exists code st samples,
    main argv w = Some (code, st)
    /\ monteCarloOutputSamples st = Some samples
    /\ length samples = N.to_nat n
    /\ calibratedSensorOutput st
       = Some (mean (calculateMeanAndVarianceOfDoubleSamples
                       (Some samples) n))
    /\ forall i, (i < N.to_nat n)%nat ->
         exists v, samples !! i = Some (Some v).
Proof.
  intros n Hparse Hsize Hmc Hsel.
  assert (Hn : n < SIZE_MODULUS) by (unfold sizeof_double in Hsize; lia).
  destruct (main_behaviour argv w a Hparse Hn)
    as (st & samplerCalls & Hmain & _ & Hvalue & _ & Hsamples & _).
  fold n in Hvalue, Hsamples. rewrite Hmc in Hvalue.
  destruct (loopEntry_samples a w Hmc Hsize) as (samples0 & Hs0 & Hlen0).
  fold n in Hlen0.
  destruct (loopEntry_unfold a w) as (Hargs & _).
  destruct (loopEntry_timing a w) as (_ & _ & Hins0).
  destruct (afterIterations_samples_monteCarlo (N.to_nat n) (loopEntry a w)
              samples0) as (samples & Hs & Hlen & Hlow & _);
    [by rewrite Hargs|done|].
  rewrite Hs in Hsamples, Hvalue.
  eexists _, st, samples. split; [exact Hmain|]. split; [done|].
  split; [lia|]. split; [done|].
  intros i Hi. rewrite Hlow by lia.
  destruct (afterIterations_last i (loopEntry a w)) as (_ & -> & _).
  rewrite Hargs.
  destruct (calculateSensorOutput_returns_value a
              (setInputDistributionsViaUxHwCall
                 (inputDistributions (afterIterations i (loopEntry a w)))
                 (world (afterIterations i (loopEntry a w)))).1.1
              (outputDistributions (loopEntry a w)) Hsel) as [v Hv].
  { intros j Hj. apply setInputDistributionsViaUxHwCall_assigned; [|done].
    by rewrite afterIterations_inputs_length, Hins0, length_replicate. }
  exists v. by rewrite Hv.
Qed.

(** X6.  [main] does not check [outputSelect].  With a value above
    [kOutputDistributionIndexMax], [calculateSensorOutput] selects
    nothing: the output array is still unassigned when [main] returns, in
    direct mode the value reported was never assigned, and in the standard
    output format the name and the unit are read past the end of
    [outputVariableNames] and [unitsOfMeasurement]. *)
Theorem main_unchecked_outputSelect argv w a k :
  let n := numberOfMonteCarloIterations (common a) in
  getCommandLineArguments argv zeroArguments = (0%Z, a) ->
  n < SIZE_MODULUS ->
  N.to_nat n = S k ->
  kOutputDistributionIndexMax < outputSelect (common a) ->
  exists code st,
    main argv w = Some (code, st)
    /\ outputDistributions st
       = replicate (N.to_nat kOutputDistributionIndexMax) None
    /\ (isMonteCarloMode (common a) = false ->
        calibratedSensorOutput st = None)
    /\ (isBenchmarkingMode (common a) = false ->
        isOutputJSONMode (common a) = false ->
        In (CallPrintCalibratedValueAndProbabilities
              (calibratedSensorOutput st) None None) (trace st)).
Proof.
  intros n Hparse Hn Hk Hsel.
  destruct (main_behaviour argv w a Hparse Hn)
    as (st & samplerCalls & Hmain & _ & Hvalue & _ & _ & Houts & _ & _ & _
        & Htrace).
  fold n in Hvalue, Houts, Htrace. rewrite Hk in Hvalue, Houts, Htrace.
  destruct (loopEntry_unfold a w) as (Hargs & _ & _ & _ & Houts0 & _).
  destruct (afterIterations_nothing_selected k (loopEntry a w))
    as (_ & Hnone); [by rewrite Hargs|].
  destruct (afterIterations_nothing_selected (S k) (loopEntry a w))
    as (Hsame & _); [by rewrite Hargs|].
  rewrite Hsame, Houts0 in Houts. rewrite Hnone in Hvalue, Htrace.
  eexists _, st. split; [exact Hmain|]. split; [done|]. split.
  { intros Hmc. by rewrite Hvalue, Hmc. }
  intros Hbench Hjson. rewrite Htrace, Hbench, Hjson.
  assert (Hneq : (outputSelect (common a) =? kOutputDistributionIndexMax)
                 = false) by (apply N.eqb_neq; lia).
  rewrite Hneq.
  assert (Hname : outputVariableNames !! N.to_nat (outputSelect (common a))
                  = None).
  { apply lookup_ge_None_2. unfold kOutputDistributionIndexMax in Hsel.
    simpl. lia. }
  assert (Hunit : unitsOfMeasurement !! N.to_nat (outputSelect (common a))
                  = None).
  { apply lookup_ge_None_2. unfold kOutputDistributionIndexMax in Hsel.
    simpl. lia. }
  rewrite Hname, Hunit, Hvalue.
  do 5 (apply in_or_app; right). apply in_or_app. left.
  apply in_or_app. left. by left.
Qed.

(** X7.  Timing.  With timing or benchmarking enabled [main] reads the
    clock exactly twice: after the allocation and before its first sampler
    call, and then after its last sampler call and, in Monte Carlo mode,
    after the call of [calculateMeanAndVarianceOfDoubleSamples] that
    follows the loop, before anything is reported.  The measured interval
    holds the sampling and the aggregation and leaves out the allocation,
    the reporting, the saving of the samples and [free].
    [cpuTimeUsedSeconds] is the difference of the two readings, converted
    to [double], over [CLOCKS_PER_SEC].  With both flags off the clock is
    never read and [cpuTimeUsedSeconds] is never assigned. *)
Theorem main_timing argv w a :
  let n := numberOfMonteCarloIterations (common a) in
  let loopEnd := afterIterations (N.to_nat n) (loopEntry a w) in
  let t0 := (clock w).1 in
  let t1 := (clock (world loopEnd)).1 in
  let allocation :=
    if isMonteCarloMode (common a)
    then [CallCheckedMalloc (size_mul n sizeof_double)] else [] in
  let aggregation :=
    if isMonteCarloMode (common a)
    then [CallCalculateMeanAndVarianceOfDoubleSamples
            (monteCarloOutputSamples loopEnd) n]
    else [] in
  getCommandLineArguments argv zeroArguments = (0%Z, a) ->
  n < SIZE_MODULUS ->
  exists code st samplerCalls rest,
    main argv w = Some (code, st)
    /\ length samplerCalls = (5 * N.to_nat n)%nat
    /\ forallb isSamplerCall samplerCalls = true
    /\ forallb (fun e => negb (isComputationCall e)) rest = true
    /\ (isTimingEnabled (common a) || isBenchmarkingMode (common a) = true ->
        cpuTimeUsedSeconds st
        = Some (double_of_int (t1 - t0) / double_of_int CLOCKS_PER_SEC)%D
        /\ trace st
           = allocation ++ [CallClock t0] ++ samplerCalls ++ aggregation
             ++ [CallClock t1] ++ rest)
    /\ (isTimingEnabled (common a) || isBenchmarkingMode (common a) = false ->
        cpuTimeUsedSeconds st = None
        /\ trace st = allocation ++ samplerCalls ++ aggregation ++ rest).
Proof.
  intros n loopEnd t0 t1 allocation aggregation Hparse Hn.
  destruct (main_behaviour argv w a Hparse Hn)
    as (st & samplerCalls & Hmain & _ & _ & Hcpu & _ & _ & _ & Hlen
        & Hsampler & Htrace).
  fold n loopEnd t0 t1 allocation aggregation in Hcpu, Htrace.
  match type of Htrace with
  | _ = _ ++ _ ++ _ ++ _ ++ _ ++ ?r => set (rest := r) in *
  end.
  eexists _, st, samplerCalls, rest. split; [exact Hmain|].
  split; [exact Hlen|]. split; [exact Hsampler|].
  split; [|split].
  - subst rest. rewrite forallb_app.
    by_flags.
  - intros Htimed. rewrite Htimed in Hcpu, Htrace. by split.
  - intros Htimed. rewrite Htimed in Hcpu, Htrace. by split.
Qed.

(** X8.  Benchmarking mode.  [main] returns 0, and every call it makes
    once the arguments are read is named here, in order.  After the second
    reading of the clock it makes one [printf], of [calibratedSensorOutput]
    and of the measured time in microseconds; it prints nothing else and
    never calls the CSV writer, whatever the JSON, timing and file flags
    are.  In Monte Carlo mode the [printf] is followed, as outside
    benchmarking mode, by the saving of the samples to [data.out], with
    the same time, and by [free]. *)
Theorem main_benchmarking_output argv w a :
  let n := numberOfMonteCarloIterations (common a) in
  let loopEnd := afterIterations (N.to_nat n) (loopEntry a w) in
  let monteCarlo := isMonteCarloMode (common a) in
  getCommandLineArguments argv zeroArguments = (0%Z, a) ->
  n < SIZE_MODULUS ->
  isBenchmarkingMode (common a) = true ->
  exists st seconds samplerCalls,
    let microseconds :=
      Some (uint64_of_double (seconds * double_of_int 1000000)%D) in
    main argv w = Some (0%Z, st)
    /\ cpuTimeUsedSeconds st = Some seconds
    /\ length samplerCalls = (5 * N.to_nat n)%nat
    /\ forallb isSamplerCall samplerCalls = true
    /\ trace st
       = (if monteCarlo
          then [CallCheckedMalloc (size_mul n sizeof_double)] else [])
         ++ [CallClock (clock w).1]
         ++ samplerCalls
         ++ (if monteCarlo
             then [CallCalculateMeanAndVarianceOfDoubleSamples
                     (monteCarloOutputSamples st) n]
             else [])
         ++ [CallClock (clock (world loopEnd)).1]
         ++ [CallPrintfBenchmark (calibratedSensorOutput st) microseconds]
         ++ (if monteCarlo
             then [CallSaveMonteCarloDoubleDataToDataDotOutFile
                     (monteCarloOutputSamples st) microseconds n;
                   CallFree (monteCarloOutputSamples st)]
             else []).
Proof.
  intros n loopEnd monteCarlo Hparse Hn Hbench.
  destruct (main_behaviour argv w a Hparse Hn)
    as (st & samplerCalls & Hmain & _ & Hvalue & Hcpu & Hsamples & _ & _
        & Hlen & Hsampler & Htrace).
  rewrite Hbench, orb_true_r in Hmain, Hcpu, Htrace.
  cbn [negb andb] in Hmain, Htrace.
  fold n loopEnd monteCarlo in Hvalue, Hcpu, Hsamples, Hlen, Htrace.
  eexists st, _, samplerCalls. cbn zeta.
  split; [exact Hmain|]. split; [exact Hcpu|].
  split; [exact Hlen|]. split; [exact Hsampler|].
  by rewrite Htrace, Hvalue, Hsamples.
Qed.

(** X9.  Standard output, one output selected.  The only value [main]
    prints is [calibratedSensorOutput] (the mean in Monte Carlo mode),
    under the name and the unit of the selected output: "Calibrated Mass
    Flow" in sccm, "Calibrated Differential Pressure" in Pa. *)
Theorem main_single_output_report argv w a :
  getCommandLineArguments argv zeroArguments = (0%Z, a) ->
  numberOfMonteCarloIterations (common a) < SIZE_MODULUS ->
  isBenchmarkingMode (common a) = false ->
  isOutputJSONMode (common a) = false ->
  outputSelect (common a) < kOutputDistributionIndexMax ->
  exists code st,
    main argv w = Some (code, st)
    /\ List.filter isValueReportCall (trace st)
       = [if outputSelect (common a)
             =? kOutputDistributionIndexCalibratedMassFlowOutput
          then CallPrintCalibratedValueAndProbabilities
                 (calibratedSensorOutput st)
                 (Some "Calibrated Mass Flow"%string) (Some "sccm"%string)
          else CallPrintCalibratedValueAndProbabilities
                 (calibratedSensorOutput st)
                 (Some "Calibrated Differential Pressure"%string)
                 (Some "Pa"%string)].
Proof.
  intros Hparse Hn Hbench Hjson Hsel.
  destruct (main_behaviour argv w a Hparse Hn)
    as (st & samplerCalls & Hmain & _ & Hvalue & _ & _ & _ & _ & _
        & Hsampler & Htrace).
  rewrite Hbench, Hjson in Htrace.
  assert (Hneq : (outputSelect (common a) =? kOutputDistributionIndexMax)
                 = false) by (apply N.eqb_neq; lia).
  rewrite Hneq in Htrace.
  eexists _, st. split; [exact Hmain|].
  rewrite Htrace, Hvalue, !List.filter_app.
  rewrite (filter_sampler_calls isValueReportCall samplerCalls);
    [|by intros []|done].
  assert (outputSelect (common a) = 0 \/ outputSelect (common a) = 1)
    as [-> | ->] by (unfold kOutputDistributionIndexMax in Hsel; lia).
  all: unfold kOutputDistributionIndexCalibratedMassFlowOutput;
    cbn [N.eqb Pos.eqb]; by_flags.
Qed.

(** X10.  Standard output, all outputs selected.  [main] prints the two
    entries of [outputDistributions], mass flow first, each under its name
    and unit.  After at least one iteration these are the polynomial and
    the differential pressure of the last iteration's inputs; in Monte
    Carlo mode the mean held by [calibratedSensorOutput] is not what is
    printed. *)
Theorem main_all_outputs_report argv w a k :
  let n := numberOfMonteCarloIterations (common a) in
  let before := afterIterations k (loopEntry a w) in
  let lastInputs :=
    (setInputDistributionsViaUxHwCall (inputDistributions before)
       (world before)).1.1 in
  let m :=
    (cell_literal kSensorCalibrationConstant3
       * cell_pow (load lastInputs kInputDistributionIndexHxfer) (cell_int 3)
     + cell_literal kSensorCalibrationConstant2
       * cell_pow (load lastInputs kInputDistributionIndexHxfer) (cell_int 2)
     + cell_literal kSensorCalibrationConstant1)%C in
  let p :=
    (m * (load lastInputs kInputDistributionIndexTflow
          / load lastInputs kInputDistributionIndexT0)
       * (load lastInputs kInputDistributionIndexP0
          / load lastInputs kInputDistributionIndexPflow))%C in
  getCommandLineArguments argv zeroArguments = (0%Z, a) ->
  n < SIZE_MODULUS ->
  N.to_nat n = S k ->
  isBenchmarkingMode (common a) = false ->
  isOutputJSONMode (common a) = false ->
  outputSelect (common a) = kOutputDistributionIndexMax ->
  exists code st,
    main argv w = Some (code, st)
    /\ List.filter isValueReportCall (trace st)
       = [CallPrintCalibratedValueAndProbabilities m
            (Some "Calibrated Mass Flow"%string) (Some "sccm"%string);
          CallPrintCalibratedValueAndProbabilities p
            (Some "Calibrated Differential Pressure"%string)
            (Some "Pa"%string)].
Proof.
  intros n before lastInputs m p Hparse Hn Hk Hbench Hjson Hsel.
  destruct (main_behaviour argv w a Hparse Hn)
    as (st & samplerCalls & Hmain & _ & _ & _ & _ & _ & _ & _
        & Hsampler & Htrace).
  fold n in Htrace. rewrite Hbench, Hjson, Hsel, N.eqb_refl, Hk in Htrace.
  destruct (afterIterations_last k (loopEntry a w)) as (_ & _ & E).
  destruct (loopEntry_unfold a w) as (Hargs & _ & _ & _ & Houts0 & _).
  rewrite Hargs, Houts0 in E. fold before lastInputs in E.
  rewrite (calculateSensorOutput_all _ _ _ Hsel) in E. cbn zeta in E.
  cbn [snd] in E. fold m p in E.
  assert (Hm : load (outputDistributions (afterIterations (S k)
                                            (loopEntry a w)))
                 kOutputDistributionIndexCalibratedMassFlowOutput = m).
  { rewrite E. unfold load. rewrite lookup_store_ne by done.
    rewrite lookup_store_eq; [done|].
    rewrite length_replicate. vm_compute. lia. }
  assert (Hp : load (outputDistributions (afterIterations (S k)
                                            (loopEntry a w)))
                 kOutputDistributionIndexCalibratedDifferentialPressureOutput
               = p).
  { rewrite E. unfold load. rewrite lookup_store_eq; [done|].
    rewrite length_store, length_replicate. vm_compute. lia. }
  rewrite Hm, Hp in Htrace.
  eexists _, st. split; [exact Hmain|].
  rewrite Htrace, !List.filter_app.
  rewrite (filter_sampler_calls isValueReportCall samplerCalls);
    [|by intros []|done].
  by_flags.
Qed.

(** X11.  JSON mode.  The only value report is one call of
    [printJSONFormattedOutput], which receives the sample pointer and the
    output array as they are on return; without the Monte Carlo flag that
    pointer is [NULL]. *)
Theorem main_json_report argv w a :
  getCommandLineArguments argv zeroArguments = (0%Z, a) ->
  numberOfMonteCarloIterations (common a) < SIZE_MODULUS ->
  isBenchmarkingMode (common a) = false ->
  isOutputJSONMode (common a) = true ->
  exists code st,
    main argv w = Some (code, st)
    /\ List.filter isValueReportCall (trace st)
       = [CallPrintJSONFormattedOutput (monteCarloOutputSamples st)
            (outputDistributions st)]
    /\ (isMonteCarloMode (common a) = false ->
        monteCarloOutputSamples st = None).
Proof.
  intros Hparse Hn Hbench Hjson.
  destruct (main_behaviour argv w a Hparse Hn)
    as (st & samplerCalls & Hmain & _ & _ & _ & Hsamples & Houts & _ & _
        & Hsampler & Htrace).
  rewrite Hbench, Hjson in Htrace.
  eexists _, st. split; [exact Hmain|]. split.
  - rewrite Htrace, Hsamples, Houts, !List.filter_app.
    rewrite (filter_sampler_calls isValueReportCall samplerCalls);
      [|by intros []|done].
    by_flags.
  - intros Hmc. rewrite Hsamples.
    destruct (loopEntry_unfold a w) as (Hargs & _ & _ & Hs0 & _).
    cbn zeta in Hs0. rewrite Hmc in Hs0.
    rewrite afterIterations_samples_direct; [done|by rewrite Hargs].
Qed.

(** Membership in a trace given segment by segment. *)
Ltac in_trace H :=
  repeat match type of H with
         | In _ (_ ++ _) => apply in_app_or in H as [H|H]
         | In _ (if ?b then _ else _) => destruct b eqn:?
         | In _ [] => destruct H
         | In _ (_ :: _) => destruct H as [H|H]
         end.

(** X12.  The value [main] returns.  It is 0 or
    [kCommonConstantReturnTypeError].  When [getCommandLineArguments]
    reports an error, [main] returns the error code at once: it has made
    no call and allocated nothing.  Otherwise it returns 0 exactly when no
    call of the CSV writer reported an error. *)
Theorem main_return_code argv w :
  let parsed := getCommandLineArguments argv zeroArguments in
  numberOfMonteCarloIterations (common parsed.2) < SIZE_MODULUS ->
  kCommonConstantReturnTypeError <> 0%Z ->
  exists code st,
    main argv w = Some (code, st)
    /\ (code = 0%Z \/ code = kCommonConstantReturnTypeError)
    /\ (parsed.1 <> 0%Z ->
        code = kCommonConstantReturnTypeError
        /\ trace st = []
        /\ monteCarloOutputSamples st = None)
    /\ (code = 0%Z <->
        parsed.1 = 0%Z
        /\ forall path outs count result,
             In (CallWriteOutputDoubleDistributionsToCSV path outs count
                   result) (trace st) -> result = 0%Z).
Proof.
  intros parsed Hn Herr. subst parsed.
  destruct (getCommandLineArguments argv zeroArguments) as [error a]
    eqn:Hparse.
  cbn [fst snd] in *. destruct (Z.eqb_spec error 0) as [->|Hne].
  - destruct (main_behaviour argv w a Hparse Hn)
      as (st & samplerCalls & Hmain & _ & _ & _ & _ & _ & _ & _
          & Hsampler & Htrace).
    rewrite forallb_forall in Hsampler.
    set (result := (writeOutputDoubleDistributionsToCSV _ _ _ _ _).1) in *.
    eexists _, st. split; [exact Hmain|]. split.
    { destruct (_ && negb (result =? 0)%Z); auto. }
    split; [done|].
    destruct (isBenchmarkingMode (common a)) eqn:Hbench;
      destruct (isWriteToFileEnabled (common a)) eqn:Hwrite;
      destruct (Z.eqb_spec result 0) as [Hzero|Hnonzero];
      cbn [negb andb] in *.
    all: split; [intros Hcode; split; [done|]|intros [_ Hok]; try done].
    all: try (intros path outs count r Hin; rewrite Htrace in Hin;
              in_trace Hin;
              try discriminate Hin;
              try (apply Hsampler in Hin; discriminate Hin);
              try (injection Hin as _ _ _ <-; done)).
    all: exfalso; apply Hnonzero; eapply Hok; rewrite Htrace;
      do 5 (apply in_or_app; right); apply in_or_app; left;
      do 2 (apply in_or_app; right); by left.
  - exists kCommonConstantReturnTypeError,
      (set_arguments a (initialState w)).
    split.
    { unfold main. change (arguments (initialState w)) with zeroArguments.
      rewrite Hparse. apply Z.eqb_neq in Hne. by rewrite Hne. }
    split; [by right|]. split; [done|].
    split; [intros Hcode; congruence|intros [? _]; done].
Qed.

(** X13.  No iteration.  With [numberOfMonteCarloIterations] equal to 0
    the loop body never runs: the sampler is not called, both arrays are
    still unassigned when [main] returns, in direct mode the value
    reported was never assigned, and in Monte Carlo mode the mean is taken
    over an empty block. *)
Theorem main_zero_iterations argv w a :
  getCommandLineArguments argv zeroArguments = (0%Z, a) ->
  numberOfMonteCarloIterations (common a) = 0 ->
  exists code st,
    main argv w = Some (code, st)
    /\ forallb (fun e => negb (isSamplerCall e)) (trace st) = true
    /\ inputDistributions st
       = replicate (N.to_nat kInputDistributionIndexMax) None
    /\ outputDistributions st
       = replicate (N.to_nat kOutputDistributionIndexMax) None
    /\ calibratedSensorOutput st
       = (if isMonteCarloMode (common a)
          then Some (mean (calculateMeanAndVarianceOfDoubleSamples
                             (Some []) 0))
          else None).
Proof.
  intros Hparse Hzero.
  assert (Hn : numberOfMonteCarloIterations (common a) < SIZE_MODULUS)
    by (rewrite Hzero; done).
  destruct (main_behaviour argv w a Hparse Hn)
    as (st & samplerCalls & Hmain & _ & Hvalue & _ & _ & Houts & Hins & Hlen
        & _ & Htrace).
  rewrite Hzero in Hvalue, Houts, Hins, Hlen, Htrace.
  change (N.to_nat 0) with 0%nat in Hvalue, Houts, Hins, Hlen, Htrace.
  cbn [afterIterations Nat.mul] in Hvalue, Houts, Hins, Hlen, Htrace.
  destruct samplerCalls; [|discriminate Hlen].
  destruct (loopEntry_unfold a w) as (_ & Hvalue0 & _ & Hsamples0 & Houts0 & _).
  destruct (loopEntry_timing a w) as (_ & _ & Hins0).
  cbn zeta in Hsamples0. rewrite Hzero in Hsamples0.
  rewrite Hvalue0, Hsamples0 in Hvalue.
  eexists _, st. split; [exact Hmain|]. split.
  { rewrite Htrace, !forallb_app. by_flags. }
  split; [by rewrite Hins|]. split; [by rewrite Houts|].
  rewrite Hvalue. by destruct (isMonteCarloMode _).
Qed.

(** X14.  The size of the block.  [main] asks [checkedMalloc] for
    [numberOfMonteCarloIterations * sizeof(double)] bytes, a product taken
    in [size_t].  The block never has room for more samples than the loop
    writes, and it has room for all of them exactly when the product does
    not wrap. *)
Theorem allocation_holds_all_samples a w :
  let n := numberOfMonteCarloIterations (common a) in
  isMonteCarloMode (common a) = true ->
  n < SIZE_MODULUS ->
  exists block,
    monteCarloOutputSamples (loopEntry a w) = Some block
    /\ (length block <= N.to_nat n)%nat
    /\ (length block = N.to_nat n <-> n * sizeof_double < SIZE_MODULUS).
Proof.
  intros n Hmc Hn.
  destruct (loopEntry_unfold a w) as (_ & _ & _ & Hs & _).
  cbn zeta in Hs. fold n in Hs. rewrite Hmc in Hs.
  eexists. split; [exact Hs|]. unfold checkedMalloc.
  rewrite length_replicate. unfold size_mul, size_wrap, sizeof_double.
  assert (HM : 0 < SIZE_MODULUS) by done.
  pose proof (N.Div0.mod_le (n * 8) SIZE_MODULUS) as Hle.
  pose proof (N.mod_upper_bound (n * 8) SIZE_MODULUS ltac:(lia)) as Hlt.
  assert (Hdiv : (n * 8) mod SIZE_MODULUS / 8 <= n).
  { apply N.Div0.div_le_upper_bound. lia. }
  split; [lia|]. split.
  - intros Heq.
    destruct (N.lt_ge_cases (n * 8) SIZE_MODULUS) as [?|Hwrap]; [done|].
    assert ((n * 8) mod SIZE_MODULUS / 8 < n); [|lia].
    apply N.Div0.div_lt_upper_bound. lia.
  - intros Hfit. rewrite N.mod_small by done. by rewrite N.div_mul.
Qed.

(** C3.  Monte Carlo mode, for an iteration count whose size in bytes
    fits [size_t].  When [main] returns, [monteCarloOutputSamples] holds
    [numberOfMonteCarloIterations] samples, cell [i] being the value
    [calculateSensorOutput] returned in iteration [i] on the inputs drawn
    in that iteration, and [calibratedSensorOutput] is the mean that
    [calculateMeanAndVarianceOfDoubleSamples] computes from these samples.
    That mean is the calibrated value reported in benchmarking mode and,
    in the standard format, when a single output is selected
    ([outputSelect] is not [kOutputDistributionIndexMax]).  It is not what
    is reported otherwise: with all outputs selected the standard format
    prints the two entries of [outputDistributions], and JSON mode hands
    [monteCarloOutputSamples] and [outputDistributions] to
    [printJSONFormattedOutput]. *)
Theorem main_monteCarlo_reports_mean argv w a :
  let n := numberOfMonteCarloIterations (common a) in
  let sampled (i : nat) :=
    let before := afterIterations i (loopEntry a w) in
    (calculateSensorOutput a
       (setInputDistributionsViaUxHwCall (inputDistributions before)
          (world before)).1.1
       (outputDistributions before)).1 in
  getCommandLineArguments argv zeroArguments = (0%Z, a) ->
  n * sizeof_double < SIZE_MODULUS ->
  isMonteCarloMode (common a) = true ->
  exists code st samples,
    main argv w = Some (code, st)
    /\ monteCarloOutputSamples st = Some samples
    /\ length samples = N.to_nat n
    /\ (forall i, (i < N.to_nat n)%nat -> samples !! i = Some (sampled i))
    /\ let average :=
         mean (calculateMeanAndVarianceOfDoubleSamples (Some samples) n) in
       calibratedSensorOutput st = Some average
       /\ List.filter isValueReportCall (trace st)
          = if isBenchmarkingMode (common a)
            then [CallPrintfBenchmark (Some average)
                    (microsecondsOf (cpuTimeUsedSeconds st))]
            else if isOutputJSONMode (common a)
            then [CallPrintJSONFormattedOutput (Some samples)
                    (outputDistributions st)]
            else if outputSelect (common a) =? kOutputDistributionIndexMax
            then [CallPrintCalibratedValueAndProbabilities
                    (load (outputDistributions st)
                       kOutputDistributionIndexCalibratedMassFlowOutput)
                    (Some "Calibrated Mass Flow"%string)
                    (Some "sccm"%string);
                  CallPrintCalibratedValueAndProbabilities
                    (load (outputDistributions st)
                       kOutputDistributionIndexCalibratedDifferentialPressureOutput)
                    (Some "Calibrated Differential Pressure"%string)
                    (Some "Pa"%string)]
            else [CallPrintCalibratedValueAndProbabilities (Some average)
                    (outputVariableNames
                       !! N.to_nat (outputSelect (common a)))
                    (unitsOfMeasurement
                       !! N.to_nat (outputSelect (common a)))].
Proof.
  intros n sampled Hparse Hsize Hmc.
  assert (Hn : n < SIZE_MODULUS) by (unfold sizeof_double in Hsize; lia).
  destruct (main_value_reports argv w a Hparse Hn)
    as (code & st & Hmain & Hvalue & Hsamples & _ & Hreports).
  fold n in Hvalue, Hsamples.
  destruct (loopEntry_samples a w Hmc Hsize) as (block & Hblock & Hroom).
  fold n in Hroom.
  destruct (loopEntry_unfold a w) as (Hargs & _).
  destruct (afterIterations_samples_monteCarlo (N.to_nat n) (loopEntry a w)
              block) as (samples & Hend & Hlen & Hcells & _);
    [by rewrite Hargs|exact Hblock|].
  rewrite Hend in Hsamples, Hvalue. rewrite Hmc in Hvalue.
  exists code, st, samples. split; [exact Hmain|].
  split; [exact Hsamples|]. split; [by rewrite Hlen|]. split.
  { intros i Hi. rewrite Hcells by lia. f_equal. subst sampled. cbn beta.
    by rewrite afterIterations_sample, Hargs. }
  cbn zeta. split; [exact Hvalue|].
  by rewrite Hreports, Hvalue, Hsamples.
Qed.

End MainBehaviour.

(** ** Further worked instances on the exact interpretation *)

Section FurtherInstances.
Import Exact.

Lemma calculateSensorOutput_all_composes_witness :
  let aAll := arguments_of 2 1 false false false false false in
  let aMass := arguments_of 0 1 false false false false false in
  let aPressure := arguments_of 1 1 false false false false false in
  outputSelect (common aAll) = kOutputDistributionIndexMax
  /\ calculateSensorOutput aAll exampleInputs [None; None]
     = calculateSensorOutput aPressure exampleInputs
         (calculateSensorOutput aMass exampleInputs [None; None]).2.
Proof.
  intros aAll aMass aPressure. split; [reflexivity|].
  exact (calculateSensorOutput_all_composes (H := arithmetic)
           aAll aMass aPressure exampleInputs [None; None]
           eq_refl eq_refl eq_refl).
Defined.

(** All outputs selected: a call on other inputs first changes nothing. *)
Lemma calculateSensorOutput_last_call_wins_witness :
  let a := arguments_of 2 1 false false false false false in
  let earlier :=
    [Some 0.02%Q; Some 300%Q; Some 280%Q; Some 410000%Q; Some 400000%Q] in
  outputSelect (common a) <= kOutputDistributionIndexMax
  /\ calculateSensorOutput a exampleInputs
       (calculateSensorOutput a earlier [Some 1%Q; None]).2
     = calculateSensorOutput a exampleInputs [Some 1%Q; None].
Proof.
  intros a earlier.
  assert (Hsel : outputSelect (common a) <= kOutputDistributionIndexMax)
    by (vm_compute; discriminate).
  split; [exact Hsel|].
  exact (calculateSensorOutput_last_call_wins (H := arithmetic)
           a earlier exampleInputs [Some 1%Q; None] Hsel).
Defined.

(** An array never assigned and a longer one holding other values. *)
Lemma setInputDistributionsViaUxHwCall_frame_witness :
  let ins1 := replicate 5 (@None Q) in
  let ins2 := exampleInputs ++ [Some 42%Q] in
  let r1 := setInputDistributionsViaUxHwCall (H0 := platform 0 0 zeroArguments)
              ins1 world0 in
  let r2 := setInputDistributionsViaUxHwCall (H0 := platform 0 0 zeroArguments)
              ins2 world0 in
  (N.to_nat kInputDistributionIndexMax <= length ins1)%nat
  /\ (N.to_nat kInputDistributionIndexMax <= length ins2)%nat
  /\ r1.1.1 !! 2%nat = r2.1.1 !! 2%nat
  /\ r2.1.1 !! 5%nat = Some (Some 42%Q)
  /\ length r2.1.1 = 6%nat.
Proof.
  intros ins1 ins2 r1 r2.
  assert (H1 : (N.to_nat kInputDistributionIndexMax <= length ins1)%nat)
    by (vm_compute; lia).
  assert (H2 : (N.to_nat kInputDistributionIndexMax <= length ins2)%nat)
    by (vm_compute; lia).
  split; [exact H1|]. split; [exact H2|].
  destruct (setInputDistributionsViaUxHwCall_frame
              (H0 := platform 0 0 zeroArguments) ins1 ins2 world0)
    as (_ & _ & _ & _ & Hfive).
  destruct (setInputDistributionsViaUxHwCall_frame
              (H0 := platform 0 0 zeroArguments) ins2 ins1 world0)
    as (Hlen & Hrest & _).
  split; [exact (Hfive H1 H2 2%nat ltac:(vm_compute; lia))|].
  split; [exact (Hrest 5%nat ltac:(vm_compute; lia))|exact Hlen].
Defined.

Lemma main_outputs_of_last_iteration_witness :
  let a := arguments_of 1 3 true false false false false in
  numberOfMonteCarloIterations (common a) < SIZE_MODULUS
  /\ N.to_nat (numberOfMonteCarloIterations (common a)) = 3%nat
  /\ exists code st,
       main (H0 := platform 0 0 a) [] world0 = Some (code, st)
       /\ outputDistributions st
          = (calculateSensorOutput a (inputDistributions st)
               [None; None]).2.
Proof.
  intros a.
  assert (Hn : numberOfMonteCarloIterations (common a) < SIZE_MODULUS)
    by (vm_compute; reflexivity).
  split; [exact Hn|]. split; [reflexivity|].
  destruct (main_outputs_of_last_iteration (H0 := platform 0 0 a)
              [] world0 a 2%nat eq_refl Hn eq_refl)
    as (code & st & Hmain & Hins & Houts & _).
  exists code, st. split; [exact Hmain|].
  rewrite Houts, Hins. reflexivity.
Defined.

Lemma main_monteCarlo_samples_assigned_witness :
  let a := arguments_of 1 3 true false false false false in
  numberOfMonteCarloIterations (common a) * sizeof_double < SIZE_MODULUS
  /\ isMonteCarloMode (common a) = true
  /\ outputSelect (common a) <= kOutputDistributionIndexMax
  /\ exists code st samples,
       main (H0 := platform 0 0 a) [] world0 = Some (code, st)
       /\ monteCarloOutputSamples st = Some samples
       /\ length samples = 3%nat
       /\ exists v, samples !! 2%nat = Some (Some v).
Proof.
  intros a.
  assert (Hsize : numberOfMonteCarloIterations (common a) * sizeof_double
                  < SIZE_MODULUS) by (vm_compute; reflexivity).
  assert (Hsel : outputSelect (common a) <= kOutputDistributionIndexMax)
    by (vm_compute; discriminate).
  split; [exact Hsize|]. split; [reflexivity|]. split; [exact Hsel|].
  destruct (main_monteCarlo_samples_assigned (H0 := platform 0 0 a)
              [] world0 a eq_refl Hsize eq_refl Hsel)
    as (code & st & samples & Hmain & Hs & Hlen & _ & Hall).
  exists code, st, samples. split; [exact Hmain|]. split; [exact Hs|].
  split; [exact Hlen|]. exact (Hall 2%nat ltac:(vm_compute; lia)).
Defined.

(** [outputSelect] 5, standard output, two direct iterations. *)
Lemma main_unchecked_outputSelect_witness :
  let a := arguments_of 5 2 false false false false false in
  numberOfMonteCarloIterations (common a) < SIZE_MODULUS
  /\ kOutputDistributionIndexMax < outputSelect (common a)
  /\ exists code st,
       main (H0 := platform 0 0 a) [] world0 = Some (code, st)
       /\ outputDistributions st = [None; None]
       /\ calibratedSensorOutput st = None
       /\ In (CallPrintCalibratedValueAndProbabilities None None None)
             (trace st).
Proof.
  intros a.
  assert (Hn : numberOfMonteCarloIterations (common a) < SIZE_MODULUS)
    by (vm_compute; reflexivity).
  assert (Hsel : kOutputDistributionIndexMax < outputSelect (common a))
    by (vm_compute; reflexivity).
  split; [exact Hn|]. split; [exact Hsel|].
  destruct (main_unchecked_outputSelect (H0 := platform 0 0 a)
              [] world0 a 1%nat eq_refl Hn eq_refl Hsel)
    as (code & st & Hmain & Houts & Hvalue & Hprint).
  exists code, st. split; [exact Hmain|]. split; [exact Houts|].
  split; [exact (Hvalue eq_refl)|].
  rewrite <- (Hvalue eq_refl). exact (Hprint eq_refl eq_refl).
Defined.

(** Timing enabled in Monte Carlo mode: the clock is read around the loop
    and the aggregation. *)
Lemma main_timing_witness :
  let a := arguments_of 1 2 true true false false false in
  numberOfMonteCarloIterations (common a) < SIZE_MODULUS
  /\ isTimingEnabled (common a) || isBenchmarkingMode (common a) = true
  /\ exists code st samplerCalls samples rest t1,
       main (H0 := platform 0 0 a) [] world0 = Some (code, st)
       /\ length samplerCalls = 10%nat
       /\ forallb (fun e => negb (isComputationCall e)) rest = true
       /\ trace st
          = [CallCheckedMalloc 16; CallClock 1000] ++ samplerCalls
            ++ [CallCalculateMeanAndVarianceOfDoubleSamples samples 2;
                CallClock t1]
            ++ rest
       /\ cpuTimeUsedSeconds st
          = Some (Qred (inject_Z (t1 - 1000) / inject_Z 1000000)).
Proof.
  intros a.
  assert (Hn : numberOfMonteCarloIterations (common a) < SIZE_MODULUS)
    by (vm_compute; reflexivity).
  split; [exact Hn|]. split; [reflexivity|].
  destruct (main_timing (H0 := platform 0 0 a) [] world0 a eq_refl Hn)
    as (code & st & samplerCalls & rest & Hmain & Hlen & _ & Hrest & Htimed
        & _).
  destruct (Htimed eq_refl) as (Hcpu & Htrace).
  exists code, st, samplerCalls. eexists _, rest, _.
  split; [exact Hmain|]. split; [exact Hlen|]. split; [exact Hrest|].
  split; [exact Htrace|exact Hcpu].
Defined.

(** Benchmarking in Monte Carlo mode, with the JSON and file flags set. *)
Lemma main_benchmarking_output_witness :
  let a := arguments_of 1 2 true false true true true in
  numberOfMonteCarloIterations (common a) < SIZE_MODULUS
  /\ isBenchmarkingMode (common a) = true
  /\ isWriteToFileEnabled (common a) = true
  /\ exists st seconds samplerCalls t1 microseconds,
       main (H0 := platform 0 1 a) [] world0 = Some (0%Z, st)
       /\ cpuTimeUsedSeconds st = Some seconds
       /\ length samplerCalls = 10%nat
       /\ trace st
          = [CallCheckedMalloc 16; CallClock 1000] ++ samplerCalls
            ++ [CallCalculateMeanAndVarianceOfDoubleSamples
                  (monteCarloOutputSamples st) 2;
                CallClock t1;
                CallPrintfBenchmark (calibratedSensorOutput st) microseconds;
                CallSaveMonteCarloDoubleDataToDataDotOutFile
                  (monteCarloOutputSamples st) microseconds 2;
                CallFree (monteCarloOutputSamples st)].
Proof.
  intros a.
  assert (Hn : numberOfMonteCarloIterations (common a) < SIZE_MODULUS)
    by (vm_compute; reflexivity).
  split; [exact Hn|]. split; [reflexivity|]. split; [reflexivity|].
  destruct (main_benchmarking_output (H0 := platform 0 1 a)
              [] world0 a eq_refl Hn eq_refl)
    as (st & seconds & samplerCalls & Hmain & Hcpu & Hlen & _ & Htrace).
  exists st, seconds, samplerCalls. eexists _, _.
  split; [exact Hmain|]. split; [exact Hcpu|]. split; [exact Hlen|].
  exact Htrace.
Defined.

Lemma main_single_output_report_witness :
  let a := arguments_of 1 2 false true false false false in
  numberOfMonteCarloIterations (common a) < SIZE_MODULUS
  /\ outputSelect (common a) < kOutputDistributionIndexMax
  /\ exists code st,
       main (H0 := platform 0 0 a) [] world0 = Some (code, st)
       /\ List.filter isValueReportCall (trace st)
          = [CallPrintCalibratedValueAndProbabilities
               (calibratedSensorOutput st)
               (Some "Calibrated Differential Pressure"%string)
               (Some "Pa"%string)].
Proof.
  intros a.
  assert (Hn : numberOfMonteCarloIterations (common a) < SIZE_MODULUS)
    by (vm_compute; reflexivity).
  assert (Hsel : outputSelect (common a) < kOutputDistributionIndexMax)
    by (vm_compute; reflexivity).
  split; [exact Hn|]. split; [exact Hsel|].
  exact (main_single_output_report (H0 := platform 0 0 a)
           [] world0 a eq_refl Hn eq_refl eq_refl Hsel).
Defined.

Lemma main_all_outputs_report_witness :
  let a := arguments_of 2 1 false false false false false in
  numberOfMonteCarloIterations (common a) < SIZE_MODULUS
  /\ outputSelect (common a) = kOutputDistributionIndexMax
  /\ exists code st m p,
       main (H0 := platform 0 0 a) [] world0 = Some (code, st)
       /\ List.filter isValueReportCall (trace st)
          = [CallPrintCalibratedValueAndProbabilities m
               (Some "Calibrated Mass Flow"%string) (Some "sccm"%string);
             CallPrintCalibratedValueAndProbabilities p
               (Some "Calibrated Differential Pressure"%string)
               (Some "Pa"%string)].
Proof.
  intros a.
  assert (Hn : numberOfMonteCarloIterations (common a) < SIZE_MODULUS)
    by (vm_compute; reflexivity).
  split; [exact Hn|]. split; [reflexivity|].
  destruct (main_all_outputs_report (H0 := platform 0 0 a)
              [] world0 a 0%nat eq_refl Hn eq_refl eq_refl eq_refl eq_refl)
    as (code & st & Hmain & Hprints).
  exists code, st. eexists _, _. split; [exact Hmain|exact Hprints].
Defined.

Lemma main_json_report_witness :
  let a := arguments_of 2 1 false false false true false in
  numberOfMonteCarloIterations (common a) < SIZE_MODULUS
  /\ isOutputJSONMode (common a) = true
  /\ exists code st,
       main (H0 := platform 0 0 a) [] world0 = Some (code, st)
       /\ List.filter isValueReportCall (trace st)
          = [CallPrintJSONFormattedOutput None (outputDistributions st)].
Proof.
  intros a.
  assert (Hn : numberOfMonteCarloIterations (common a) < SIZE_MODULUS)
    by (vm_compute; reflexivity).
  split; [exact Hn|]. split; [reflexivity|].
  destruct (main_json_report (H0 := platform 0 0 a)
              [] world0 a eq_refl Hn eq_refl eq_refl)
    as (code & st & Hmain & Hjson & Hnull).
  exists code, st. split; [exact Hmain|].
  rewrite <- (Hnull eq_refl). exact Hjson.
Defined.

(** A command line that [getCommandLineArguments] rejects. *)
Lemma main_return_code_witness :
  let a := arguments_of 1 2 true false false false true in
  numberOfMonteCarloIterations (common a) < SIZE_MODULUS
  /\ exists code st,
       main (H0 := platform 1 0 a) [] world0 = Some (code, st)
       /\ code = 1%Z
       /\ trace st = []
       /\ monteCarloOutputSamples st = None.
Proof.
  intros a.
  assert (Hn : numberOfMonteCarloIterations (common a) < SIZE_MODULUS)
    by (vm_compute; reflexivity).
  split; [exact Hn|].
  destruct (main_return_code (H0 := platform 1 0 a) [] world0 Hn
              ltac:(discriminate))
    as (code & st & Hmain & _ & Herror & _).
  exists code, st. split; [exact Hmain|].
  exact (Herror ltac:(discriminate)).
Defined.

Lemma main_zero_iterations_witness :
  let a := arguments_of 1 0 false false false false false in
  numberOfMonteCarloIterations (common a) = 0
  /\ exists code st,
       main (H0 := platform 0 0 a) [] world0 = Some (code, st)
       /\ outputDistributions st = [None; None]
       /\ calibratedSensorOutput st = None.
Proof.
  intros a. split; [reflexivity|].
  destruct (main_zero_iterations (H0 := platform 0 0 a)
              [] world0 a eq_refl eq_refl)
    as (code & st & Hmain & _ & _ & Houts & Hvalue).
  exists code, st. split; [exact Hmain|]. split; [exact Houts|exact Hvalue].
Defined.

Lemma allocation_holds_all_samples_witness :
  let a := arguments_of 1 3 true false false false false in
  isMonteCarloMode (common a) = true
  /\ numberOfMonteCarloIterations (common a) < SIZE_MODULUS
  /\ exists block,
       monteCarloOutputSamples (loopEntry (H0 := platform 0 0 a) a world0)
       = Some block
       /\ length block = 3%nat.
Proof.
  intros a.
  assert (Hn : numberOfMonteCarloIterations (common a) < SIZE_MODULUS)
    by (vm_compute; reflexivity).
  split; [reflexivity|]. split; [exact Hn|].
  destruct (allocation_holds_all_samples (H0 := platform 0 0 a)
              a world0 eq_refl Hn) as (block & Hblock & _ & Hfits).
  exists block. split; [exact Hblock|].
  apply Hfits. vm_compute. reflexivity.
Defined.

Lemma main_monteCarlo_lifecycle_witness :
  let a := arguments_of 1 3 true false false false false in
  numberOfMonteCarloIterations (common a) * sizeof_double < SIZE_MODULUS
  /\ isMonteCarloMode (common a) = true
  /\ isWriteToFileEnabled (common a) = false
  /\ exists code st samples before,
       main (H0 := platform 0 0 a) [] world0 = Some (code, st)
       /\ code = 0%Z
       /\ length samples = 3%nat
       /\ trace st
          = CallCheckedMalloc 24 :: before
            ++ [CallSaveMonteCarloDoubleDataToDataDotOutFile (Some samples)
                  (microsecondsOf (cpuTimeUsedSeconds st)) 3;
                CallFree (Some samples)].
Proof.
  intros a.
  assert (Hsize : numberOfMonteCarloIterations (common a) * sizeof_double
                  < SIZE_MODULUS) by (vm_compute; reflexivity).
  split; [exact Hsize|]. split; [reflexivity|]. split; [reflexivity|].
  destruct (main_monteCarlo_lifecycle (H0 := platform 0 0 a)
              [] world0 a eq_refl Hsize eq_refl)
    as (code & st & samples & Hmain & _ & Hlen & _ & _ & Hok).
  destruct (Hok (or_introl eq_refl)) as (Hcode & before & Htrace & _).
  exists code, st, samples, before. split; [exact Hmain|].
  split; [exact Hcode|]. split; [exact Hlen|exact Htrace].
Defined.

Lemma main_direct_mode_witness :
  let a := arguments_of 0 2 false false false false false in
  numberOfMonteCarloIterations (common a) < SIZE_MODULUS
  /\ isMonteCarloMode (common a) = false
  /\ exists code st,
       main (H0 := platform 0 0 a) [] world0 = Some (code, st)
       /\ monteCarloOutputSamples st = None
       /\ forall e, In e (trace st) -> isLifecycleCall e = false.
Proof.
  intros a.
  assert (Hn : numberOfMonteCarloIterations (common a) < SIZE_MODULUS)
    by (vm_compute; reflexivity).
  split; [exact Hn|]. split; [reflexivity|].
  destruct (main_direct_mode (H0 := platform 0 0 a)
              [] world0 a eq_refl Hn eq_refl)
    as (code & st & Hmain & Hnull & Hcalls & _).
  exists code, st. split; [exact Hmain|]. split; [exact Hnull|exact Hcalls].
Defined.

(** Monte Carlo mode, three iterations, the differential pressure
    selected, standard format: the three samples, their mean, and the one
    value printed. *)
Lemma main_monteCarlo_reports_mean_witness :
  let a := arguments_of 1 3 true false false false false in
  numberOfMonteCarloIterations (common a) * sizeof_double < SIZE_MODULUS
  /\ isMonteCarloMode (common a) = true
  /\ exists code st,
       main (H0 := platform 0 0 a) [] world0 = Some (code, st)
       /\ monteCarloOutputSamples st
          = Some [Some (7596386044231091 # 2969267000000);
                  Some (62057172571137 # 23555000000);
                  Some (31278677744233 # 11565000000)]
       /\ calibratedSensorOutput st
          = Some (26073633107656540646537 # 9904513942035000000)
       /\ List.filter isValueReportCall (trace st)
          = [CallPrintCalibratedValueAndProbabilities
               (Some (26073633107656540646537 # 9904513942035000000))
               (Some "Calibrated Differential Pressure"%string)
               (Some "Pa"%string)].
Proof.
  intros a.
  assert (Hsize : numberOfMonteCarloIterations (common a) * sizeof_double
                  < SIZE_MODULUS) by (vm_compute; reflexivity).
  split; [exact Hsize|]. split; [reflexivity|].
  destruct (main_monteCarlo_reports_mean (H0 := platform 0 0 a)
              [] world0 a eq_refl Hsize eq_refl)
    as (code & st & samples & Hmain & Hsamples & Hlen & Hcells & Hmean
        & Hreports).
  assert (E0 : samples !! 0%nat
               = Some (Some (7596386044231091 # 2969267000000))).
  { etrans; [apply (Hcells 0%nat); vm_compute; lia|].
    vm_compute. reflexivity. }
  assert (E1 : samples !! 1%nat = Some (Some (62057172571137 # 23555000000))).
  { etrans; [apply (Hcells 1%nat); vm_compute; lia|].
    vm_compute. reflexivity. }
  assert (E2 : samples !! 2%nat = Some (Some (31278677744233 # 11565000000))).
  { etrans; [apply (Hcells 2%nat); vm_compute; lia|].
    vm_compute. reflexivity. }
  assert (Hs : samples
               = [Some (7596386044231091 # 2969267000000);
                  Some (62057172571137 # 23555000000);
                  Some (31278677744233 # 11565000000)]).
  { destruct samples as [|s0 [|s1 [|s2 [|]]]]; try discriminate Hlen.
    injection E0 as ->. injection E1 as ->. injection E2 as ->.
    reflexivity. }
  subst samples.
  cbn zeta in Hmean, Hreports.
  match type of Hmean with
  | _ = Some ?average =>
      assert (Haverage :
        average = (26073633107656540646537 # 9904513942035000000))
        by (vm_compute; reflexivity)
  end.
  rewrite Haverage in Hmean, Hreports.
  exists code, st. split; [exact Hmain|]. split; [exact Hsamples|].
  split; [exact Hmean|exact Hreports].
Defined.

(** Monte Carlo mode with all outputs selected, standard format: the two
    values printed are the entries the last iteration left in
    [outputDistributions], and neither is the mean of the samples, which
    [calibratedSensorOutput] holds. *)
Lemma main_monteCarlo_all_outputs_not_mean :
  let a := arguments_of 2 3 true false false false false in
  let average := (26073633107656540646537 # 9904513942035000000) in
  let massFlow := (5259884677 # 2000000) in
  let pressure := (31278677744233 # 11565000000) in
  isMonteCarloMode (common a) = true
  /\ exists code st samples,
       main (H0 := platform 0 0 a) [] world0 = Some (code, st)
       /\ monteCarloOutputSamples st = Some samples
       /\ mean (exactMeanAndVariance (Some samples) 3) = average
       /\ calibratedSensorOutput st = Some average
       /\ List.filter isValueReportCall (trace st)
          = [CallPrintCalibratedValueAndProbabilities (Some massFlow)
               (Some "Calibrated Mass Flow"%string) (Some "sccm"%string);
             CallPrintCalibratedValueAndProbabilities (Some pressure)
               (Some "Calibrated Differential Pressure"%string)
               (Some "Pa"%string)]
       /\ massFlow <> average
       /\ pressure <> average.
Proof.
  intros a average massFlow pressure. split; [reflexivity|].
  assert (Hn : numberOfMonteCarloIterations (common a) < SIZE_MODULUS)
    by (vm_compute; reflexivity).
  destruct (main_value_reports (H0 := platform 0 0 a) [] world0 a eq_refl Hn)
    as (code & st & Hmain & Hvalue & Hsamples & Houts & Hreports).
  assert (Es : monteCarloOutputSamples st
               = Some [Some (7596386044231091 # 2969267000000);
                       Some (62057172571137 # 23555000000);
                       Some (31278677744233 # 11565000000)])
    by (rewrite Hsamples; vm_compute; reflexivity).
  assert (Ev : calibratedSensorOutput st = Some average)
    by (rewrite Hvalue; vm_compute; reflexivity).
  assert (Eo : outputDistributions st = [Some massFlow; Some pressure])
    by (rewrite Houts; vm_compute; reflexivity).
  exists code, st. eexists. split; [exact Hmain|]. split; [exact Es|].
  split; [vm_compute; reflexivity|]. split; [exact Ev|]. split.
  { rewrite Hreports, Eo. reflexivity. }
  split; discriminate.
Defined.

End FurtherInstances.
